(** * texbuild: a shallow embedding of [texbuild/arbitrary.py] and
      [texbuild/build.py], and the properties of its build transaction.

    The program is a thin driver around operating-system primitives
    ([os.mkdir], [os.chdir], [shutil.copy2], [shutil.rmtree]) and two child
    processes ([rsync], [latexmk]).  The embedding keeps that shape:

    - a [World] holds the file tree, the working directory of the process
      and a chronological [trace] of every primitive the program called and
      every string it wrote to the console;
    - Python code is a computation [IO A := World -> result A * World],
      where a [result] is a returned value or a raised exception;
    - [try]/[except]/[finally] and the [with] statement are combinators of
      that monad;
    - child processes are a parameter [spawn] of the program: what a child
      does to the file tree is its own business, the program only sees the
      exit status. *)

From Stdlib Require Import ZArith Ascii String.
From stdpp Require Import base strings list sorting gmap.

Open Scope Z_scope.
Open Scope string_scope.
Open Scope list_scope.

(** ** Python values and exceptions *)

(** Arguments of [build_document] are dynamically typed: [run_args] hands the
    list of compiler options to a parameter that is used as a string. *)
Inductive pyval : Type :=
| VStr (s : string)
| VList (l : list string).

(** The exception classes the program can meet. *)
Inductive exn : Type :=
| FileExistsError
| FileNotFoundError
| NotADirectoryError
| IsADirectoryError
| PermissionError
| OSError (errno : Z)
| SameFileError
| CalledProcessError (returncode : Z) (cmd : list string)
| TypeError
| ValueError
| KeyboardInterrupt.

(** [isinstance(e, OSError)] *)
Definition is_OSError (e : exn) : bool :=
  match e with
  | CalledProcessError _ _ | TypeError | ValueError | KeyboardInterrupt => false
  | _ => true
  end.

(** [isinstance(e, CalledProcessError)] *)
Definition is_CalledProcessError (e : exn) : bool :=
  match e with
  | CalledProcessError _ _ => true
  | _ => false
  end.

Inductive result (A : Type) : Type :=
| Ret (a : A)
| Raise (e : exn).
Arguments Ret {A} a.
Arguments Raise {A} e.

(** ** [posixpath]: path arithmetic on strings *)

Module posixpath.

Definition slash : ascii := "/"%char.

(** [p.startswith("/")] *)
Definition isabs (p : string) : bool :=
  match p with
  | String c _ => Ascii.eqb c slash
  | EmptyString => false
  end.

(** [p.endswith("/")] *)
Fixpoint endswith_slash (p : string) : bool :=
  match p with
  | EmptyString => false
  | String c EmptyString => Ascii.eqb c slash
  | String _ p' => endswith_slash p'
  end.

(** One step of [os.path.join(a, *p)]: an absolute component discards what
    came before, otherwise a separator is added unless the prefix is empty
    or already ends with one. *)
Definition join2 (a b : string) : string :=
  if isabs b then b
  else if bool_decide (a = "") || endswith_slash a then a +:+ b
  else a +:+ "/" +:+ b.

(** [os.path.join(a, *p)] *)
Definition join (a : string) (p : list string) : string :=
  foldl join2 a p.

(** [p.split("/")] *)
Fixpoint split (p : string) : list string :=
  match p with
  | EmptyString => [""]
  | String c p' =>
      if Ascii.eqb c slash then "" :: split p'
      else match split p' with
           | x :: xs => String c x :: xs
           | [] => [String c ""]
           end
  end.

(** [os.path.basename(p)]: what follows the last separator. *)
Definition basename (p : string) : string :=
  List.last (split p) "".

End posixpath.

(** ** The file tree *)

(** A location is the list of the names from the root down to the entry;
    [[]] is the root directory. *)
Abbreviation loc := (list string).

Inductive node : Type :=
| File (content : string)
| Dir.

#[global] Instance node_eq_dec : EqDecision node.
Proof. solve_decision. Defined.

#[global] Instance exn_eq_dec : EqDecision exn.
Proof. solve_decision. Defined.

Abbreviation tree := (gmap loc node).

Definition parent (q : loc) : loc := removelast q.
Arguments parent : simpl never.

(** How the kernel walks a path string: empty names and [.] are skipped,
    [..] goes up, an absolute path starts at the root and a relative one at
    the working directory.  There are no symbolic links in the model. *)
Definition walk (acc : loc) (c : string) : loc :=
  if bool_decide (c = "") || bool_decide (c = ".") then acc
  else if bool_decide (c = "..") then parent acc
  else acc ++ [c].

Definition resolve (wd : loc) (p : string) : loc :=
  foldl walk (if posixpath.isabs p then [] else wd) (posixpath.split p).

(** The string [os.getcwd()] returns for a location. *)
Fixpoint loc_body (q : loc) : string :=
  match q with
  | [] => ""
  | c :: q' => "/" +:+ c +:+ loc_body q'
  end.

Definition loc_str (q : loc) : string :=
  match q with
  | [] => "/"
  | _ => loc_body q
  end.

(** [search t pre rest] follows the names [rest] below [pre] and fails as the
    kernel does when one of the directories on the way is missing (ENOENT)
    or is not a directory (ENOTDIR). *)
Fixpoint search (t : tree) (pre rest : loc) : option exn :=
  match t !! pre with
  | Some Dir =>
      match rest with
      | [] => None
      | c :: rest' => search t (pre ++ [c]) rest'
      end
  | Some (File _) => Some NotADirectoryError
  | None => Some FileNotFoundError
  end.

(** [os.stat] on a location. *)
Definition stat (t : tree) (q : loc) : result node :=
  match q with
  | [] => match t !! [] with Some n => Ret n | None => Raise FileNotFoundError end
  | _ =>
      match search t [] (parent q) with
      | Some e => Raise e
      | None =>
          match t !! q with
          | Some n => Ret n
          | None => Raise FileNotFoundError
          end
      end
  end.

(** The entries directly inside a directory, in the order of their names'
    encoding. *)
Definition children (t : tree) (q : loc) : list (loc * node) :=
  filter (λ kn, bool_decide (kn.1 ≠ [] ∧ parent kn.1 = q)) (map_to_list t).

(** ** The world *)

Inductive event : Type :=
| EWrite (text : string)                  (* text written to standard output *)
| EGetcwd
| EChdir (q : loc)
| EMkdir (q : loc)
| EStat (q : loc)
| EUnlink (q : loc)
| ERmdir (q : loc)
| ECopyfile (src dst : loc)
| ESpawn (argv : list string) (wd : loc) (status : option Z).

Record World : Type := mkWorld {
  fs : tree;                (* the file tree *)
  cwd : loc;                (* working directory of the process *)
  undeletable : gset loc;   (* entries whose removal the kernel refuses *)
  trace : list event;       (* what happened so far, oldest first *)
}.

Definition log (e : event) (w : World) : World :=
  mkWorld (fs w) (cwd w) (undeletable w) (trace w ++ [e]).

Definition set_fs (t : tree) (w : World) : World :=
  mkWorld t (cwd w) (undeletable w) (trace w).

Definition set_cwd (q : loc) (w : World) : World :=
  mkWorld (fs w) q (undeletable w) (trace w).

(** ** Computations *)

Definition IO (A : Type) : Type := World → result A * World.

Definition ret {A} (a : A) : IO A := λ w, (Ret a, w).

Definition raise {A} (e : exn) : IO A := λ w, (Raise e, w).

Definition bind {A B} (m : IO A) (k : A → IO B) : IO B :=
  λ w, match m w with
       | (Ret a, w') => k a w'
       | (Raise e, w') => (Raise e, w')
       end.

#[global] Instance IO_ret : MRet IO := @ret.
#[global] Instance IO_bind : MBind IO := λ A B k m, bind m k.

(** [try: m  except <handles>: h] *)
Definition try_except {A} (m : IO A) (handles : exn → bool) (h : exn → IO A) : IO A :=
  λ w, match m w with
       | (Ret a, w') => (Ret a, w')
       | (Raise e, w') => if handles e then h e w' else (Raise e, w')
       end.

(** [try: m  finally: f].  The clean-up runs on both paths; when it raises,
    its exception replaces the outcome of [m]. *)
Definition try_finally {A} (m : IO A) (f : IO unit) : IO A :=
  λ w, match m w with
       | (r, w') =>
           match f w' with
           | (Ret _, w'') => (r, w'')
           | (Raise e, w'') => (Raise e, w'')
           end
       end.

(** [for x in xs: body(x)] *)
Fixpoint for_each {A} (xs : list A) (body : A → IO unit) : IO unit :=
  match xs with
  | [] => ret ()
  | x :: xs' => body x;; for_each xs' body
  end.

(** ** Operating-system primitives *)

Definition ENOTEMPTY : Z := 39.
Definition EBUSY : Z := 16.

Definition has_children (t : tree) (q : loc) : bool :=
  bool_decide (children t q ≠ []).

Module os.

(** The primitives that take a location are the [dir_fd]-relative calls of
    the library; those that take a string resolve it first. *)

Definition stat_at (q : loc) : IO node := λ w,
  (stat (fs w) q, log (EStat q) w).

Definition mkdir_at (q : loc) : IO unit := λ w,
  let w := log (EMkdir q) w in
  match q with
  | [] => (Raise FileExistsError, w)
  | _ =>
      match search (fs w) [] (parent q) with
      | Some e => (Raise e, w)
      | None =>
          match fs w !! q with
          | Some _ => (Raise FileExistsError, w)
          | None => (Ret (), set_fs (<[q := Dir]> (fs w)) w)
          end
      end
  end.

Definition unlink_at (q : loc) : IO unit := λ w,
  let w := log (EUnlink q) w in
  match stat (fs w) q with
  | Raise e => (Raise e, w)
  | Ret Dir => (Raise IsADirectoryError, w)
  | Ret (File _) =>
      if bool_decide (q ∈ undeletable w) then (Raise PermissionError, w)
      else (Ret (), set_fs (delete q (fs w)) w)
  end.

Definition rmdir_at (q : loc) : IO unit := λ w,
  let w := log (ERmdir q) w in
  match stat (fs w) q with
  | Raise e => (Raise e, w)
  | Ret (File _) => (Raise NotADirectoryError, w)
  | Ret Dir =>
      if bool_decide (q = []) then (Raise (OSError EBUSY), w)
      else if has_children (fs w) q then (Raise (OSError ENOTEMPTY), w)
      else if bool_decide (q ∈ undeletable w) then (Raise PermissionError, w)
      else (Ret (), set_fs (delete q (fs w)) w)
  end.

(** The kernel refuses the empty path with ENOENT. *)
Definition at_path {A} (p : string) (f : loc → IO A) : IO A := λ w,
  if bool_decide (p = "") then (Raise FileNotFoundError, w)
  else f (resolve (cwd w) p) w.

Definition getcwd : IO string := λ w,
  let w := log EGetcwd w in
  match stat (fs w) (cwd w) with
  | Ret Dir => (Ret (loc_str (cwd w)), w)
  | _ => (Raise FileNotFoundError, w)
  end.

Definition chdir_at (q : loc) : IO unit := λ w,
  let w := log (EChdir q) w in
  match stat (fs w) q with
  | Raise e => (Raise e, w)
  | Ret (File _) => (Raise NotADirectoryError, w)
  | Ret Dir => (Ret (), set_cwd q w)
  end.

Definition chdir (p : string) : IO unit := at_path p chdir_at.
Definition mkdir (p : string) : IO unit := at_path p mkdir_at.
Definition stat (p : string) : IO node := at_path p stat_at.

(** [os.path.exists(p)]: [os.stat] did not fail. *)
Definition path_exists (p : string) : IO bool :=
  try_except (stat p;; mret true) is_OSError (λ _, mret false).

(** [os.path.isdir(p)] *)
Definition path_isdir (p : string) : IO bool :=
  try_except (n ← stat p; mret (bool_decide (n = Dir))) is_OSError (λ _, mret false).

(** The names [path.split] cuts a location into, each prefix in turn:
    what [os.makedirs] walks through. *)
Definition prefixes (q : loc) : list loc :=
  (λ n, take n q) <$> seq 1 (length q).

(** [os.makedirs(name, exist_ok=...)]: the missing ancestors are created
    first (an ancestor that turned up meanwhile is not an error), then the
    leaf; an error on the leaf is forgiven only when [exist_ok] is set and
    the leaf is a directory. *)
Definition makedirs (name : string) (exist_ok : bool) : IO unit :=
  at_path name (λ q,
    for_each (prefixes (parent q)) (λ a,
      present ← try_except (stat_at a;; mret true) is_OSError (λ _, mret false);
      if present : bool then ret ()
      else try_except (mkdir_at a) (λ e, bool_decide (e = FileExistsError)) (λ _, ret ()));;
    try_except (mkdir_at q) is_OSError (λ e,
      isd ← try_except (n ← stat_at q; mret (bool_decide (n = Dir))) is_OSError (λ _, mret false);
      if negb exist_ok || negb isd then raise e else ret ())).

End os.

(** ** Child processes *)

(** A program receives its arguments, the directory it is started in, the
    removals the kernel would refuse and the file tree; it leaves an exit
    status and a file tree.  [None] stands for an executable that cannot be
    found. *)
Definition program : Type :=
  list string → loc → gset loc → tree → option (Z * tree).

Module subprocess.

(** [subprocess.run(argv, check=...)]; the exit status stands for the
    [CompletedProcess] the callers never look at. *)
Definition run (spawn : program) (argv : list string) (check : bool) : IO Z := λ w,
  match spawn argv (cwd w) (undeletable w) (fs w) with
  | None => (Raise FileNotFoundError, log (ESpawn argv (cwd w) None) w)
  | Some (status, t) =>
      let w := set_fs t (log (ESpawn argv (cwd w) (Some status)) w) in
      if check && negb (status =? 0)%Z then (Raise (CalledProcessError status argv), w)
      else (Ret status, w)
  end.

End subprocess.

(** ** [shutil] *)

(** [below q d]: [d] lies strictly inside the directory [q]. *)
Definition below (q d : loc) : bool :=
  bool_decide (q `prefix_of` d) && negb (bool_decide (d = q)).

(** Everything inside [q], with the location of each entry. *)
Definition descendants (t : tree) (q : loc) : list (loc * node) :=
  filter (λ kn, below q kn.1) (map_to_list t).

Definition deeper (a b : loc * node) : Prop := (length b.1 ≤ length a.1)%nat.
Definition shallower (a b : loc * node) : Prop := (length a.1 ≤ length b.1)%nat.

#[global] Instance deeper_dec a b : Decision (deeper a b).
Proof. unfold deeper. apply _. Defined.
#[global] Instance shallower_dec a b : Decision (shallower a b).
Proof. unfold shallower. apply _. Defined.

Module shutil.

Definition copyfile_at (s d : loc) : IO unit := λ w,
  let w := log (ECopyfile s d) w in
  match stat (fs w) s with
  | Raise e => (Raise e, w)
  | Ret Dir => (Raise IsADirectoryError, w)
  | Ret (File c) =>
      if bool_decide (s = d) then (Raise SameFileError, w)
      else match d with
           | [] => (Raise IsADirectoryError, w)
           | _ =>
               match search (fs w) [] (parent d) with
               | Some e => (Raise e, w)
               | None =>
                   match fs w !! d with
                   | Some Dir => (Raise IsADirectoryError, w)
                   | _ => (Ret (), set_fs (<[d := File c]> (fs w)) w)
                   end
               end
           end
  end.

(** [shutil.copyfile(src, dst)]; opening [dst] for writing truncates an
    existing file. *)
Definition copyfile (src dst : string) : IO unit :=
  os.at_path src (λ s, os.at_path dst (λ d, copyfile_at s d)).

(** [shutil.copy2(src, dst)]: a directory as destination receives the file
    under the base name of [src].  Timestamps and permission bits are not
    part of the file tree. *)
Definition copy2 (src dst : string) : IO string :=
  isd ← os.path_isdir dst;
  let dst := if isd : bool then posixpath.join dst [posixpath.basename src] else dst in
  copyfile src dst;;
  mret dst.

(** [shutil.rmtree(path, onerror=onerror)] in its [dir_fd]-relative form.
    The entries inside [path] are removed bottom-up, files with [unlink]
    and directories with [rmdir], then [path] itself; every [OSError] is
    handed to [onerror] with the name of the failing function and the full
    name of the entry, and the traversal carries on.  The callback shares
    the mutable state [S] of its enclosing function.

    The kernel of this model refuses removals and nothing else: every
    directory of the tree can be opened and read, so the traversal comes by
    every entry.  Where [os.open] or [os.scandir] fails on a directory, the
    library hands that directory to [onerror] and leaves what is inside
    alone; no world of the model has such a directory. *)
Section rmtree.
Context {S : Type}.
Variable onerror : string → string → exn → S → IO S.

Definition guarded (func fullname : string) (m : IO unit) (s : S) : IO S :=
  try_except (m;; mret s) is_OSError (λ e, onerror func fullname e s).

Definition remove_entry (path : string) (q : loc) (kn : loc * node) (s : S) : IO S :=
  let fullname := posixpath.join path (drop (length q) kn.1) in
  match kn.2 with
  | Dir => guarded "rmdir" fullname (os.rmdir_at kn.1) s
  | File _ => guarded "unlink" fullname (os.unlink_at kn.1) s
  end.

Fixpoint remove_entries (path : string) (q : loc) (l : list (loc * node)) (s : S) : IO S :=
  match l with
  | [] => mret s
  | kn :: l' => s' ← remove_entry path q kn s; remove_entries path q l' s'
  end.

Definition rmtree (path : string) (s : S) : IO S := λ w,
  if bool_decide (path = "") then onerror "lstat" path FileNotFoundError s w
  else
    let q := resolve (cwd w) path in
    match os.stat_at q w with
    | (Raise e, w) => onerror "lstat" path e s w
    | (Ret (File _), w) =>
        (s ← onerror "scandir" path NotADirectoryError s;
         guarded "rmdir" path (os.rmdir_at q) s) w
    | (Ret Dir, w) =>
        (s ← remove_entries path q (merge_sort deeper (descendants (fs w) q)) s;
         guarded "rmdir" path (os.rmdir_at q) s) w
    end.
End rmtree.

End shutil.

(** ** [rsync]

    The mirroring tool is not part of the program, it is a child process.
    This is what its manual says of the invocation the program uses:
    [rsync OPTION... SRC DEST] with a directory [SRC]; a trailing slash on
    [SRC] sends the contents of the directory rather than the directory;
    [-a] (or [-r]) recurses; entries of [DEST] that [SRC] does not have are
    removed only under [--delete]; a non-empty directory in the way of a file
    is left alone. *)
Module rsync.

Definition is_option (a : string) : bool :=
  match a with
  | String c _ => Ascii.eqb c "-"
  | EmptyString => false
  end.

Definition is_long (a : string) : bool :=
  match a with
  | String c (String c' _) => Ascii.eqb c "-" && Ascii.eqb c' "-"
  | _ => false
  end.

Fixpoint mentions (c : ascii) (a : string) : bool :=
  match a with
  | EmptyString => false
  | String c' a' => Ascii.eqb c c' || mentions c a'
  end.

Definition short_flag (c : ascii) (args : list string) : bool :=
  existsb (λ a, is_option a && negb (is_long a) && mentions c a) args.

Definition long_flag (name : string) (args : list string) : bool :=
  existsb (λ a, bool_decide (a = name)) args.

Definition recursive (args : list string) : bool :=
  short_flag "a" args || short_flag "r" args
  || long_flag "--archive" args || long_flag "--recursive" args.

Definition deleting (args : list string) : bool :=
  long_flag "--delete" args || long_flag "--del" args
  || long_flag "--delete-before" args || long_flag "--delete-during" args
  || long_flag "--delete-delay" args || long_flag "--delete-after" args.

(** Sending one entry [kn] of the source [s] to its place under [d]; the
    flag of the state records that something could not be transferred. *)
Definition transfer (und : gset loc) (s d : loc) (st : tree * bool) (kn : loc * node)
  : tree * bool :=
  let t := st.1 in
  let target := d ++ drop (length s) kn.1 in
  match search t [] (parent target) with
  | Some _ => (t, true)
  | None =>
      match kn.2, t !! target with
      | Dir, None => (<[target := Dir]> t, st.2)
      | Dir, Some Dir => st
      | Dir, Some (File _) =>
          if bool_decide (target ∈ und) then (t, true)
          else (<[target := Dir]> t, st.2)
      | File c, None => (<[target := File c]> t, st.2)
      | File c, Some (File _) =>
          if bool_decide (target ∈ und) then (t, true)
          else (<[target := File c]> t, st.2)
      | File c, Some Dir =>
          if has_children t target || bool_decide (target ∈ und) then (t, true)
          else (<[target := File c]> t, st.2)
      end
  end.

(** The destination directory is made when only its last name is
    missing. *)
Definition make_destination (und : gset loc) (d0 : loc) (t : tree) : tree * bool :=
  match d0, t !! d0 with
  | _ :: _, None => transfer und d0 d0 (t, false) (d0, Dir)
  | _, _ => (t, false)
  end.

(** [--delete]: what the destination has and the source has not goes,
    unless the kernel refuses. *)
Definition prune (und : gset loc) (src : tree) (s d : loc) (t : tree) : tree :=
  filter (λ kn, ¬ (below d kn.1 = true
                   ∧ src !! (s ++ drop (length d) kn.1) = None
                   ∧ kn.1 ∉ und)) t.

Definition run (args : list string) (wd : loc) (und : gset loc) (t : tree)
  : option (Z * tree) :=
  match List.filter (λ a, negb (is_option a)) args with
  | [src; dst] =>
      let s := resolve wd src in
      let d0 := resolve wd dst in
      match stat t s with
      | Ret Dir =>
          if negb (recursive args) then Some (0, t)
          else
            let d := if posixpath.endswith_slash src then d0
                     else d0 ++ [posixpath.basename src] in
            let entries := merge_sort shallower (descendants t s) in
            let top := if posixpath.endswith_slash src then [] else [(s, Dir)] in
            let st0 := make_destination und d0 t in
            match stat st0.1 d0 with
            | Ret Dir =>
                let st := foldl (transfer und s d) st0 (top ++ entries) in
                let t' := if deleting args then prune und t s d st.1 else st.1 in
                Some (if st.2 then 23 else 0, t')
            | _ => Some (if bool_decide (st0.1 !! d0 = None) then 11 else 3, t)
            end
      | Ret (File c) =>
          (* a regular file does not answer to a name with a trailing slash *)
          if posixpath.endswith_slash src then Some (23, t)
          else
            let target :=
              match stat t d0 with
              | Ret Dir => d0 ++ [posixpath.basename src]
              | _ => d0
              end in
            let st := transfer und s target (t, false) (s, File c) in
            Some (if st.2 then 23 else 0, st.1)
      | Raise _ => Some (23, t)
      end
  | _ => Some (1, t)
  end.

End rsync.

(** ** [texbuild/arbitrary.py] *)

Module arbitrary.

Definition default {A} (x : option A) (default_value : A) : A :=
  match x with
  | None => default_value
  | Some x => x
  end.

(** [makedir] with its variable-length [path] and the keywords [exists_ok]
    and [recursive].
    Permission bits are not part of the file tree, so [mode] is left out;
    [os.path.join] needs at least one argument. *)
Definition makedir (path : list string) (exists_ok recursive : bool) : IO string :=
  match path with
  | [] => raise TypeError
  | a :: p =>
      let d := posixpath.join a p in
      (if recursive then os.makedirs d exists_ok
       else try_except (os.mkdir d) (λ e, bool_decide (e = FileExistsError))
              (λ e, if exists_ok then ret () else raise e));;
      mret d
  end.

(** [with having_cwd(directory): body].  The generator behind the context
    manager runs up to its [yield] on entry and from it on exit, so the
    body of the [with] statement sits where the [yield] is, inside the
    [try]. *)
Definition having_cwd {A} (directory : string) (body : IO A) : IO A :=
  cur_dir ← os.getcwd;
  try_finally (os.chdir directory;; body) (os.chdir cur_dir).

End arbitrary.

(** ** [texbuild/build.py] *)

Module build.
Import arbitrary.

Definition ESC : string := String "027"%char "".
Definition LF : string := String "010"%char "".

Module Bcolors.
Definition HEADER : string := ESC +:+ "[95m".
Definition INFOBLUE : string := ESC +:+ "[94m".
Definition OKGREEN : string := ESC +:+ "[92m".
Definition WARNING : string := ESC +:+ "[93m".
Definition FAIL : string := ESC +:+ "[91m".
Definition ENDC : string := ESC +:+ "[0m".
Definition BOLD : string := ESC +:+ "[1m".
Definition UNDERLINE : string := ESC +:+ "[4m".
End Bcolors.

(** [print(text, end=end_)] *)
Definition print (text end_ : string) : IO unit := λ w,
  (Ret (), log (EWrite (text +:+ end_)) w).

Definition print_markup (txt markup end_ : string) : IO unit :=
  print (markup +:+ txt +:+ Bcolors.ENDC) end_.

(** [txt.splitlines()], for line feeds. *)
Fixpoint splitlines (txt : string) : list string :=
  match txt with
  | EmptyString => []
  | String c txt' =>
      if Ascii.eqb c "010" then "" :: splitlines txt'
      else match splitlines txt' with
           | x :: xs => String c x :: xs
           | [] => [String c ""]
           end
  end.

(** ["*" * n] *)
Fixpoint stars (n : nat) : string :=
  match n with
  | O => ""
  | S n' => String "*" (stars n')
  end.

(** [max] of an empty sequence is a [ValueError]. *)
Definition print_frame (txt markup : string) : IO unit :=
  match String.length <$> splitlines txt with
  | [] => raise ValueError
  | n :: ns =>
      let border := stars (foldl Nat.max n ns + 4) in
      print_markup border Bcolors.BOLD LF;;
      print_markup "| " Bcolors.BOLD "";;
      print_markup txt markup "";;
      print_markup " |" Bcolors.BOLD LF;;
      print_markup border Bcolors.BOLD LF
  end.

Definition frame_markup : string := Bcolors.INFOBLUE +:+ Bcolors.BOLD.

(** [value + suffix] where [suffix] is a [str]: it is a [TypeError] to add
    a string to a list. *)
Definition add_str (value : pyval) (suffix : string) : IO string :=
  match value with
  | VStr s => ret (s +:+ suffix)
  | VList _ => raise TypeError
  end.

Record TexBuild : Type := mkTexBuild { _tex_root : string }.

Definition tex_root (self : TexBuild) : string := _tex_root self.
Definition tex_src (self : TexBuild) : string := posixpath.join (tex_root self) ["src"].
Definition tex_bld (self : TexBuild) : string := posixpath.join (tex_root self) ["bld"].
Definition tex_dst (self : TexBuild) : string := posixpath.join (tex_root self) ["dst"].

Definition init_dirs (self : TexBuild) : IO unit :=
  makedir [tex_root self] true true;;
  makedir [tex_src self] true false;;
  mret ().

(** The text [print] shows for a function and for an exception (the
    interpreter adds the file name to the latter). *)
Definition repr_func (func : string) : string :=
  "<built-in function " +:+ func +:+ ">".

Definition str_exn (e : exn) : string :=
  match e with
  | FileExistsError => "[Errno 17] File exists"
  | FileNotFoundError => "[Errno 2] No such file or directory"
  | NotADirectoryError => "[Errno 20] Not a directory"
  | IsADirectoryError => "[Errno 21] Is a directory"
  | PermissionError => "[Errno 13] Permission denied"
  | OSError 39 => "[Errno 39] Directory not empty"
  | OSError 16 => "[Errno 16] Device or resource busy"
  | OSError _ => "[Errno] Unknown error"
  | SameFileError => "are the same file"
  | CalledProcessError _ _ => "Command returned non-zero exit status"
  | TypeError => "can only concatenate list (not 'str') to list"
  | ValueError => "max() arg is an empty sequence"
  | KeyboardInterrupt => ""
  end.

(** The arguments of [argparse]'s [Namespace]; [latexmk_opts] is [None]
    when the option is not given. *)
Record Namespace : Type := mkNamespace {
  root : string;
  cmd : string;
  document : string;
  latexmk_opts : option (list string);
}.

Section TexBuild.

(** What the executables on the machine do. *)
Variable spawn : program.

(** How many changes of the sources are seen before the interrupt
    arrives. *)
Variable patience : nat.

Definition copy_build_files (self : TexBuild) : IO unit :=
  let rsync_command := ["rsync"; "-av"; tex_src self +:+ "/"; tex_bld self] in
  print_frame "COPYING BUILD FILES TO BLD DIRECTORY" frame_markup;;
  makedir [tex_bld self] true false;;
  subprocess.run spawn rsync_command false;;
  mret ().

Definition _run_latexmk_in_bld_dir (self : TexBuild) (tex_filename : string)
    (latexmk_opts : list string) : IO unit :=
  let build_command :=
    ["latexmk";
     "-halt-on-error"; "-interaction=nonstopmode";
     "-pdflatex=lualatex"; "-pdf"; tex_filename +:+ ".tex"] ++
    latexmk_opts in
  having_cwd (tex_bld self)
    (print_frame "BUILDING DOCUMENT" frame_markup;;
     subprocess.run spawn build_command true;;
     mret ()).

Definition _copy_to_dst (self : TexBuild) (tex_filename : string)
    (pdf_filename : pyval) : IO unit :=
  let document_pdf_bld := posixpath.join (tex_bld self) [tex_filename +:+ ".pdf"] in
  pdf ← add_str pdf_filename ".pdf";
  let document_pdf_dst := posixpath.join (tex_dst self) [pdf] in
  makedir [tex_dst self] true false;;
  shutil.copy2 document_pdf_bld document_pdf_dst;;
  mret ().

Definition build_document (self : TexBuild) (tex_filename : string)
    (pdf_filename : option pyval) (latexmk_opts : option (list string)) : IO bool :=
  let latexmk_opts := default latexmk_opts [] in
  let pdf_filename := default pdf_filename (VStr tex_filename) in
  try_except
    (copy_build_files self;;
     _run_latexmk_in_bld_dir self tex_filename latexmk_opts;;
     _copy_to_dst self tex_filename pdf_filename;;
     print_markup "BUILD SUCCESSFUL" Bcolors.OKGREEN (LF +:+ LF);;
     mret true)
    is_CalledProcessError
    (λ _,
       print_markup "BUILD FAILED" Bcolors.FAIL (LF +:+ LF);;
       mret false).

(** The watcher returns when the sources change; [interrupted] says that
    the interrupt arrives while it waits. *)
Definition wait_for_code_changes (interrupted : bool) (self : TexBuild) : IO unit :=
  let watch_command :=
    ["inotifywait"; "-e"; "modify,create,delete,attrib"; "-r"; tex_src self] in
  print_frame "WATCHING SRC DIRECTORY FOR CHANGES" frame_markup;;
  if interrupted then raise KeyboardInterrupt
  else subprocess.run spawn watch_command false;; mret ().

Fixpoint loop_from (changes : nat) (self : TexBuild) (tex_filename : string)
    (pdf_filename : option pyval) (latexmk_opts : option (list string)) : IO unit :=
  let quit _ :=
    print "" LF;;
    print_markup "QUITTING (interrupt signal received)" Bcolors.WARNING LF;;
    mret false in
  let is_interrupt e := bool_decide (e = KeyboardInterrupt) in
  match changes with
  | O =>
      try_except
        (build_document self tex_filename pdf_filename latexmk_opts;;
         wait_for_code_changes true self;; mret true)
        is_interrupt quit;;
      mret ()
  | S changes' =>
      again ← try_except
        (build_document self tex_filename pdf_filename latexmk_opts;;
         wait_for_code_changes false self;; mret true)
        is_interrupt quit;
      if again : bool
      then loop_from changes' self tex_filename pdf_filename latexmk_opts
      else mret ()
  end.

Definition loop := loop_from patience.

(** The callback of [clean]; [encountered_errors] is the variable of the
    enclosing function it assigns to. *)
Definition report_error (func pafh : string) (e : exn) (encountered_errors : bool)
  : IO bool :=
  print ("(error) got error removing: " +:+ pafh) LF;;
  print (repr_func func) LF;;
  print (str_exn e) LF;;
  mret true.

Definition clean (self : TexBuild) : IO unit :=
  print_frame "CLEANING BLD DIRECTORY" frame_markup;;
  let encountered_errors := false in
  present ← os.path_exists (tex_bld self);
  encountered_errors ←
    (if present : bool
     then shutil.rmtree report_error (tex_bld self) encountered_errors
     else print (tex_bld self +:+ " already removed") LF;; mret encountered_errors);
  if encountered_errors : bool
  then print_markup "CLEANUP FINISHED (errors encountered)" Bcolors.WARNING LF
  else print_markup "CLEANUP FINISHED" Bcolors.OKGREEN LF.

(** [run_args(ns)].  The two calls with [ns.latexmk_opts] pass it in the
    second position, which is [pdf_filename]. *)
Definition run_args (ns : Namespace) : IO unit :=
  let tb := mkTexBuild (root ns) in
  (if bool_decide (cmd ns = "copy") then copy_build_files tb else ret ());;
  (if bool_decide (cmd ns = "build")
   then build_document tb (document ns) (VList <$> latexmk_opts ns) None;; mret ()
   else ret ());;
  (if bool_decide (cmd ns = "loop")
   then loop tb (document ns) (VList <$> latexmk_opts ns) None
   else ret ());;
  (if bool_decide (cmd ns = "clean") then clean tb else ret ()).

End TexBuild.

End build.

(** ** Well-formed worlds *)

(** A name of a directory entry is not empty, is not [.] or [..] and holds no
    separator. *)
Fixpoint no_slash (c : string) : bool :=
  match c with
  | EmptyString => true
  | String a c' => negb (Ascii.eqb a posixpath.slash) && no_slash c'
  end.

Definition valid_name (c : string) : bool :=
  negb (bool_decide (c = "")) && negb (bool_decide (c = "."))
  && negb (bool_decide (c = "..")) && no_slash c.

(** The working directory is named by valid names. *)
Definition wf_world (w : World) : Prop := forallb valid_name (cwd w) = true.

(** The child processes a computation started, in order. *)
Definition spawned (tr : list event) : list (list string * loc * option Z) :=
  omap (λ e, match e with
             | ESpawn argv wd status => Some (argv, wd, status)
             | _ => None
             end) tr.

(** The events by which the program changes the file tree itself. *)
Definition writes_tree (e : event) : bool :=
  match e with
  | EMkdir _ | EUnlink _ | ERmdir _ | ECopyfile _ _ => true
  | _ => false
  end.

(** The executables of a machine: [rsync] as its manual has it, any other
    program as given. *)
Definition machine (others : program) : program := λ argv wd und t,
  match argv with
  | "rsync" :: args => rsync.run args wd und t
  | _ => others argv wd und t
  end.

(** ** Vocabulary of the statements *)

Import arbitrary build.

Definition is_dir (t : tree) (q : loc) : bool :=
  match stat t q with
  | Ret Dir => true
  | _ => false
  end.

(** The process has a working directory and [p] names a directory: the
    [with having_cwd(p)] block can be entered. *)
Definition enterable (w : World) (p : string) : bool :=
  is_dir (fs w) (cwd w) && is_dir (fs w) (resolve (cwd w) p).

Definition extend (tr : list event) (w : World) : World :=
  mkWorld (fs w) (cwd w) (undeletable w) (trace w ++ tr).

(** What [print_frame] writes for a one-line text in the default markup. *)
Definition frame (txt : string) (width : nat) : list event :=
  [EWrite ((Bcolors.BOLD +:+ stars width +:+ Bcolors.ENDC) +:+ LF);
   EWrite ((Bcolors.BOLD +:+ "| " +:+ Bcolors.ENDC) +:+ "");
   EWrite ((frame_markup +:+ txt +:+ Bcolors.ENDC) +:+ "");
   EWrite ((Bcolors.BOLD +:+ " |" +:+ Bcolors.ENDC) +:+ LF);
   EWrite ((Bcolors.BOLD +:+ stars width +:+ Bcolors.ENDC) +:+ LF)].

(** The command line of the compiler as the specification has it: the fixed
    arguments (halt on the first error, no interaction, the LuaLaTeX engine,
    PDF output), the document with its extension, the extra options. *)
Definition base_arguments : list string :=
  ["latexmk"; "-halt-on-error"; "-interaction=nonstopmode"; "-pdflatex=lualatex"; "-pdf"].

Definition latexmk_command (doc : string) (opts : list string) : list string :=
  base_arguments ++ [doc +:+ ".tex"] ++ opts.

Definition rsync_command (tb : TexBuild) : list string :=
  ["rsync"; "-av"; tex_src tb +:+ "/"; tex_bld tb].

(** What [check=True] makes of the exit status of the compiler. *)
Definition checked (cmd : list string) (status : option Z) : result () :=
  match status with
  | None => Raise FileNotFoundError
  | Some st => if (st =? 0)%Z then Ret () else Raise (CalledProcessError st cmd)
  end.

(** A computation is quiet when it starts no child process and raises no
    [CalledProcessError]. *)
Definition quiet {A} (m : IO A) : Prop :=
  ∀ w r w', m w = (r, w') →
    (∀ e, r = Raise e → is_CalledProcessError e = false)
    ∧ ∃ tr, trace w' = trace w ++ tr ∧ spawned tr = [].

(** The line [report_error] prints first for an entry. *)
Definition report_line (pafh : string) : event :=
  EWrite (("(error) got error removing: " +:+ pafh) +:+ LF).

Definition is_write (e : event) : bool :=
  match e with
  | EWrite _ => true
  | _ => false
  end.

(** A line of the console that reports a failed removal. *)
Definition is_report (e : event) : bool :=
  match e with
  | EWrite text => String.prefix "(error) got error removing: " text
  | _ => false
  end.


(** The last lines [build_document] and [clean] print. *)
Definition build_failed : event :=
  EWrite ((Bcolors.FAIL +:+ "BUILD FAILED" +:+ Bcolors.ENDC) +:+ LF +:+ LF).

Definition cleanup_finished (errors : bool) : event :=
  EWrite (((if errors then Bcolors.WARNING else Bcolors.OKGREEN)
           +:+ (if errors then "CLEANUP FINISHED (errors encountered)"
                else "CLEANUP FINISHED")
           +:+ Bcolors.ENDC) +:+ LF).

(** ** A small project

    The worlds and the stand-ins for the compiler on which the statements
    are run. *)
Module example.

Definition proj : loc := ["tmp"; "proj"].

Definition fs0 : tree :=
  list_to_map
    [([], Dir); (["work"], Dir); (["tmp"], Dir); (proj, Dir);
     (proj ++ ["src"], Dir);
     (proj ++ ["src"; "main.tex"], File "TEX");
     (proj ++ ["src"; "fig"], Dir);
     (proj ++ ["src"; "fig"; "plot.png"], File "PNG");
     (proj ++ ["bld"], Dir);
     (proj ++ ["bld"; "extra.aux"], File "AUX")].

(** The process is started in [/work]. *)
Definition w0 : World := mkWorld fs0 ["work"] ∅ [].



Definition tb : TexBuild := mkTexBuild "/tmp/proj".

(** [texbuild /tmp/proj build main --latexmk-opts=-draftmode] *)
Definition draft : Namespace :=
  mkNamespace "/tmp/proj" "build" "main" (Some ["-draftmode"]).

(** A compiler that writes [main.pdf] where it runs and exits with 0. *)
Definition compiles : program := λ argv wd und t,
  Some (0, <[wd ++ ["main.pdf"] := File "PDF"]> t).

(** A compiler that stops on an error. *)
Definition fails : program := λ argv wd und t, Some (1, t).

(** A compiler that exits with 0 and leaves no artifact. *)
Definition idles : program := λ argv wd und t, Some (0, t).

(** A compiler that stops on an error after it has removed the directory
    the process was started in. *)
Definition uproots : program := λ argv wd und t, Some (1, delete ["work"] t).

(** A compiler that writes the artifact of a document kept in [fig], next
    to its source. *)
Definition nests : program := λ argv wd und t,
  Some (0, <[wd ++ ["fig"; "main.pdf"] := File "PDF"]> t).

End example.

(** ** Vocabulary of the further properties *)

(** The code points at which [str.splitlines] cuts a text. *)
Definition line_break (c : ascii) : bool :=
  bool_decide (c ∈ ["010"; "011"; "012"; "013"; "028"; "029"; "030"; "133"]%char).

Fixpoint one_line (txt : string) : bool :=
  match txt with
  | EmptyString => true
  | String c txt' => negb (line_break c) && one_line txt'
  end.

(** The tree in which every name on the way to [q] is a directory. *)
Definition with_dirs (q : loc) (t : tree) : tree :=
  foldl (λ t a, <[a := Dir]> t) t (os.prefixes q).

(** The part of the tree under [b] hangs together: what lies under [b] has
    a directory for its parent. *)
Definition connected_below (b : loc) (t : tree) : Prop :=
  ∀ k n, below b k = true → t !! k = Some n → t !! parent k = Some Dir.

(** Every event a computation adds to the trace satisfies [P]. *)
Definition emits {A} (P : event → Prop) (m : IO A) : Prop :=
  ∀ w r w', m w = (r, w') → ∃ tr, trace w' = trace w ++ tr ∧ Forall P tr.

(** A computation raises only exceptions of [E]. *)
Definition raises {A} (E : exn → Prop) (m : IO A) : Prop :=
  ∀ w e w', m w = (Raise e, w') → E e.

Definition build_successful : event :=
  EWrite ((Bcolors.OKGREEN +:+ "BUILD SUCCESSFUL" +:+ Bcolors.ENDC) +:+ LF +:+ LF).

Definition quitting : event :=
  EWrite ((Bcolors.WARNING +:+ "QUITTING (interrupt signal received)" +:+ Bcolors.ENDC) +:+ LF).

(** The command line of the watcher. *)
Definition watch_command (tb : TexBuild) : list string :=
  ["inotifywait"; "-e"; "modify,create,delete,attrib"; "-r"; tex_src tb].

Definition is_spawn (e : event) : bool :=
  match e with
  | ESpawn _ _ _ => true
  | _ => false
  end.

(** [is_run c e]: the event [e] is a run of the command [c]. *)
Definition is_run (c : list string) (e : event) : bool :=
  match e with
  | ESpawn argv _ _ => bool_decide (argv = c)
  | _ => false
  end.

Definition count_runs (c : list string) (tr : list event) : nat :=
  length (List.filter (is_run c) tr).

(** What a build that cannot publish may do: start [rsync] and the compiler
    with the options [opts], print anything but the line of success, and
    copy nothing. *)
Definition no_publish (tb : TexBuild) (doc : string) (opts : list string) (e : event) : Prop :=
  match e with
  | ESpawn argv _ _ => argv = rsync_command tb ∨ argv = latexmk_command doc opts
  | ECopyfile _ _ => False
  | _ => e ≠ build_successful
  end.

(** Two more scenes of the small project. *)
Module scenes.

(** The project with a regular file where BuildDir should be. *)
Definition w_file : World :=
  mkWorld (<[example.proj ++ ["bld"] := File "X"]>
             (delete (example.proj ++ ["bld"; "extra.aux"]) example.fs0))
    ["work"] ∅ [].

(** A machine on which [rsync] is installed and nothing else. *)
Definition bare : program := machine (λ argv wd und t, None).

End scenes.

(** * Path arithmetic *)

Section paths.

Import posixpath.

Lemma append_nil_l b : "" +:+ b = b.
Proof. reflexivity. Qed.

Lemma append_cons c a b : String c a +:+ b = String c (a +:+ b).
Proof. reflexivity. Qed.

Lemma append_nil_r a : a +:+ "" = a.
Proof. induction a as [|c a IH]; [done|]. by rewrite append_cons, IH. Qed.

Lemma append_assoc a b c : (a +:+ b) +:+ c = a +:+ b +:+ c.
Proof. induction a as [|x a IH]; [done|]. by rewrite !append_cons, IH. Qed.

Lemma split_nonempty p : split p ≠ [].
Proof.
  destruct p as [|c p]; simpl; [done|].
  destruct (Ascii.eqb c slash); [done|]. by destruct (split p).
Qed.

Lemma split_app a b :
  split (a +:+ b) =
    removelast (split a) ++ (List.last (split a) "" +:+ hd "" (split b)) :: tl (split b).
Proof.
  induction a as [|c a IH]; [rewrite append_nil_l|rewrite append_cons]; simpl.
  - destruct (split b) eqn:E; [by apply split_nonempty in E|done].
  - destruct (Ascii.eqb c slash).
    + rewrite IH. destruct (split a) eqn:E; [by apply split_nonempty in E|done].
    + rewrite IH. destruct (split a) as [|x xs] eqn:E; [by apply split_nonempty in E|].
      destruct xs; simpl; done.
Qed.

Lemma split_no_slash c : no_slash c = true → split c = [c].
Proof.
  induction c as [|a c IH]; simpl; [done|].
  intros [Ha Hc]%andb_prop. apply negb_true_iff in Ha. rewrite Ha, (IH Hc). done.
Qed.

Lemma removelast_last_split a : removelast (split a) ++ [List.last (split a) ""] = split a.
Proof. symmetry. apply app_removelast_last, split_nonempty. Qed.

Lemma split_snoc_slash a : split (a +:+ "/") = split a ++ [""].
Proof.
  rewrite split_app. simpl. rewrite append_nil_r.
  change [List.last (split a) ""; ""] with ([List.last (split a) ""] ++ [""]).
  by rewrite app_assoc, removelast_last_split.
Qed.

Lemma endswith_slash_inv a : endswith_slash a = true → ∃ a', a = a' +:+ "/".
Proof.
  induction a as [|c a IH]; simpl; [done|].
  destruct a as [|c' a'].
  - intros H. apply Ascii.eqb_eq in H as ->. by exists "".
  - intros H. destruct (IH H) as [b Hb]. exists (String c b). by rewrite append_cons, <- Hb.
Qed.

Lemma endswith_slash_last a :
  endswith_slash a = true → List.last (split a) "" = "".
Proof.
  intros [b ->]%endswith_slash_inv. rewrite split_snoc_slash. apply last_last.
Qed.

Lemma isabs_app a b : a ≠ "" → isabs (a +:+ b) = isabs a.
Proof. by destruct a. Qed.

Lemma foldl_walk_snoc_empty acc l : foldl walk acc (l ++ [""]) = foldl walk acc l.
Proof. by rewrite foldl_app. Qed.

Lemma walk_valid acc c : valid_name c = true → walk acc c = acc ++ [c].
Proof.
  unfold valid_name, walk. intros H.
  repeat (apply andb_prop in H as [H ?]).
  repeat match goal with
         | H : negb (bool_decide _) = true |- _ =>
             apply negb_true_iff, bool_decide_eq_false in H
         end.
  rewrite !bool_decide_eq_false_2 by done. done.
Qed.

(** Joining a valid name to a root names the entry of that name in the
    directory the root names, whatever the root looks like. *)
Lemma resolve_join2 wd a c :
  valid_name c = true → resolve wd (join2 a c) = resolve wd a ++ [c].
Proof.
  intros Hc. pose proof Hc as Hv. unfold valid_name in Hc.
  repeat (apply andb_prop in Hc as [Hc ?]).
  apply negb_true_iff, bool_decide_eq_false in Hc.
  assert (isabs c = false) as Habs.
  { destruct c as [|x c]; [done|]. simpl in *.
    by destruct (Ascii.eqb x slash). }
  unfold join2. rewrite Habs. unfold resolve.
  destruct (bool_decide (a = "")) eqn:Ea; simpl.
  - apply bool_decide_eq_true in Ea as ->. simpl. rewrite append_nil_l.
    rewrite Habs, split_no_slash by done. simpl. by rewrite walk_valid.
  - apply bool_decide_eq_false in Ea.
    destruct (endswith_slash a) eqn:Es.
    + rewrite isabs_app by done. rewrite split_app, (split_no_slash c) by done. simpl.
      rewrite (endswith_slash_last a Es). simpl.
      rewrite foldl_app. simpl. rewrite walk_valid by done.
      rewrite <- (removelast_last_split a) at 2.
      rewrite (endswith_slash_last a Es), foldl_walk_snoc_empty. done.
    + rewrite isabs_app by done. rewrite split_app. simpl.
      rewrite append_nil_l, (split_no_slash c), append_nil_r by done.
      change (?x :: [c]) with ([x] ++ [c]).
      rewrite app_assoc, removelast_last_split.
      rewrite foldl_app. simpl. by rewrite walk_valid.
Qed.

Lemma join2_nonempty a c : c ≠ "" → join2 a c ≠ "".
Proof.
  intros Hc. unfold join2. destruct (isabs c); [done|].
  destruct (bool_decide (a = "") || endswith_slash a); destruct a; simpl; done.
Qed.

(** A trailing separator does not change what a path names. *)
Lemma resolve_trailing_slash wd p : p ≠ "" → resolve wd (p +:+ "/") = resolve wd p.
Proof.
  intros Hp. unfold resolve. rewrite isabs_app by done.
  rewrite split_snoc_slash. apply foldl_walk_snoc_empty.
Qed.

(** [os.chdir(os.getcwd())] names the directory the process is in. *)
Lemma split_body q :
  ∃ l, split (loc_body q) = "" :: l
       ∧ ∀ acc, forallb valid_name q = true → foldl walk acc l = acc ++ q.
Proof.
  induction q as [|c q (l & Hl & IH)].
  - exists []. split; [done|]. intros. by rewrite app_nil_r.
  - change (loc_body (c :: q)) with (String slash (c +:+ loc_body q)).
    change (split (String slash ?s)) with ("" :: split s).
    eexists. split; [done|].
    intros acc [Hc Hq]%andb_prop.
    rewrite split_app, Hl. simpl. rewrite append_nil_r.
    assert (no_slash c = true) as Hn.
    { unfold valid_name in Hc. by apply andb_prop in Hc as [_ ?]. }
    rewrite (split_no_slash c) by done. simpl.
    rewrite walk_valid by done. rewrite IH by done. by rewrite <- app_assoc.
Qed.

Lemma resolve_loc_str wd q : forallb valid_name q = true → resolve wd (loc_str q) = q.
Proof.
  intros Hq. destruct q as [|c q]; [done|].
  unfold loc_str. destruct (split_body (c :: q)) as (l & Hl & IH).
  unfold resolve. rewrite Hl. simpl. by rewrite IH.
Qed.

Lemma loc_str_nonempty q : loc_str q ≠ "".
Proof. by destruct q. Qed.

End paths.

(** * Reasoning about computations *)

Ltac io_unfold :=
  unfold mbind, IO_bind, mret, IO_ret, bind, ret, raise, try_except, try_finally,
    os.at_path in *.

(** Goals on the events of a trace given event by event. *)
Ltac events :=
  rewrite ?Forall_app; split_and?;
  repeat (apply Forall_cons; split; [simpl; intros; (done || congruence)|]);
  try apply Forall_nil; try done.

(** * The file tree *)

Section tree.
Implicit Types (t : tree) (q d pre rest : loc).

Lemma snoc_nonempty q c : q ++ [c] ≠ [].
Proof. by destruct q. Qed.

Lemma parent_snoc q c : parent (q ++ [c]) = q.
Proof. unfold parent. by rewrite removelast_last. Qed.

Lemma parent_last q : q ≠ [] → q = parent q ++ [List.last q ""].
Proof. intros. unfold parent. by apply app_removelast_last. Qed.

Lemma search_OSError t pre rest e : search t pre rest = Some e → is_OSError e = true.
Proof.
  revert pre. induction rest as [|c l IH]; intros pre; simpl;
    destruct (t !! pre) as [[]|]; intros; simplify_eq; eauto.
Qed.

Lemma search_not_exists t pre rest : search t pre rest ≠ Some FileExistsError.
Proof.
  revert pre. induction rest as [|c l IH]; intros pre; simpl;
    destruct (t !! pre) as [[]|]; intros; simplify_eq; eauto.
Qed.

Lemma stat_OSError t q e : stat t q = Raise e → is_OSError e = true.
Proof.
  unfold stat. destruct q.
  - destruct (t !! []); intros; by simplify_eq.
  - destruct (search _ _ _) eqn:Es.
    + intros; simplify_eq. by eapply search_OSError.
    + destruct (t !! (s :: q)); intros; by simplify_eq.
Qed.

Lemma stat_Ret_inv t q n :
  stat t q = Ret n →
  t !! q = Some n ∧ (q ≠ [] → search t [] (parent q) = None).
Proof.
  unfold stat. destruct q as [|c q].
  - destruct (t !! []) eqn:E; [|done]. intros [= ->]. done.
  - destruct (search t [] (parent (c :: q))); [done|].
    destruct (t !! (c :: q)) eqn:E; [|done]. intros [= ->]. done.
Qed.

Lemma stat_File_inv t q c :
  stat t q = Ret (File c) → t !! q = Some (File c).
Proof.
  unfold stat. destruct q as [|x q].
  - destruct (t !! []); intros; by simplify_eq.
  - destruct (search _ _ _); [done|]. destruct (t !! (x :: q)); intros; by simplify_eq.
Qed.

Lemma search_snoc t pre rest c :
  search t pre (rest ++ [c]) = None
  ↔ search t pre rest = None ∧ t !! (pre ++ rest ++ [c]) = Some Dir.
Proof.
  revert pre. induction rest as [|x rest IH]; intros pre; simpl.
  - destruct (t !! pre) as [[]|] eqn:E; try (split; [done|by intros [? _]]).
    destruct (t !! (pre ++ [c])) as [[]|]; split; try done; by intros [_ ?].
  - destruct (t !! pre) as [[]|] eqn:E; try (split; [done|by intros [? _]]).
    rewrite IH. by rewrite <- app_assoc.
Qed.

Lemma is_dir_search t q : is_dir t q = true ↔ search t [] q = None.
Proof.
  unfold is_dir, stat. destruct q as [|c q].
  - simpl. by destruct (t !! []) as [[]|].
  - pose proof (search_snoc t [] (parent (c :: q)) (List.last (c :: q) "")) as Hsn.
    simpl in Hsn. rewrite <- parent_last in Hsn by done. rewrite Hsn.
    destruct (search t [] (parent (c :: q))); [split; [done|by intros [? _]]|].
    destruct (t !! (c :: q)) as [[]|]; split; try done; by intros [_ ?].
Qed.

Lemma is_dir_lookup t q : is_dir t q = true → t !! q = Some Dir.
Proof.
  unfold is_dir. destruct (stat t q) as [[]|] eqn:E; try done. intros _.
  unfold stat in E. destruct q as [|x q].
  - destruct (t !! []); by simplify_eq.
  - destruct (search _ _ _); [done|]. destruct (t !! (x :: q)); by simplify_eq.
Qed.

Lemma search_insert_dir t d pre rest :
  search t pre rest = None → search (<[d := Dir]> t) pre rest = None.
Proof.
  revert pre. induction rest as [|x rest IH]; intros pre; simpl.
  - destruct (decide (d = pre)) as [->|]; [by rewrite lookup_insert_eq|].
    by rewrite lookup_insert_ne.
  - destruct (decide (d = pre)) as [->|].
    + rewrite lookup_insert_eq. destruct (t !! pre) as [[]|]; try done. apply IH.
    + rewrite lookup_insert_ne by done. destruct (t !! pre) as [[]|]; try done. apply IH.
Qed.


End tree.

(** * The primitives, as equations *)

Section primitives.
Variable spawn : program.

Lemma length_append a b : String.length (a +:+ b) = (String.length a + String.length b)%nat.
Proof. induction a as [|x a IH]; [done|]. rewrite append_cons. simpl. by rewrite IH. Qed.




Lemma endswith_slash_snoc a : posixpath.endswith_slash (a +:+ "/") = true.
Proof.
  induction a as [|c a IH]; [done|]. rewrite append_cons. simpl.
  destruct (a +:+ "/") eqn:E; [|done].
  apply (f_equal String.length) in E. rewrite length_append in E. simpl in E. lia.
Qed.

Lemma tex_bld_nonempty tb : tex_bld tb ≠ "".
Proof. apply join2_nonempty. done. Qed.

Lemma tex_dst_nonempty tb : tex_dst tb ≠ "".
Proof. apply join2_nonempty. done. Qed.

Lemma not_called_process e : is_OSError e = true → is_CalledProcessError e = false.
Proof. by destruct e. Qed.

Lemma since_app (tr0 tr : list event) : drop (length tr0) (tr0 ++ tr) = tr.
Proof. by rewrite drop_app_length. Qed.

Lemma spawned_app tr1 tr2 : spawned (tr1 ++ tr2) = spawned tr1 ++ spawned tr2.
Proof. apply omap_app. Qed.

Lemma spawned_frame txt n : spawned (frame txt n) = [].
Proof. done. Qed.

Lemma existsb_append {A} (f : A → bool) l1 l2 :
  existsb f (l1 ++ l2) = existsb f l1 || existsb f l2.
Proof. apply existsb_app. Qed.

Lemma getcwd_eq w :
  os.getcwd w
  = (if is_dir (fs w) (cwd w) then Ret (loc_str (cwd w)) else Raise FileNotFoundError,
     log EGetcwd w).
Proof. unfold os.getcwd, is_dir. simpl. by destruct (stat (fs w) (cwd w)) as [[]|]. Qed.

Lemma chdir_eq p w : p ≠ "" → os.chdir p w = os.chdir_at (resolve (cwd w) p) w.
Proof. intros. unfold os.chdir, os.at_path. by rewrite bool_decide_eq_false_2. Qed.

Lemma chdir_loc_str q w :
  forallb valid_name q = true → os.chdir (loc_str q) w = os.chdir_at q w.
Proof.
  intros Hq. rewrite chdir_eq by apply loc_str_nonempty. by rewrite resolve_loc_str.
Qed.

Lemma chdir_at_ok q w :
  is_dir (fs w) q = true → os.chdir_at q w = (Ret (), set_cwd q (log (EChdir q) w)).
Proof. unfold os.chdir_at, is_dir. simpl. by destruct (stat (fs w) q) as [[]|]. Qed.

Lemma chdir_at_fail q w :
  is_dir (fs w) q = false →
  ∃ e, is_OSError e = true ∧ os.chdir_at q w = (Raise e, log (EChdir q) w).
Proof.
  unfold os.chdir_at, is_dir. simpl. destruct (stat (fs w) q) as [[]|e] eqn:E; try done.
  - by exists NotADirectoryError.
  - exists e. split; [|done].
    unfold stat in E. destruct q.
    + destruct (fs w !! []); by simplify_eq.
    + destruct (search _ _ _) eqn:Es.
      * simplify_eq. clear -Es. revert Es. generalize (@nil string).
        induction (parent (s :: q)) as [|c l IH]; intros pre; simpl;
          destruct (fs w !! pre) as [[]|]; intros; simplify_eq; eauto.
      * destruct (fs w !! (s :: q)); by simplify_eq.
Qed.

Lemma run_eq argv check w :
  subprocess.run spawn argv check w
  = match spawn argv (cwd w) (undeletable w) (fs w) with
    | None => (Raise FileNotFoundError, log (ESpawn argv (cwd w) None) w)
    | Some (status, t) =>
        (if check && negb (status =? 0)%Z then Raise (CalledProcessError status argv)
         else Ret status,
         set_fs t (log (ESpawn argv (cwd w) (Some status)) w))
    end.
Proof.
  unfold subprocess.run. destruct (spawn _ _ _ _) as [[st t]|]; [|done].
  by destruct (check && negb (st =? 0)%Z).
Qed.

Lemma print_markup_eq txt markup end_ w :
  print_markup txt markup end_ w
  = (Ret (), log (EWrite ((markup +:+ txt +:+ Bcolors.ENDC) +:+ end_)) w).
Proof. done. Qed.

Lemma print_frame_copying w :
  print_frame "COPYING BUILD FILES TO BLD DIRECTORY" frame_markup w
  = (Ret (), extend (frame "COPYING BUILD FILES TO BLD DIRECTORY" 40) w).
Proof.
  unfold print_frame, print_markup, print. io_unfold. simpl.
  unfold log, extend, frame. simpl. by rewrite <- !app_assoc.
Qed.

Lemma print_frame_building w :
  print_frame "BUILDING DOCUMENT" frame_markup w
  = (Ret (), extend (frame "BUILDING DOCUMENT" 21) w).
Proof.
  unfold print_frame, print_markup, print. io_unfold. simpl.
  unfold log, extend, frame. simpl. by rewrite <- !app_assoc.
Qed.

Lemma print_frame_cleaning w :
  print_frame "CLEANING BLD DIRECTORY" frame_markup w
  = (Ret (), extend (frame "CLEANING BLD DIRECTORY" 26) w).
Proof.
  unfold print_frame, print_markup, print. io_unfold. simpl.
  unfold log, extend, frame. simpl. by rewrite <- !app_assoc.
Qed.

Lemma path_isdir_eq p w :
  p ≠ "" →
  os.path_isdir p w
  = (Ret (is_dir (fs w) (resolve (cwd w) p)), log (EStat (resolve (cwd w) p)) w).
Proof.
  intros Hp. unfold os.path_isdir, os.stat, os.stat_at, is_dir. io_unfold.
  rewrite bool_decide_eq_false_2 by done.
  destruct (stat (fs w) (resolve (cwd w) p)) as [[]|e] eqn:E; try done.
  by rewrite (stat_OSError _ _ _ E).
Qed.

Lemma path_exists_eq p w :
  p ≠ "" →
  os.path_exists p w
  = (Ret (if stat (fs w) (resolve (cwd w) p) is Ret _ then true else false),
     log (EStat (resolve (cwd w) p)) w).
Proof.
  intros Hp. unfold os.path_exists, os.stat, os.stat_at. io_unfold.
  rewrite bool_decide_eq_false_2 by done.
  destruct (stat (fs w) (resolve (cwd w) p)) as [n|e] eqn:E; [done|].
  by rewrite (stat_OSError _ _ _ E).
Qed.

(** [makedir] without [recursive] and with [exists_ok]: the directory is
    made when nothing is there and the parent is a directory; an entry of
    any kind in its place is accepted as it is. *)
Lemma makedir_inv p w r w' :
  p ≠ "" →
  makedir [p] true false w = (r, w') →
  let q := resolve (cwd w) p in
  trace w' = trace w ++ [EMkdir q] ∧ cwd w' = cwd w ∧ undeletable w' = undeletable w
  ∧ ((r = Ret p ∧ fs w' = fs w ∧ (q = [] ∨ is_Some (fs w !! q)))
     ∨ (r = Ret p ∧ fs w' = <[q := Dir]> (fs w) ∧ fs w !! q = None
        ∧ search (fs w) [] (parent q) = None)
     ∨ (∃ e, r = Raise e ∧ is_OSError e = true ∧ fs w' = fs w
        ∧ search (fs w) [] (parent q) = Some e)).
Proof.
  intros Hp. unfold makedir. simpl. io_unfold. unfold os.mkdir, os.at_path.
  rewrite bool_decide_eq_false_2 by done. unfold os.mkdir_at. simpl.
  destruct (resolve (cwd w) p) as [|c q] eqn:Eq; simpl.
  { intros [= <- <-]. split_and!; try done. left. eauto. }
  destruct (search (fs w) [] (parent (c :: q))) as [e|] eqn:Es.
  { rewrite bool_decide_eq_false_2
      by (intros ->; by apply search_not_exists in Es).
    intros [= <- <-]. split_and!; try done. right. right.
    exists e. split_and!; try done. by eapply search_OSError. }
  destruct (fs w !! (c :: q)) as [n|] eqn:El; simpl.
  - intros [= <- <-]. split_and!; try done. left. eauto.
  - intros [= <- <-]. split_and!; try done. right. left. eauto.
Qed.

Lemma makedir_ready p w :
  p ≠ "" →
  let q := resolve (cwd w) p in
  is_dir (fs w) (parent q) = true →
  (∀ c, fs w !! q ≠ Some (File c)) →
  q ≠ [] →
  ∃ w', makedir [p] true false w = (Ret p, w')
    ∧ fs w' = <[q := Dir]> (fs w) ∧ cwd w' = cwd w ∧ undeletable w' = undeletable w
    ∧ trace w' = trace w ++ [EMkdir q].
Proof.
  intros Hp q Hpar Hfile Hq.
  destruct (makedir [p] true false w) as [r w'] eqn:Hmk.
  apply makedir_inv in Hmk as (Htr & Hcwd & Hund & Hfs); [|done]. fold q in Htr, Hfs.
  apply is_dir_search in Hpar.
  destruct Hfs as [(-> & Hfs & [?|[n Hn]])|[(-> & Hfs & _)|(e & _ & _ & _ & He)]];
    try congruence.
  - exists w'. split_and!; try done. rewrite Hfs.
    destruct n; [by destruct (Hfile content)|]. by rewrite insert_id.
  - by exists w'.
Qed.


End primitives.

(** * Quiet computations *)

Section quiet.

Lemma quiet_ret {A} (a : A) : quiet (mret a).
Proof. intros w r w' [= <- <-]. split; [done|]. exists []. by rewrite app_nil_r. Qed.

Lemma quiet_raise {A} e : is_CalledProcessError e = false → quiet (@raise A e).
Proof.
  intros He w r w' [= <- <-]. split; [by intros ? [= <-]|].
  exists []. by rewrite app_nil_r.
Qed.

Lemma quiet_bind {A B} (m : IO A) (k : A → IO B) :
  quiet m → (∀ a, quiet (k a)) → quiet (m ≫= k).
Proof.
  intros Hm Hk w r w'. io_unfold. destruct (m w) as [[a|e] w1] eqn:E.
  - intros Hka. destruct (Hm _ _ _ E) as (_ & tr1 & Htr1 & Hs1).
    destruct (Hk a _ _ _ Hka) as (Hr & tr2 & Htr2 & Hs2). split; [done|].
    exists (tr1 ++ tr2). rewrite Htr2, Htr1, <- app_assoc. split; [done|].
    by rewrite spawned_app, Hs1, Hs2.
  - intros [= <- <-]. destruct (Hm _ _ _ E) as (He & Htr). split; [|done].
    intros ? [= <-]. by apply He.
Qed.

Lemma quiet_try_except {A} (m : IO A) handles (h : exn → IO A) :
  quiet m → (∀ e, quiet (h e)) → quiet (try_except m handles h).
Proof.
  intros Hm Hh w r w'. io_unfold. destruct (m w) as [[a|e] w1] eqn:E.
  - intros [= <- <-]. exact (Hm _ _ _ E).
  - destruct (Hm _ _ _ E) as (He & tr1 & Htr1 & Hs1).
    destruct (handles e).
    + intros Hhe. destruct (Hh e _ _ _ Hhe) as (Hr & tr2 & Htr2 & Hs2). split; [done|].
      exists (tr1 ++ tr2). rewrite Htr2, Htr1, <- app_assoc. split; [done|].
      by rewrite spawned_app, Hs1, Hs2.
    + intros [= <- <-]. eauto.
Qed.

Lemma quiet_at_path {A} p (f : loc → IO A) : (∀ q, quiet (f q)) → quiet (os.at_path p f).
Proof.
  intros Hf w r w'. unfold os.at_path. case_bool_decide.
  - by apply (quiet_raise FileNotFoundError).
  - apply Hf.
Qed.

Lemma quiet_stat_at q : quiet (os.stat_at q).
Proof.
  intros w r w' [= <- <-]. split; [|by exists [EStat q]].
  intros e He. by apply not_called_process, (stat_OSError (fs w) q).
Qed.

Lemma quiet_mkdir_at q : quiet (os.mkdir_at q).
Proof.
  intros w r w'. unfold os.mkdir_at. simpl.
  assert (∃ tr, trace (log (EMkdir q) w) = trace w ++ tr ∧ spawned tr = []) as Htr
    by (by exists [EMkdir q]).
  destruct q as [|c q]; [intros [= <- <-]; split; [by intros ? [= <-]|done]|].
  destruct (search _ _ _) as [e|] eqn:Es.
  { intros [= <- <-]. split; [|done]. intros ? [= <-].
    by eapply not_called_process, search_OSError. }
  destruct (fs w !! (c :: q)); intros [= <- <-]; (split; [by intros ? [= <-]|done]).
Qed.

Lemma quiet_copyfile_at s d : quiet (shutil.copyfile_at s d).
Proof.
  intros w r w'. unfold shutil.copyfile_at. simpl.
  assert (∃ tr, trace (log (ECopyfile s d) w) = trace w ++ tr ∧ spawned tr = []) as Htr
    by (by exists [ECopyfile s d]).
  destruct (stat (fs w) s) as [[c|]|e] eqn:Es.
  2:{ intros [= <- <-]. split; [by intros ? [= <-]|done]. }
  2:{ intros [= <- <-]. split; [|done]. intros ? [= <-].
      by eapply not_called_process, stat_OSError. }
  case_bool_decide; [intros [= <- <-]; split; [by intros ? [= <-]|done]|].
  destruct d as [|x d]; [intros [= <- <-]; split; [by intros ? [= <-]|done]|].
  destruct (search _ _ _) as [e|] eqn:Ep.
  { intros [= <- <-]. split; [|done]. intros ? [= <-].
    by eapply not_called_process, search_OSError. }
  destruct (fs w !! (x :: d)) as [[]|]; intros [= <- <-];
    (split; [by intros ? [= <-]|done]).
Qed.

Lemma quiet_chdir p : quiet (os.chdir p).
Proof.
  apply quiet_at_path. intros q w r w'. unfold os.chdir_at. simpl.
  assert (∃ tr, trace (log (EChdir q) w) = trace w ++ tr ∧ spawned tr = []) as Htr
    by (by exists [EChdir q]).
  destruct (stat (fs w) q) as [[c|]|e] eqn:Es; intros [= <- <-];
    (split; [|done]); intros ? [= <-]; [done|].
  by eapply not_called_process, stat_OSError.
Qed.

Lemma quiet_path_isdir p : quiet (os.path_isdir p).
Proof.
  apply quiet_try_except; [|intros; apply quiet_ret].
  apply quiet_bind; [|intros; apply quiet_ret].
  apply quiet_at_path, quiet_stat_at.
Qed.

Lemma quiet_makedir p : quiet (makedir [p] true false).
Proof.
  unfold makedir. apply quiet_bind; [|intros; apply quiet_ret].
  apply quiet_try_except; [apply quiet_at_path, quiet_mkdir_at|].
  intros e. apply quiet_ret.
Qed.

Lemma quiet_copy2 src dst : quiet (shutil.copy2 src dst).
Proof.
  unfold shutil.copy2, shutil.copyfile.
  apply quiet_bind; [apply quiet_path_isdir|]. intros isd.
  apply quiet_bind; [|intros; apply quiet_ret].
  apply quiet_at_path. intros s. apply quiet_at_path. intros d. apply quiet_copyfile_at.
Qed.

Lemma quiet_copy_to_dst tb doc pdf : quiet (_copy_to_dst tb doc pdf).
Proof.
  unfold _copy_to_dst. apply quiet_bind.
  { destruct pdf; [apply quiet_ret|by apply quiet_raise]. }
  intros name. apply quiet_bind; [apply quiet_makedir|]. intros _.
  apply quiet_bind; [apply quiet_copy2|]. intros _. apply quiet_ret.
Qed.

End quiet.

(** * The stages of a build *)

Section stages.
Variable spawn : program.

#[local] Opaque os.getcwd os.chdir os.chdir_at subprocess.run print_frame print_markup makedir.


Lemma sync_stage tb w r w' :
  copy_build_files spawn tb w = (r, w') →
  cwd w' = cwd w ∧ undeletable w' = undeletable w
  ∧ (∀ e, r = Raise e → is_OSError e = true)
  ∧ ∃ tr, trace w' = trace w ++ tr
      ∧ (∀ x, x ∈ spawned tr → x.1.1 = rsync_command tb)
      ∧ Forall (λ e, writes_tree e = true → e = EMkdir (resolve (cwd w) (tex_bld tb))) tr.
Proof.
  unfold copy_build_files. io_unfold. rewrite print_frame_copying.
  destruct (makedir _ _ _ _) as [r1 w1] eqn:Hmk.
  apply makedir_inv in Hmk as (Htr & Hcwd & Hund & Hfs); [|apply tex_bld_nonempty].
  simpl in *.
  assert (Forall (λ e, writes_tree e = true → e = EMkdir (resolve (cwd w) (tex_bld tb)))
            (frame "COPYING BUILD FILES TO BLD DIRECTORY" 40)) as Hframe.
  { unfold frame. events. }
  destruct Hfs as [(-> & _)|[(-> & _)|(e & -> & He & _)]].
  3:{ intros [= <- <-]. split_and!; try done; [by intros ? [= ->]|].
      eexists. rewrite Htr, <- app_assoc. split_and!; [done| |].
      - intros x. rewrite spawned_app, spawned_frame. simpl.
        by intros ?%elem_of_nil.
      - events. }
  all: rewrite run_eq; change ("rsync" :: _) with (rsync_command tb);
    destruct (spawn _ _ _ _) as [[st t]|]; simpl; intros [= <- <-]; simpl;
    split_and!; try done; try (by intros ? [= <-]);
    eexists; rewrite Htr, <- !app_assoc; split_and!; try done; try events;
    intros x; rewrite !spawned_app, spawned_frame; simpl;
    intros ->%list_elem_of_singleton; done.
Qed.

Lemma sync_not_called_process tb w e w' :
  copy_build_files spawn tb w = (Raise e, w') → is_CalledProcessError e = false.
Proof.
  intros H. apply sync_stage in H as (_ & _ & He & _). by apply not_called_process, He.
Qed.

Lemma compile_stage tb doc opts w r w' :
  wf_world w →
  _run_latexmk_in_bld_dir spawn tb doc opts w = (r, w') →
  let q := resolve (cwd w) (tex_bld tb) in
  let cmd := latexmk_command doc opts in
  undeletable w' = undeletable w ∧
  ((* the compiler is not reached *)
   (enterable w (tex_bld tb) = false
    ∧ fs w' = fs w ∧ cwd w' = cwd w
    ∧ (∃ e, r = Raise e ∧ is_OSError e = true)
    ∧ ∃ tr, trace w' = trace w ++ tr ∧ spawned tr = [] ∧ Forall (λ e, writes_tree e = false) tr)
   ∨ (* it is started *)
   (enterable w (tex_bld tb) = true
    ∧ ∃ out, spawn cmd q (undeletable w) (fs w) = out
      ∧ fs w' = from_option snd (fs w) out
      ∧ trace w' = trace w ++ [EGetcwd; EChdir q] ++ frame "BUILDING DOCUMENT" 21
                     ++ [ESpawn cmd q (fst <$> out); EChdir (cwd w)]
      ∧ if is_dir (fs w') (cwd w)
        then cwd w' = cwd w ∧ r = checked cmd (fst <$> out)
        else cwd w' = q ∧ ∃ e, r = Raise e ∧ is_OSError e = true)).
Proof.
  intros Hwf. unfold _run_latexmk_in_bld_dir, having_cwd, enterable. io_unfold.
  rewrite getcwd_eq. destruct (is_dir (fs w) (cwd w)) eqn:Hcwd; simpl.
  2:{ intros [= <- <-]. split; [done|]. left. repeat split; try done.
      - by eexists.
      - exists [EGetcwd]. split_and!; try done. events. }
  rewrite chdir_eq by apply tex_bld_nonempty. simpl.
  set (q := resolve (cwd w) (tex_bld tb)).
  destruct (is_dir (fs w) q) eqn:Hq.
  - rewrite chdir_at_ok by done. rewrite print_frame_building, run_eq. simpl.
    change ("latexmk" :: _) with (latexmk_command doc opts).
    set (cmd := latexmk_command doc opts).
    destruct (spawn cmd q (undeletable w) (fs w)) as [[st t]|] eqn:Hsp; simpl.
    + destruct (is_dir t (cwd w)) eqn:Hback.
      * destruct (Z.eqb st 0) eqn:Hst; simpl; rewrite chdir_loc_str by done;
          rewrite chdir_at_ok by done; intros [= <- <-]; simpl;
          (split; [done|]); right; (split; [done|]); eexists; (split; [done|]); rewrite ?Hsp; simpl;
          rewrite Hback, <- !app_assoc; repeat split; try done; by rewrite Hst.
      * destruct (chdir_at_fail (cwd w)
                    (set_fs t (log (ESpawn cmd q (Some st))
                       (extend (frame "BUILDING DOCUMENT" 21)
                          (set_cwd q (log (EChdir q) (log EGetcwd w)))))))
          as (e & He & Hfail); [done|].
        destruct (Z.eqb st 0) eqn:Hst; simpl; rewrite chdir_loc_str by done;
          rewrite Hfail; intros [= <- <-]; simpl;
          (split; [done|]); right; (split; [done|]); eexists; (split; [done|]); rewrite ?Hsp; simpl;
          rewrite Hback, <- !app_assoc; repeat split; try done; by eexists.
    + rewrite chdir_loc_str by done. rewrite chdir_at_ok by done.
      intros [= <- <-]. simpl.
      split; [done|]. right. split; [done|]. eexists. split; [done|]. rewrite ?Hsp. simpl.
      rewrite Hcwd, <- !app_assoc. done.
  - destruct (chdir_at_fail q (log EGetcwd w)) as (e & He & Hfail); [done|].
    rewrite Hfail. simpl. rewrite chdir_loc_str by done.
    rewrite chdir_at_ok by done. intros [= <- <-]. simpl.
    split; [done|]. left. repeat split; try done.
    + by eexists.
    + eexists. rewrite <- !app_assoc. split; [done|]. split; [done|]. events.
Qed.

End stages.

(** * The build transaction *)

Section transaction.
Variable spawn : program.

#[local] Opaque os.getcwd os.chdir os.chdir_at subprocess.run print_frame print_markup makedir.

(** C6. The command line of the compiler: whenever the compile stage gets
    as far as starting a child process, it starts exactly one, in
    BuildDir, and its arguments are the fixed ones, the document with
    [.tex] appended, and the extra options last.  When BuildDir cannot be
    entered it starts none. *)
Theorem compiler_command_line tb doc opts w :
  let cmd := ["latexmk"; "-halt-on-error"; "-interaction=nonstopmode";
              "-pdflatex=lualatex"; "-pdf"; doc +:+ ".tex"] ++ opts in
  let q := resolve (cwd w) (tex_bld tb) in
  ∃ tr, trace (_run_latexmk_in_bld_dir spawn tb doc opts w).2 = trace w ++ tr
    ∧ spawned tr =
        if enterable w (tex_bld tb)
        then [(cmd, q, fst <$> spawn cmd q (undeletable w) (fs w))]
        else [].
Proof.
  intros cmd q. unfold _run_latexmk_in_bld_dir, having_cwd, enterable. io_unfold.
  rewrite getcwd_eq. destruct (is_dir (fs w) (cwd w)) eqn:Hcwd; simpl.
  2:{ by exists [EGetcwd]. }
  rewrite chdir_eq by apply tex_bld_nonempty. simpl. fold q.
  destruct (is_dir (fs w) q) eqn:Hq.
  - rewrite chdir_at_ok by done. rewrite print_frame_building, run_eq. simpl.
    change ("latexmk" :: _) with cmd.
    destruct (spawn cmd q (undeletable w) (fs w)) as [[st t]|] eqn:Hsp; simpl.
    + destruct (negb (st =? 0)%Z); simpl;
        destruct (os.chdir _ _) as [r1 w1] eqn:Hback;
        apply quiet_chdir in Hback as (_ & tr & Htr & Hs); simpl in Htr;
        exists ([EGetcwd; EChdir q] ++ frame "BUILDING DOCUMENT" 21
                ++ [ESpawn cmd q (Some st)] ++ tr);
        (split; [destruct r1; simpl; rewrite Htr, <- !app_assoc; done|]);
        rewrite !spawned_app, Hs; done.
    + destruct (os.chdir _ _) as [r1 w1] eqn:Hback.
      apply quiet_chdir in Hback as (_ & tr & Htr & Hs). simpl in Htr.
      exists ([EGetcwd; EChdir q] ++ frame "BUILDING DOCUMENT" 21
              ++ [ESpawn cmd q None] ++ tr).
      split; [destruct r1; simpl; rewrite Htr, <- !app_assoc; done|].
      rewrite !spawned_app, Hs. done.
  - destruct (chdir_at_fail q (log EGetcwd w)) as (e & He & Hfail); [done|].
    rewrite Hfail. simpl.
    destruct (os.chdir _ _) as [r1 w1] eqn:Hback.
    apply quiet_chdir in Hback as (_ & tr & Htr & Hs). simpl in Htr.
    exists ([EGetcwd; EChdir q] ++ tr).
    split; [destruct r1; simpl; rewrite Htr, <- !app_assoc; done|].
    rewrite !spawned_app, Hs. done.
Qed.

(** C4, as the code has it.  A fault of the sync stage or of the publish
    stage is never a [CalledProcessError], and [build_document] hands it
    on to its caller as it is: no result is returned. *)
Theorem io_fault_propagates tb doc out opts w e w' :
  copy_build_files spawn tb w = (Raise e, w')
  ∨ (∃ w1 w2,
       copy_build_files spawn tb w = (Ret (), w1)
       ∧ _run_latexmk_in_bld_dir spawn tb doc (default opts []) w1 = (Ret (), w2)
       ∧ _copy_to_dst tb doc (default out (VStr doc)) w2 = (Raise e, w')) →
  is_CalledProcessError e = false
  ∧ build_document spawn tb doc out opts w = (Raise e, w').
Proof.
  intros [Hsync|(w1 & w2 & Hsync & Hcomp & Hpub)].
  - pose proof (sync_not_called_process _ _ _ _ _ Hsync) as He. split; [done|].
    unfold build_document. io_unfold. by rewrite Hsync, He.
  - destruct (quiet_copy_to_dst _ _ _ _ _ _ Hpub) as (He & _).
    specialize (He e eq_refl). split; [done|].
    unfold build_document. io_unfold. by rewrite Hsync, Hcomp, Hpub, He.
Qed.


(** The compile stage returns normally only when the compiler was started
    and has exited with status zero. *)
Lemma compile_stage_returns tb doc opts w w' :
  wf_world w →
  _run_latexmk_in_bld_dir spawn tb doc opts w = (Ret (), w') →
  spawn (latexmk_command doc opts) (resolve (cwd w) (tex_bld tb)) (undeletable w) (fs w)
  = Some (0, fs w')
  ∧ cwd w' = cwd w.
Proof.
  intros Hwf Hrun.
  destruct (compile_stage _ _ _ _ _ _ _ Hwf Hrun) as (_ & [Hnot|Hyes]).
  - by destruct Hnot as (_ & _ & _ & (e & ? & _) & _).
  - destruct Hyes as (_ & o & Ho & Hfs & _ & Hback). cbv zeta in Ho.
    destruct (is_dir (fs w') (cwd w)); [|by destruct Hback as (_ & e & ? & _)].
    destruct Hback as (Hcwd & Hr). split; [|done]. rewrite Ho.
    destruct o as [[st t]|]; [|done]. simpl in *.
    destruct (st =? 0)%Z eqn:Hst; [|done]. apply Z.eqb_eq in Hst. by subst.
Qed.


End transaction.

(** * Staging the sources *)

Section sync.
Implicit Types (t : tree) (q d s k : loc).

#[local] Opaque print_frame makedir subprocess.run.

Lemma descendants_spec t s kn :
  kn ∈ descendants t s → t !! kn.1 = Some kn.2 ∧ ∃ rel, kn.1 = s ++ rel.
Proof.
  unfold descendants. rewrite list_elem_of_filter. intros [Hb Hin].
  destruct kn as [k n]. apply elem_of_map_to_list in Hin. split; [done|].
  unfold below in Hb. apply andb_prop_elim in Hb as [Hp _].
  apply bool_decide_unpack in Hp. destruct Hp as [rel ->]. by exists rel.
Qed.

Lemma transfer_other und s d st kn k :
  k ≠ d ++ drop (length s) kn.1 →
  (rsync.transfer und s d st kn).1 !! k = st.1 !! k.
Proof.
  intros Hk. unfold rsync.transfer.
  destruct (search _ _ _); [done|].
  destruct kn as [q [c|]]; simpl in *;
    destruct (st.1 !! (d ++ drop (length s) q)) as [[]|];
    repeat case_match; simpl; rewrite ?lookup_insert_ne; done.
Qed.

Lemma foldl_transfer_other und s d l st k :
  (∀ kn, kn ∈ l → k ≠ d ++ drop (length s) kn.1) →
  (foldl (rsync.transfer und s d) st l).1 !! k = st.1 !! k.
Proof.
  revert st. induction l as [|kn l IH]; intros st Hl; [done|]. simpl.
  rewrite IH by (intros; apply Hl; by right).
  apply transfer_other, Hl. by left.
Qed.

(** Without [--delete], an entry of the destination whose name the source
    does not have is left as it is. *)
Lemma rsync_additive args src dst wd und t r status t' :
  List.filter (λ a, negb (rsync.is_option a)) args = [src +:+ "/"; dst] →
  rsync.deleting args = false →
  src ≠ "" →
  let s := resolve wd src in
  let d := resolve wd dst in
  t !! (s ++ r) = None →
  is_Some (t !! (d ++ r)) →
  rsync.run args wd und t = Some (status, t') →
  t' !! (d ++ r) = t !! (d ++ r).
Proof.
  intros Hargs Hdel Hsrc s d Hs Hd. unfold rsync.run. rewrite Hargs, Hdel.
  rewrite endswith_slash_snoc, resolve_trailing_slash by done. fold s d.
  destruct (stat t s) as [[c|]|e]; try (by intros [= _ <-]).
  destruct (negb (rsync.recursive args)); [by intros [= _ <-]|].
  rewrite app_nil_l.
  set (st0 := rsync.make_destination und d t).
  assert (st0.1 !! (d ++ r) = t !! (d ++ r)) as Hst0.
  { subst st0. unfold rsync.make_destination. destruct d as [|x d'] eqn:Ed; [done|].
    destruct (t !! (x :: d')) eqn:El; [done|].
    apply transfer_other. simpl. rewrite drop_all, app_nil_r.
    intros Heq. simpl in Hd. rewrite Heq, El in Hd. by destruct Hd. }
  destruct (stat st0.1 d) as [[]|]; try (by intros [= _ <-]).
  intros [= _ <-]. rewrite foldl_transfer_other; [done|].
  intros kn Hkn Heq.
  rewrite merge_sort_Permutation in Hkn.
  apply descendants_spec in Hkn as [Hl [rel Hrel]].
  rewrite Hrel, drop_app_length in Heq. apply app_inv_head in Heq as ->.
  rewrite Hrel in Hl. by rewrite Hl in Hs.
Qed.

Lemma not_option_neq a name :
  rsync.is_option a = false → rsync.is_option name = true → bool_decide (a = name) = false.
Proof. intros Ha Hn. apply bool_decide_eq_false. intros ->. congruence. Qed.

Lemma src_is_not_bld root r : root ++ ["src"] ++ r ≠ root ++ ["bld"].
Proof. intros Heq%app_inv_head. done. Qed.

(** C5. An entry of BuildDir whose name SourceDir does not have is the
    same after [copy_build_files] as before. *)
Theorem sync_keeps_build_only_entries others tb w r n :
  let s := resolve (cwd w) (tex_src tb) in
  let b := resolve (cwd w) (tex_bld tb) in
  fs w !! (s ++ r) = None →
  fs w !! (b ++ r) = Some n →
  fs (copy_build_files (machine others) tb w).2 !! (b ++ r) = Some n.
Proof.
  intros s b Hs Hb. unfold copy_build_files. io_unfold. rewrite print_frame_copying.
  destruct (makedir _ _ _ _) as [r1 w1] eqn:Hmk.
  apply makedir_inv in Hmk as (_ & Hcwd & _ & Hfs); [|apply tex_bld_nonempty].
  simpl in Hcwd, Hfs. change (resolve (cwd w) (tex_bld tb)) with b in Hfs.
  assert (s = resolve (cwd w) (tex_root tb) ++ ["src"]) as Hsroot
    by (by apply resolve_join2).
  assert (b = resolve (cwd w) (tex_root tb) ++ ["bld"]) as Hbroot
    by (by apply resolve_join2).
  assert (fs w1 !! (s ++ r) = None ∧ fs w1 !! (b ++ r) = Some n) as [Hs1 Hb1].
  { destruct Hfs as [(_ & -> & _)|[(_ & -> & Hnone & _)|(e & _ & _ & -> & _)]]; try done.
    rewrite !lookup_insert_ne; [done|..].
    - intros Heq. rewrite Heq in Hnone. congruence.
    - rewrite Hsroot, Hbroot, <- app_assoc. intros Heq. symmetry in Heq.
      by apply src_is_not_bld in Heq. }
  destruct r1 as [p|e]; [|done].
  rewrite run_eq. unfold machine. rewrite Hcwd.
  destruct (rsync.run _ _ _ _) as [[st t']|] eqn:Hrun; [|done]. simpl.
  destruct (rsync.is_option (tex_src tb +:+ "/")) eqn:Hos;
    destruct (rsync.is_option (tex_bld tb)) eqn:Hob.
  1-3: unfold rsync.run in Hrun; simpl in Hrun; rewrite Hos, Hob in Hrun;
       simpl in Hrun; by simplify_eq.
  rewrite <- Hb1. eapply (rsync_additive _ (tex_src tb) (tex_bld tb)); try done.
  - simpl. by rewrite Hos, Hob.
  - unfold rsync.deleting, rsync.long_flag. simpl.
    by rewrite !not_option_neq.
  - apply join2_nonempty. done.
Qed.

End sync.

(** * Cleaning *)

Section clean.

Lemma report_error_eq func pafh e s w :
  report_error func pafh e s w
  = (Ret true,
     extend [report_line pafh; EWrite (repr_func func +:+ LF); EWrite (str_exn e +:+ LF)] w).
Proof.
  unfold report_error, print. io_unfold. unfold log, extend. simpl.
  by rewrite <- !app_assoc.
Qed.







Lemma prefix_append a b : String.prefix a (a +:+ b) = true.
Proof.
  induction a as [|c a IH]; [by destruct b|]. rewrite append_cons. simpl.
  destruct (ascii_dec c c); [done|congruence].
Qed.

Lemma is_report_line p : is_report (report_line p) = true.
Proof. unfold is_report, report_line. rewrite append_assoc. apply prefix_append. Qed.

Lemma is_report_write e : is_report e = true → is_write e = true.
Proof. by destruct e. Qed.

Lemma has_report_iff tr :
  (existsb is_write tr = true → ∃ p, report_line p ∈ tr) →
  existsb is_report tr = existsb is_write tr.
Proof.
  intros H. destruct (existsb is_write tr) eqn:Hw.
  - destruct (H eq_refl) as [p Hp]. apply existsb_exists. exists (report_line p).
    split; [by apply list_elem_of_In|apply is_report_line].
  - apply not_true_is_false. intros (e & Hin & He)%existsb_exists.
    apply not_true_iff_false in Hw. apply Hw, existsb_exists. exists e.
    split; [done|by apply is_report_write].
Qed.


End clean.

(** * The helpers of [arbitrary.py] *)

Section helpers.


Lemma chdir_at_fs q w : fs (os.chdir_at q w).2 = fs w.
Proof. unfold os.chdir_at. simpl. by destruct (stat (fs w) q) as [[]|]. Qed.

Lemma chdir_at_cwd q w :
  cwd (os.chdir_at q w).2 = if is_dir (fs w) q then q else cwd w.
Proof. unfold os.chdir_at, is_dir. simpl. by destruct (stat (fs w) q) as [[]|]. Qed.


(** C10. Where a regular file is, [makedir] with [exists_ok] and without
    [recursive] returns the path as if it had made the directory: nothing
    is created, the file is still there and the path is not a
    directory. *)
Theorem makedir_over_file (p c : string) (w : World) :
  (os.stat p w).1 = Ret (File c) →
  makedir [p] true false w = (Ret p, log (EMkdir (resolve (cwd w) p)) w)
  ∧ (os.stat p (makedir [p] true false w).2).1 = Ret (File c)
  ∧ (os.path_isdir p (makedir [p] true false w).2).1 = Ret false.
Proof.
  assert (∀ w0, (os.stat p w0).1
                = if bool_decide (p = "") then Raise FileNotFoundError
                  else stat (fs w0) (resolve (cwd w0) p)) as Hstat.
  { intros w0. unfold os.stat, os.at_path, os.stat_at. by case_bool_decide. }
  rewrite Hstat. case_bool_decide as Hp; [done|]. intros Hs.
  pose proof (stat_Ret_inv _ _ _ Hs) as [Hq Hpar].
  assert (os.mkdir p w = (Raise FileExistsError, log (EMkdir (resolve (cwd w) p)) w)) as Hmk.
  { unfold os.mkdir, os.at_path, os.mkdir_at. rewrite bool_decide_eq_false_2 by done.
    simpl. destruct (resolve (cwd w) p) as [|x q] eqn:E; [done|].
    rewrite Hpar by done. by rewrite Hq. }
  assert (makedir [p] true false w = (Ret p, log (EMkdir (resolve (cwd w) p)) w)) as ->.
  { unfold makedir. simpl. io_unfold. by rewrite Hmk. }
  split_and!; [done|..].
  - rewrite Hstat. exact Hs.
  - rewrite path_isdir_eq by done. simpl. unfold is_dir. by rewrite Hs.
Qed.

(** C9. The three directories are the joins of the root with [src], [bld]
    and [dst]: the root as it was given, a separator unless the root is
    empty or ends with one, and the name.  Nothing is looked up: these are
    functions of the string alone.  Whatever the working directory, they
    name the entries [src], [bld] and [dst] of the directory the root
    names. *)
Theorem path_resolver (R : string) (wd : loc) :
  let tb := mkTexBuild R in
  let sep := if bool_decide (R = "") || posixpath.endswith_slash R then "" else "/" in
  (tex_src tb = R +:+ sep +:+ "src"
   ∧ tex_bld tb = R +:+ sep +:+ "bld"
   ∧ tex_dst tb = R +:+ sep +:+ "dst")
  ∧ (resolve wd (tex_src tb) = resolve wd R ++ ["src"]
     ∧ resolve wd (tex_bld tb) = resolve wd R ++ ["bld"]
     ∧ resolve wd (tex_dst tb) = resolve wd R ++ ["dst"]).
Proof.
  intros tb sep. split.
  - unfold tex_src, tex_bld, tex_dst, tex_root, posixpath.join, posixpath.join2. simpl.
    subst sep. by destruct (bool_decide (R = "") || posixpath.endswith_slash R).
  - split_and!; by apply resolve_join2.
Qed.

End helpers.

(** * The command line *)

Section command_line.
Variable spawn : program.
Variable patience : nat.

(** The [build] subcommand is one call of [build_document], with the
    options in the place of the output name. *)
Lemma run_args_build r d o w :
  run_args spawn patience (mkNamespace r "build" d o) w
  = (build_document spawn (mkTexBuild r) d (VList <$> o) None;; mret ()) w.
Proof.
  unfold run_args. simpl. io_unfold.
  by destruct (build_document _ _ _ _ _ _) as [[]].
Qed.

End command_line.

(** * The statements at work *)

(** C3: the code does not do what the claim says.  On
    [build /tmp/proj main] with the extra option [-draftmode], the compiler
    is started without the option, which [build_document] receives as the
    output name, and the publish stage stops on a [TypeError]. *)
Theorem run_args_drops_options :
  (run_args (machine example.compiles) 0 example.draft example.w0).1 = Raise TypeError
  ∧ spawned (trace (run_args (machine example.compiles) 0 example.draft example.w0).2)
    = [(["rsync"; "-av"; "/tmp/proj/src/"; "/tmp/proj/bld"], ["work"], Some 0);
       (["latexmk"; "-halt-on-error"; "-interaction=nonstopmode";
         "-pdflatex=lualatex"; "-pdf"; "main.tex"],
        ["tmp"; "proj"; "bld"], Some 0)].
Proof. split; vm_compute; reflexivity. Qed.

(** With [--delete] the mirroring tool would prune BuildDir: that the
    program does not pass the option is what keeps the entries. *)
Example rsync_delete_prunes :
  (snd <$> rsync.run ["-av"; "--delete"; "/tmp/proj/src/"; "/tmp/proj/bld"]
             ["work"] ∅ example.fs0)
    ≫= (λ t, t !! (example.proj ++ ["bld"; "extra.aux"])) = None.
Proof. vm_compute. reflexivity. Qed.

(** C4, the claim as stated fails: the compiler exits with 0 and leaves no
    artifact; the publish stage raises [FileNotFoundError] and so does
    [build_document], which returns no result. *)
Lemma missing_artifact_is_raised :
  (_copy_to_dst example.tb "main" (VStr "main")
     ((copy_build_files (machine example.idles) example.tb;;
       _run_latexmk_in_bld_dir (machine example.idles) example.tb "main" [])
        example.w0).2).1 = Raise FileNotFoundError
  ∧ (build_document (machine example.idles) example.tb "main" None None example.w0).1
    = Raise FileNotFoundError
  ∧ (build_document (machine example.idles) example.tb "main" None None example.w0).1
    ≠ Ret false.
Proof. split_and!; [vm_compute; reflexivity..|vm_compute; discriminate]. Qed.

(** C1, the claim as stated fails: the compiler exits with 1 after it has
    removed the directory the process was started in; [build_document]
    does not return [False], it raises the [FileNotFoundError] of the
    change back into that directory. *)
Lemma failed_build_may_raise :
  (latexmk_command "main" [], example.proj ++ ["bld"], Some 1%Z)
    ∈ spawned (trace (build_document (machine example.uproots) example.tb "main" None None
                        example.w0).2)
  ∧ (build_document (machine example.uproots) example.tb "main" None None example.w0).1
    = Raise FileNotFoundError
  ∧ (build_document (machine example.uproots) example.tb "main" None None example.w0).1
    ≠ Ret false
  ∧ cwd (build_document (machine example.uproots) example.tb "main" None None example.w0).2
    = example.proj ++ ["bld"].
Proof.
  split_and!; [apply (bool_decide_unpack _); vm_compute; exact I|vm_compute; reflexivity
              |vm_compute; discriminate|vm_compute; reflexivity].
Qed.

(** C2, the claim as stated fails: the document is [fig/main], the
    compiler exits with 0 and its artifact [fig/main.pdf] is in BuildDir;
    no output name is given.  The publish stage makes DestDir and no
    directory inside it, the copy to [dst/fig/main.pdf] raises
    [FileNotFoundError], and so does [build_document]: nothing is
    published. *)
Lemma nested_document_is_not_published :
  ((copy_build_files (machine example.nests) example.tb;;
    _run_latexmk_in_bld_dir (machine example.nests) example.tb "fig/main" [])
     example.w0).1 = Ret ()
  ∧ stat (fs (build_document (machine example.nests) example.tb "fig/main" None None
                example.w0).2) (example.proj ++ ["bld"; "fig"; "main.pdf"])
    = Ret (File "PDF")
  ∧ (build_document (machine example.nests) example.tb "fig/main" None None example.w0).1
    = Raise FileNotFoundError
  ∧ fs (build_document (machine example.nests) example.tb "fig/main" None None
          example.w0).2 !! (example.proj ++ ["dst"; "fig"; "main.pdf"]) = None
  ∧ fs (build_document (machine example.nests) example.tb "fig/main" None None
          example.w0).2 !! (example.proj ++ ["dst"; "main.pdf"]) = None.
Proof. split_and!; vm_compute; reflexivity. Qed.

(** C7, the claim as stated fails: the body removes the directory the
    process was in on entry, [/work]; the change back raises
    [FileNotFoundError] and the process is left in the directory of the
    [with] block. *)
Lemma body_removes_start_directory :
  cwd example.w0 = ["work"]
  ∧ (having_cwd "/tmp" (os.rmdir_at ["work"]) example.w0).1 = Raise FileNotFoundError
  ∧ cwd (having_cwd "/tmp" (os.rmdir_at ["work"]) example.w0).2 = ["tmp"].
Proof. split_and!; vm_compute; reflexivity. Qed.


(** ** The statements on the small project *)



(** C4 on a compiler that leaves no artifact: the fault of the publish
    stage reaches the caller. *)
Lemma io_fault_witness :
  is_CalledProcessError FileNotFoundError = false
  ∧ (build_document (machine example.idles) example.tb "main" None None example.w0).1
    = Raise FileNotFoundError.
Proof.
  pose proof (io_fault_propagates (machine example.idles) example.tb "main" None None
                example.w0 FileNotFoundError
                (build_document (machine example.idles) example.tb "main" None None
                   example.w0).2) as H.
  destruct H as (He & Hrun).
  - right.
    exists (copy_build_files (machine example.idles) example.tb example.w0).2.
    exists ((copy_build_files (machine example.idles) example.tb;;
             _run_latexmk_in_bld_dir (machine example.idles) example.tb "main" [])
              example.w0).2.
    split_and!; vm_compute; reflexivity.
  - split; [exact He|]. by rewrite Hrun.
Defined.

(** C5 on the auxiliary file that only BuildDir has. *)
Lemma sync_witness :
  example.fs0 !! (example.proj ++ ["src"; "extra.aux"]) = None
  ∧ example.fs0 !! (example.proj ++ ["bld"; "extra.aux"]) = Some (File "AUX")
  ∧ fs (copy_build_files (machine example.compiles) example.tb example.w0).2
      !! (example.proj ++ ["bld"; "extra.aux"]) = Some (File "AUX").
Proof.
  assert (example.fs0 !! (example.proj ++ ["src"; "extra.aux"]) = None) as H1
    by (vm_compute; reflexivity).
  assert (example.fs0 !! (example.proj ++ ["bld"; "extra.aux"]) = Some (File "AUX")) as H2
    by (vm_compute; reflexivity).
  split_and!; [exact H1|exact H2|].
  exact (sync_keeps_build_only_entries example.compiles example.tb example.w0
           ["extra.aux"] (File "AUX") H1 H2).
Defined.



(** C10 on the main source file. *)
Lemma makedir_witness :
  (os.stat "/tmp/proj/src/main.tex" example.w0).1 = Ret (File "TEX")
  ∧ (makedir ["/tmp/proj/src/main.tex"] true false example.w0).1
    = Ret "/tmp/proj/src/main.tex"
  ∧ fs (makedir ["/tmp/proj/src/main.tex"] true false example.w0).2 = example.fs0.
Proof.
  assert ((os.stat "/tmp/proj/src/main.tex" example.w0).1 = Ret (File "TEX")) as Hs
    by (vm_compute; reflexivity).
  destruct (makedir_over_file "/tmp/proj/src/main.tex" "TEX" example.w0 Hs) as (Hmk & _).
  split_and!; [exact Hs|by rewrite Hmk..].
Defined.

(** * Further properties

    What the code shows besides: the helpers of [arbitrary.py] on their
    edges, the frame printer, the stages on their own, the loop, the
    clean-up and the dispatch of the subcommands. *)

(** ** The frame printer *)

Section frames.

Lemma splitlines_nil txt : splitlines txt = [] ↔ txt = "".
Proof.
  split; [|by intros ->].
  destruct txt as [|c txt]; [done|]. simpl.
  destruct (Ascii.eqb c "010"); [done|]. by destruct (splitlines txt).
Qed.

Lemma splitlines_one_line txt : txt ≠ "" → one_line txt = true → splitlines txt = [txt].
Proof.
  induction txt as [|c txt IH]; [done|]. intros _. simpl.
  intros [Hc Hl]%andb_prop.
  destruct (Ascii.eqb c "010") eqn:E.
  { apply Ascii.eqb_eq in E as ->. done. }
  destruct txt as [|c' txt']; [done|].
  rewrite IH by done. done.
Qed.

(** X8. [print_frame] raises [ValueError] on the empty text, and only on
    it, since [max] is given an empty sequence; nothing is printed
    then. *)
Theorem print_frame_empty_text txt markup w :
  ((print_frame txt markup w).1 = Raise ValueError ↔ txt = "")
  ∧ (txt = "" → (print_frame txt markup w).2 = w)
  ∧ (txt ≠ "" → (print_frame txt markup w).1 = Ret ()).
Proof.
  unfold print_frame.
  destruct (splitlines txt) as [|l ls] eqn:E; simpl.
  - apply splitlines_nil in E as ->. done.
  - assert (txt ≠ "") by (intros ->; done).
    split_and!; [split|..]; done.
Qed.

(** X9. For a text of one line, [print_frame] prints five pieces: a row of
    stars, the text between ["| "] and [" |"], and the same row of stars,
    whose width is that of the row of the text. *)
Theorem print_frame_one_line txt markup w :
  txt ≠ "" → one_line txt = true →
  let width := String.length ("| " +:+ txt +:+ " |") in
  let border := EWrite ((Bcolors.BOLD +:+ stars width +:+ Bcolors.ENDC) +:+ LF) in
  print_frame txt markup w
  = (Ret (),
     extend [border;
             EWrite (Bcolors.BOLD +:+ "| " +:+ Bcolors.ENDC);
             EWrite (markup +:+ txt +:+ Bcolors.ENDC);
             EWrite ((Bcolors.BOLD +:+ " |" +:+ Bcolors.ENDC) +:+ LF);
             border] w).
Proof.
  intros Hne Hl width border. subst width border. unfold print_frame.
  rewrite splitlines_one_line by done. simpl.
  rewrite !length_append. simpl.
  replace (String.length txt + 4)%nat with (S (S (String.length txt + 2))) by lia.
  unfold print_markup, print, extend, log. io_unfold. simpl.
  rewrite !append_nil_r, <- !app_assoc. done.
Qed.

Lemma print_frame_watching w :
  print_frame "WATCHING SRC DIRECTORY FOR CHANGES" frame_markup w
  = (Ret (), extend (frame "WATCHING SRC DIRECTORY FOR CHANGES" 38) w).
Proof.
  unfold print_frame, print_markup, print, extend, frame, log. io_unfold. simpl.
  by rewrite <- !app_assoc.
Qed.

End frames.

(** ** [makedir] *)

Section makedir_edges.

Lemma stat_at_path_inv p w n :
  (os.stat p w).1 = Ret n → p ≠ "" ∧ stat (fs w) (resolve (cwd w) p) = Ret n.
Proof.
  unfold os.stat, os.stat_at. io_unfold. case_bool_decide; simpl; [done|]. done.
Qed.

(** X2. Without [exists_ok], [makedir] over an entry that is there, a
    file or a directory, raises [FileExistsError] and leaves the tree as
    it is. *)
Theorem makedir_strict_over_entry (p : string) (n : node) (w : World) :
  (os.stat p w).1 = Ret n →
  makedir [p] false false w = (Raise FileExistsError, log (EMkdir (resolve (cwd w) p)) w).
Proof.
  intros [Hp Hs]%stat_at_path_inv.
  unfold makedir. simpl. io_unfold. unfold os.mkdir, os.at_path, os.mkdir_at.
  rewrite bool_decide_eq_false_2 by done. simpl.
  destruct (resolve (cwd w) p) as [|c q] eqn:Eq; [done|].
  apply stat_Ret_inv in Hs as [Hl Hsr]. rewrite Hsr by done. rewrite Hl. simpl.
  done.
Qed.

(** X1. [makedir] without [recursive], whatever [exists_ok]: when nothing
    is at the joined path and its parent is a directory, the directory is
    made, the joined path is returned and the path names a directory
    afterwards. *)
Theorem makedir_creates (a : string) (ps : list string) (exists_ok : bool) (w : World) :
  let d := posixpath.join a ps in
  let q := resolve (cwd w) d in
  d ≠ "" →
  fs w !! q = None →
  is_dir (fs w) (parent q) = true →
  makedir (a :: ps) exists_ok false w
  = (Ret d, set_fs (<[q := Dir]> (fs w)) (log (EMkdir q) w))
  ∧ is_dir (<[q := Dir]> (fs w)) q = true.
Proof.
  intros d q Hd Hq Hpar.
  assert (q ≠ []) as Hne.
  { intros E. rewrite E in *. apply is_dir_lookup in Hpar. unfold parent in Hpar. simpl in Hpar. congruence. }
  split.
  - unfold makedir. fold d. io_unfold. unfold os.mkdir, os.at_path, os.mkdir_at.
    rewrite bool_decide_eq_false_2 by done. fold q. simpl.
    apply is_dir_search in Hpar.
    destruct q as [|c q'] eqn:Eq; [done|]. rewrite Hpar, Hq. done.
  - apply is_dir_search. rewrite (parent_last q Hne). apply search_snoc. split.
    + apply search_insert_dir. by apply is_dir_search.
    + simpl. rewrite <- (parent_last q Hne). apply lookup_insert_eq.
Qed.

(** X3. [exists_ok] forgives an entry that is there and nothing else:
    when the parent of the path is not a directory, [makedir] without
    [recursive] raises the error of [os.mkdir] (never [FileExistsError])
    and makes nothing. *)
Theorem makedir_missing_parent (p : string) (exists_ok : bool) (w : World) :
  let q := resolve (cwd w) p in
  p ≠ "" → q ≠ [] →
  is_dir (fs w) (parent q) = false →
  ∃ e, is_OSError e = true ∧ e ≠ FileExistsError
    ∧ makedir [p] exists_ok false w = (Raise e, log (EMkdir q) w).
Proof.
  intros q Hp Hq Hpar.
  destruct (search (fs w) [] (parent q)) as [e|] eqn:Es.
  2:{ apply is_dir_search in Es. congruence. }
  exists e. split; [by eapply search_OSError|].
  split; [intros ->; by apply search_not_exists in Es|].
  unfold makedir. simpl. io_unfold. unfold os.mkdir, os.at_path, os.mkdir_at.
  rewrite bool_decide_eq_false_2 by done. fold q. simpl.
  destruct q as [|c q'] eqn:Eq; [done|]. rewrite Es. simpl.
  rewrite bool_decide_eq_false_2; [done|].
  intros ->. by apply search_not_exists in Es.
Qed.

End makedir_edges.

Section makedirs.
Implicit Types (t : tree) (q r k : loc).

Lemma for_each_snoc {A} (l : list A) (a : A) (body : A → IO unit) w :
  for_each (l ++ [a]) body w
  = match for_each l body w with
    | (Ret _, w1) => body a w1
    | (Raise e, w1) => (Raise e, w1)
    end.
Proof.
  revert w. induction l as [|x l IH]; intros w; simpl; io_unfold.
  - by destruct (body a w) as [[[]|e] w1].
  - destruct (body x w) as [[[]|e] w1]; [|done]. apply IH.
Qed.

Lemma prefixes_snoc r c : os.prefixes (r ++ [c]) = os.prefixes r ++ [r ++ [c]].
Proof.
  unfold os.prefixes. rewrite length_app. simpl.
  rewrite Nat.add_1_r, seq_S, fmap_app. simpl. f_equal.
  - apply list_fmap_ext. intros i n Hn.
    apply lookup_seq in Hn as [-> Hi]. by rewrite take_app_le by lia.
  - f_equal. apply take_ge. rewrite length_app. simpl. lia.
Qed.

Lemma prefix_snoc_iff k q (c : string) :
  k `prefix_of` q ++ [c] ↔ k `prefix_of` q ∨ k = q ++ [c].
Proof.
  split.
  - intros [k' E]. destruct k' as [|x k' _] using rev_ind.
    + right. by rewrite app_nil_r in E.
    + left. rewrite app_assoc in E. apply app_inj_tail in E as [-> _]. by exists k'.
  - intros [H | ->]; [by apply prefix_app_r|done].
Qed.

Lemma with_dirs_snoc r c t : with_dirs (r ++ [c]) t = <[r ++ [c] := Dir]> (with_dirs r t).
Proof. unfold with_dirs. by rewrite prefixes_snoc, foldl_app. Qed.

Lemma with_dirs_lookup q t k :
  t !! [] = Some Dir →
  with_dirs q t !! k = if bool_decide (k `prefix_of` q) then Some Dir else t !! k.
Proof.
  intros Hroot. induction q as [|c q IH] using rev_ind.
  - unfold with_dirs. simpl. case_bool_decide as Hk; [|done].
    apply prefix_nil_inv in Hk as ->. done.
  - rewrite with_dirs_snoc.
    destruct (decide (k = q ++ [c])) as [->|Hne].
    + rewrite lookup_insert_eq. by rewrite bool_decide_eq_true_2.
    + rewrite lookup_insert_ne by done. rewrite IH.
      rewrite (bool_decide_ext (k `prefix_of` q ++ [c]) (k `prefix_of` q)); [done|].
      rewrite prefix_snoc_iff. split; [by intros [?|?]|by left].
Qed.

Lemma stat_below_root t q :
  q ≠ [] →
  stat t q
  = match search t [] (parent q) with
    | Some e => Raise e
    | None => match t !! q with Some n => Ret n | None => Raise FileNotFoundError end
    end.
Proof. by destruct q. Qed.

Lemma mkdir_at_below_root q w :
  q ≠ [] →
  os.mkdir_at q w
  = match search (fs w) [] (parent q) with
    | Some e => (Raise e, log (EMkdir q) w)
    | None =>
        match fs w !! q with
        | Some _ => (Raise FileExistsError, log (EMkdir q) w)
        | None => (Ret (), set_fs (<[q := Dir]> (fs w)) (log (EMkdir q) w))
        end
    end.
Proof. by destruct q. Qed.

Lemma search_prefixes t r :
  search t [] r = None ↔ ∀ k, k `prefix_of` r → t !! k = Some Dir.
Proof.
  induction r as [|c r IH] using rev_ind.
  - simpl. split.
    + intros H k ->%prefix_nil_inv. by destruct (t !! []) as [[]|].
    + intros H. by rewrite (H [] (prefix_nil _)).
  - rewrite search_snoc, IH. simpl. split.
    + intros [H1 H2] k [Hk| ->]%prefix_snoc_iff; auto.
    + intros H. split; [|by apply H]. intros k Hk. apply H. by apply prefix_app_r.
Qed.

Lemma is_dir_root t q : is_dir t q = true → t !! [] = Some Dir.
Proof.
  intros H%is_dir_search. apply (proj1 (search_prefixes t q) H). apply prefix_nil.
Qed.

Lemma is_dir_with_dirs t r : t !! [] = Some Dir → is_dir (with_dirs r t) r = true.
Proof.
  intros Hroot. apply is_dir_search, search_prefixes. intros k Hk.
  by rewrite with_dirs_lookup, bool_decide_eq_true_2.
Qed.

(** One step of the walk: a directory that is there is left alone, a
    missing one is made. *)
Lemma ensure_ancestor r c w :
  is_dir (fs w) r = true →
  (∀ x, fs w !! (r ++ [c]) ≠ Some (File x)) →
  ∃ w', (present ← try_except (os.stat_at (r ++ [c]);; mret true) is_OSError (λ _, mret false);
         if present : bool then ret ()
         else try_except (os.mkdir_at (r ++ [c])) (λ e, bool_decide (e = FileExistsError))
                (λ _, ret ())) w = (Ret (), w')
    ∧ fs w' = <[r ++ [c] := Dir]> (fs w) ∧ cwd w' = cwd w ∧ undeletable w' = undeletable w.
Proof.
  intros Hr Hnf. apply is_dir_search in Hr.
  io_unfold. unfold os.stat_at.
  rewrite stat_below_root, parent_snoc, Hr by apply snoc_nonempty.
  destruct (fs w !! (r ++ [c])) as [[x|]|] eqn:El.
  - by destruct (Hnf x).
  - simpl. eexists. split; [done|]. simpl. split_and!; try done.
    by rewrite insert_id.
  - simpl. rewrite mkdir_at_below_root, parent_snoc by apply snoc_nonempty. simpl.
    rewrite Hr, El. eexists. split; [done|]. done.
Qed.

Lemma ensure_ancestors r w :
  fs w !! [] = Some Dir →
  (∀ k x, k `prefix_of` r → fs w !! k ≠ Some (File x)) →
  ∃ w', for_each (os.prefixes r) (λ a,
          present ← try_except (os.stat_at a;; mret true) is_OSError (λ _, mret false);
          if present : bool then ret ()
          else try_except (os.mkdir_at a) (λ e, bool_decide (e = FileExistsError))
                 (λ _, ret ())) w = (Ret (), w')
    ∧ fs w' = with_dirs r (fs w) ∧ cwd w' = cwd w ∧ undeletable w' = undeletable w.
Proof.
  intros Hroot. induction r as [|c r IH] using rev_ind; intros Hnf.
  - exists w. done.
  - destruct IH as (w1 & Hrun & Hfs & Hcwd & Hund).
    { intros k x Hk. apply Hnf. by apply prefix_app_r. }
    rewrite prefixes_snoc, for_each_snoc, Hrun.
    destruct (ensure_ancestor r c w1) as (w2 & Hstep & Hfs2 & Hcwd2 & Hund2).
    { rewrite Hfs. by apply is_dir_with_dirs. }
    { intros x. rewrite Hfs, with_dirs_lookup by done.
      rewrite bool_decide_eq_false_2 by apply prefix_snoc_not. by apply Hnf. }
    exists w2. split; [exact Hstep|].
    rewrite with_dirs_snoc, Hfs2, Hfs. split_and!; congruence.
Qed.

(** [os.makedirs] on a path none of whose names is a regular file. *)
Lemma makedirs_ok p exist_ok w :
  let q := resolve (cwd w) p in
  p ≠ "" →
  fs w !! [] = Some Dir →
  (∀ k x, k `prefix_of` q → fs w !! k ≠ Some (File x)) →
  exist_ok = true ∨ fs w !! q = None →
  ∃ w', os.makedirs p exist_ok w = (Ret (), w')
    ∧ fs w' = with_dirs q (fs w) ∧ cwd w' = cwd w ∧ undeletable w' = undeletable w.
Proof.
  intros q Hp Hroot Hnf Hok. unfold os.makedirs, os.at_path.
  rewrite bool_decide_eq_false_2 by done. fold q.
  destruct (ensure_ancestors (parent q) w) as (w1 & Hrun & Hfs & Hcwd & Hund); [done|..].
  { intros k x Hk. apply Hnf. destruct (decide (q = [])) as [->|Hq]; [done|].
    rewrite (parent_last q Hq). by apply prefix_app_r. }
  unfold mbind at 1, IO_bind at 1, bind at 1. rewrite Hrun.
  destruct (decide (q = [])) as [Hq|Hq].
  - rewrite Hq in *. unfold os.mkdir_at, os.stat_at. io_unfold. simpl.
    unfold parent in Hfs. simpl in Hfs. unfold with_dirs in Hfs. simpl in Hfs.
    rewrite Hfs, Hroot. simpl.
    destruct Hok as [->|Hn]; [|congruence]. simpl. eexists. split; [done|].
    simpl. split_and!; try done.
  - assert (is_dir (fs w1) (parent q) = true) as Hpar.
    { rewrite Hfs. by apply is_dir_with_dirs. }
    apply is_dir_search in Hpar.
    assert (with_dirs q (fs w) = <[q := Dir]> (fs w1)) as Hq'.
    { rewrite (parent_last q Hq) at 1. rewrite with_dirs_snoc, <- (parent_last q Hq). by rewrite Hfs. }
    assert (fs w1 !! q = fs w !! q) as Hsame.
    { rewrite Hfs, with_dirs_lookup by done. rewrite bool_decide_eq_false_2; [done|].
      rewrite (parent_last q Hq) at 1. apply prefix_snoc_not. }
    io_unfold. rewrite mkdir_at_below_root, Hpar, Hsame by done.
    destruct (fs w !! q) as [[x|]|] eqn:El.
    + by destruct (Hnf q x).
    + simpl. unfold os.stat_at. rewrite stat_below_root by done. simpl.
      rewrite Hpar, Hsame. simpl.
      destruct Hok as [->|?]; [|done]. simpl. eexists. split; [done|]. simpl.
      split_and!; try done. rewrite Hq'. by rewrite insert_id.
    + simpl. eexists. split; [done|]. simpl. by rewrite Hq'.
Qed.

Lemma with_dirs_id t r : search t [] r = None → with_dirs r t = t.
Proof.
  intros Hs. assert (t !! [] = Some Dir) as Hroot.
  { apply search_prefixes with (k := []) in Hs; [done|apply prefix_nil]. }
  apply map_eq. intros k. rewrite with_dirs_lookup by done.
  case_bool_decide as Hk; [|done]. symmetry. by eapply search_prefixes.
Qed.

(** X4. [makedir] with [recursive]: when no name on the way to the path
    is a regular file (and the leaf is missing, or [exists_ok] is set),
    every missing directory on the way is made, the leaf included, and
    nothing else changes.  The walk of [os.makedirs] is over the names of
    the path string, which are those of the location when no name is
    [..] and the process has a working directory. *)
Theorem makedir_recursive_creates (p : string) (exists_ok : bool) (w : World) :
  let q := resolve (cwd w) p in
  p ≠ "" → ".." ∉ posixpath.split p →
  is_dir (fs w) (cwd w) = true →
  (∀ k x, k `prefix_of` q → fs w !! k ≠ Some (File x)) →
  exists_ok = true ∨ fs w !! q = None →
  ∃ w', makedir [p] exists_ok true w = (Ret p, w')
    ∧ (∀ k, fs w' !! k = if bool_decide (k `prefix_of` q) then Some Dir else fs w !! k)
    ∧ is_dir (fs w') q = true ∧ cwd w' = cwd w.
Proof.
  intros q Hp _ Hroot%is_dir_root Hnf Hok.
  destruct (makedirs_ok p exists_ok w Hp Hroot Hnf Hok) as (w' & Hrun & Hfs & Hcwd & _).
  exists w'. unfold makedir. simpl. io_unfold. rewrite Hrun. split; [done|].
  rewrite Hfs. split_and!; [|by apply is_dir_with_dirs|done].
  intros k. by apply with_dirs_lookup.
Qed.

Lemma makedirs_over_file p c exist_ok w :
  p ≠ "" →
  stat (fs w) (resolve (cwd w) p) = Ret (File c) →
  ∃ w', os.makedirs p exist_ok w = (Raise FileExistsError, w')
    ∧ fs w' = fs w ∧ cwd w' = cwd w.
Proof.
  intros Hp Hs. unfold os.makedirs, os.at_path.
  rewrite bool_decide_eq_false_2 by done.
  set (q := resolve (cwd w) p) in *. clearbody q.
  destruct (decide (q = [])) as [Hq|Hq].
  - rewrite Hq in *. unfold os.mkdir_at, os.stat_at. io_unfold. simpl.
    simpl in Hs. rewrite Hs. simpl. rewrite orb_true_r. eexists. split; [done|]. done.
  - apply stat_Ret_inv in Hs as [Hl Hsr]. specialize (Hsr Hq).
    destruct (ensure_ancestors (parent q) w) as (w1 & Hrun & Hfs & Hcwd & Hund).
    { apply search_prefixes with (k := []) in Hsr; [done|apply prefix_nil]. }
    { intros k x Hk. by rewrite (proj1 (search_prefixes _ _) Hsr k Hk). }
    rewrite with_dirs_id in Hfs by done.
    unfold mbind at 1, IO_bind at 1, bind at 1. rewrite Hrun.
    io_unfold. rewrite mkdir_at_below_root by done. rewrite Hfs, Hsr, Hl. simpl.
    unfold os.stat_at. rewrite stat_below_root by done. simpl. rewrite Hfs, Hsr, Hl. simpl.
    rewrite orb_true_r. eexists. split; [done|]. done.
Qed.

(** X5. [makedir] with [recursive] over a regular file raises
    [FileExistsError] even with [exists_ok]: [os.makedirs] forgives a
    directory only.  (Without [recursive] the file is accepted.) *)
Theorem makedir_recursive_over_file (p c : string) (exists_ok : bool) (w : World) :
  (os.stat p w).1 = Ret (File c) →
  ∃ w', makedir [p] exists_ok true w = (Raise FileExistsError, w')
    ∧ fs w' = fs w ∧ cwd w' = cwd w.
Proof.
  intros [Hp Hs]%stat_at_path_inv.
  destruct (makedirs_over_file p c exists_ok w Hp Hs) as (w' & Hrun & Hfs & Hcwd).
  exists w'. unfold makedir. simpl. io_unfold. by rewrite Hrun.
Qed.

(** X10. [init_dirs] makes the project root, with the directories on the
    way to it, and [src] in it; no other entry changes, so [bld] and [dst]
    are not made.  The assumptions are those of X4, for the root and for
    [src]. *)
Theorem init_dirs_makes_root_and_src (tb : TexBuild) (w : World) :
  let r := resolve (cwd w) (tex_root tb) in
  tex_root tb ≠ "" → ".." ∉ posixpath.split (tex_root tb) →
  is_dir (fs w) (cwd w) = true →
  (∀ k x, k `prefix_of` r ++ ["src"] → fs w !! k ≠ Some (File x)) →
  ∃ w', init_dirs tb w = (Ret (), w')
    ∧ (∀ k, fs w' !! k
            = if bool_decide (k `prefix_of` r ++ ["src"]) then Some Dir else fs w !! k)
    ∧ cwd w' = cwd w.
Proof.
  intros r Hp _ Hroot%is_dir_root Hnf.
  destruct (makedirs_ok (tex_root tb) true w) as (w1 & Hrun & Hfs & Hcwd & Hund);
    [done|done| |by left|].
  { intros k x Hk. apply Hnf. by apply prefix_app_r. }
  fold r in Hfs.
  assert (resolve (cwd w1) (tex_src tb) = r ++ ["src"]) as Hsrc.
  { unfold tex_src. simpl. by rewrite resolve_join2, Hcwd. }
  destruct (makedir_ready (tex_src tb) w1) as (w2 & Hrun2 & Hfs2 & Hcwd2 & _).
  { unfold tex_src. simpl. by apply join2_nonempty. }
  { rewrite Hsrc, parent_snoc, Hfs. by apply is_dir_with_dirs. }
  { intros c. rewrite Hsrc, Hfs, with_dirs_lookup by done.
    rewrite bool_decide_eq_false_2 by apply prefix_snoc_not. by apply Hnf. }
  { rewrite Hsrc. apply snoc_nonempty. }
  exists w2. unfold init_dirs.
  unfold mbind at 1, IO_bind at 1, bind at 1.
  replace (makedir [tex_root tb] true true w) with (Ret (tex_root tb), w1).
  2:{ unfold makedir. simpl. io_unfold. by rewrite Hrun. }
  unfold mbind at 1, IO_bind at 1, bind at 1. rewrite Hrun2.
  split; [done|]. split; [|congruence].
  intros k. rewrite Hfs2, Hsrc, Hfs, <- with_dirs_snoc. by apply with_dirs_lookup.
Qed.

End makedirs.

(** ** [having_cwd] *)

Section having_cwd_body.

#[local] Opaque os.getcwd os.chdir os.chdir_at.

(** X6. When the directory can be entered and the starting directory is
    still there at the end, [with having_cwd(directory)] runs its body with
    [directory] as working directory and hands on what the body returned or
    raised, after going back. *)
Theorem having_cwd_runs_body_inside {A} (directory : string) (body : IO A) (w : World) r w2 :
  let q := resolve (cwd w) directory in
  wf_world w → directory ≠ "" →
  enterable w directory = true →
  body (set_cwd q (log (EChdir q) (log EGetcwd w))) = (r, w2) →
  is_dir (fs w2) (cwd w) = true →
  having_cwd directory body w = (r, set_cwd (cwd w) (log (EChdir (cwd w)) w2)).
Proof.
  intros q Hwf Hd [Hcwd Hq]%andb_prop Hbody Hback.
  unfold having_cwd. io_unfold. rewrite getcwd_eq, Hcwd.
  rewrite chdir_eq by done. simpl. fold q. rewrite chdir_at_ok by done.
  rewrite Hbody. rewrite chdir_loc_str by done. rewrite chdir_at_ok by done.
  by destruct r.
Qed.

(** X7. When [directory] is not a directory, the body of
    [with having_cwd(directory)] is not run: the error of [os.chdir] is
    raised, after the [finally] clause has gone back to the starting
    directory, and nothing but the three calls has happened. *)
Theorem having_cwd_skips_body {A} (directory : string) (body : IO A) (w : World) :
  let q := resolve (cwd w) directory in
  wf_world w → directory ≠ "" →
  is_dir (fs w) (cwd w) = true →
  is_dir (fs w) q = false →
  ∃ e, is_OSError e = true
    ∧ having_cwd directory body w
      = (Raise e, extend [EGetcwd; EChdir q; EChdir (cwd w)] w).
Proof.
  intros q Hwf Hd Hcwd Hq.
  unfold having_cwd. io_unfold. rewrite getcwd_eq, Hcwd.
  rewrite chdir_eq by done. simpl. fold q.
  destruct (chdir_at_fail q (log EGetcwd w)) as (e & He & Hfail); [done|].
  exists e. split; [done|]. rewrite Hfail.
  rewrite chdir_loc_str by done. rewrite chdir_at_ok by done.
  unfold extend, set_cwd, log. simpl. by rewrite <- !app_assoc.
Qed.

End having_cwd_body.

(** ** What a computation prints, starts and raises *)

Section emission.
Context {P : event → Prop}.

Lemma emits_ret {A} (a : A) : emits P (mret a).
Proof. intros w r w' [= <- <-]. exists []. by rewrite app_nil_r. Qed.

Lemma emits_raise {A} e : emits P (@raise A e).
Proof. intros w r w' [= <- <-]. exists []. by rewrite app_nil_r. Qed.

Lemma emits_bind {A B} (m : IO A) (k : A → IO B) :
  emits P m → (∀ a, emits P (k a)) → emits P (m ≫= k).
Proof.
  intros Hm Hk w r w'. io_unfold. destruct (m w) as [[a|e] w1] eqn:E.
  - intros Hka. destruct (Hm _ _ _ E) as (tr1 & Htr1 & Hs1).
    destruct (Hk a _ _ _ Hka) as (tr2 & Htr2 & Hs2).
    exists (tr1 ++ tr2). rewrite Htr2, Htr1, <- app_assoc. split; [done|].
    by apply Forall_app.
  - intros [= <- <-]. exact (Hm _ _ _ E).
Qed.

Lemma emits_bind_raise {A B} (m : IO A) (k : A → IO B) :
  (∀ w, ∃ e, m w = (Raise e, w)) → emits P (m ≫= k).
Proof.
  intros Hm w r w'. io_unfold. destruct (Hm w) as [e ->].
  intros [= <- <-]. exists []. by rewrite app_nil_r.
Qed.

Lemma emits_try_except {A} (m : IO A) handles (h : exn → IO A) :
  emits P m → (∀ e, emits P (h e)) → emits P (try_except m handles h).
Proof.
  intros Hm Hh w r w'. io_unfold. destruct (m w) as [[a|e] w1] eqn:E.
  - intros [= <- <-]. exact (Hm _ _ _ E).
  - destruct (Hm _ _ _ E) as (tr1 & Htr1 & Hs1).
    destruct (handles e).
    + intros Hhe. destruct (Hh e _ _ _ Hhe) as (tr2 & Htr2 & Hs2).
      exists (tr1 ++ tr2). rewrite Htr2, Htr1, <- app_assoc. split; [done|].
      by apply Forall_app.
    + intros [= <- <-]. eauto.
Qed.

Lemma emits_try_finally {A} (m : IO A) (f : IO unit) :
  emits P m → emits P f → emits P (try_finally m f).
Proof.
  intros Hm Hf w r w'. io_unfold. destruct (m w) as [r1 w1] eqn:E.
  destruct (Hm _ _ _ E) as (tr1 & Htr1 & Hs1).
  destruct (f w1) as [[[]|e] w2] eqn:E2;
    destruct (Hf _ _ _ E2) as (tr2 & Htr2 & Hs2);
    intros [= <- <-]; exists (tr1 ++ tr2);
    (rewrite Htr2, Htr1, <- app_assoc; split; [done|]; by apply Forall_app).
Qed.

Lemma emits_at_path {A} p (f : loc → IO A) : (∀ q, emits P (f q)) → emits P (os.at_path p f).
Proof.
  intros Hf w r w'. unfold os.at_path. case_bool_decide.
  - by apply (emits_raise FileNotFoundError).
  - apply Hf.
Qed.

Lemma emits_one {A} (m : IO A) (ev : World → event) :
  (∀ w, ∃ r t q, m w = (r, mkWorld t q (undeletable w) (trace w ++ [ev w]))) →
  (∀ w, P (ev w)) → emits P m.
Proof.
  intros Hm HP w r w' E. destruct (Hm w) as (r1 & t & q & E1).
  rewrite E1 in E. injection E as <- <-. exists [ev w]. split; [done|].
  by apply Forall_singleton.
Qed.

Lemma emits_print text end_ : P (EWrite (text +:+ end_)) → emits P (print text end_).
Proof. intros HP. apply (emits_one _ (λ _, EWrite (text +:+ end_))); [|done]. intros w. by eexists _, _, _. Qed.

Lemma emits_print_markup txt markup end_ :
  P (EWrite ((markup +:+ txt +:+ Bcolors.ENDC) +:+ end_)) → emits P (print_markup txt markup end_).
Proof. apply emits_print. Qed.

Lemma emits_getcwd : P EGetcwd → emits P os.getcwd.
Proof.
  intros HP. apply (emits_one _ (λ _, EGetcwd)); [|done]. intros w.
  unfold os.getcwd. simpl. destruct (stat (fs w) (cwd w)) as [[]|]; by eexists _, _, _.
Qed.

Lemma emits_stat_at q : P (EStat q) → emits P (os.stat_at q).
Proof. intros HP. apply (emits_one _ (λ _, EStat q)); [|done]. intros w. by eexists _, _, _. Qed.

Lemma emits_chdir_at q : P (EChdir q) → emits P (os.chdir_at q).
Proof.
  intros HP. apply (emits_one _ (λ _, EChdir q)); [|done]. intros w.
  unfold os.chdir_at. simpl. destruct (stat (fs w) q) as [[]|]; by eexists _, _, _.
Qed.

Lemma emits_mkdir_at q : P (EMkdir q) → emits P (os.mkdir_at q).
Proof.
  intros HP. apply (emits_one _ (λ _, EMkdir q)); [|done]. intros w.
  unfold os.mkdir_at. simpl. destruct q; [by eexists _, _, _|].
  destruct (search _ _ _); [by eexists _, _, _|].
  destruct (fs w !! _); by eexists _, _, _.
Qed.

Lemma emits_copyfile_at s d : P (ECopyfile s d) → emits P (shutil.copyfile_at s d).
Proof.
  intros HP. apply (emits_one _ (λ _, ECopyfile s d)); [|done]. intros w.
  unfold shutil.copyfile_at. simpl.
  destruct (stat (fs w) s) as [[]|]; try by eexists _, _, _.
  case_bool_decide; [by eexists _, _, _|].
  destruct d; [by eexists _, _, _|].
  destruct (search _ _ _); [by eexists _, _, _|].
  destruct (fs w !! _) as [[]|]; by eexists _, _, _.
Qed.

Lemma emits_run spawn argv check :
  (∀ wd st, P (ESpawn argv wd st)) → emits P (subprocess.run spawn argv check).
Proof.
  intros HP w r w'. unfold subprocess.run.
  destruct (spawn _ _ _ _) as [[st t]|].
  - simpl. intros E. exists [ESpawn argv (cwd w) (Some st)].
    split; [|by apply Forall_singleton].
    by destruct (check && _); injection E as <- <-.
  - intros [= <- <-]. exists [ESpawn argv (cwd w) None]. split; [done|]. by apply Forall_singleton.
Qed.

Lemma emits_chdir p : (∀ q, P (EChdir q)) → emits P (os.chdir p).
Proof. intros HP. apply emits_at_path. intros q. by apply emits_chdir_at. Qed.

Lemma emits_path_isdir p : (∀ q, P (EStat q)) → emits P (os.path_isdir p).
Proof.
  intros HP. apply emits_try_except; [|intros; apply emits_ret].
  apply emits_bind; [|intros; apply emits_ret].
  apply emits_at_path. intros q. by apply emits_stat_at.
Qed.

Lemma emits_makedir p exists_ok : (∀ q, P (EMkdir q)) → emits P (makedir [p] exists_ok false).
Proof.
  intros HP. unfold makedir. apply emits_bind; [|intros; apply emits_ret].
  apply emits_try_except; [apply emits_at_path; intros; by apply emits_mkdir_at|].
  intros e. destruct exists_ok; [apply emits_ret|apply emits_raise].
Qed.

Lemma emits_print_frame txt n :
  (∀ w, print_frame txt frame_markup w = (Ret (), extend (frame txt n) w)) →
  Forall P (frame txt n) → emits P (print_frame txt frame_markup).
Proof. intros E HP w r w'. rewrite E. intros [= <- <-]. by eexists. Qed.

End emission.

Section options.
Variable spawn : program.
Variable patience : nat.

#[local] Opaque os.getcwd os.chdir os.chdir_at subprocess.run print_frame print_markup makedir.

Ltac not_success := try (intros; cbv; discriminate).

Lemma build_with_list_name tb doc l opts :
  emits (no_publish tb doc (default opts []))
    (build_document spawn tb doc (Some (VList l)) opts).
Proof.
  unfold build_document. apply emits_try_except.
  2:{ intros _. apply emits_bind; [|intros; apply emits_ret].
      apply emits_print_markup. not_success. }
  apply emits_bind.
  { unfold copy_build_files. apply emits_bind.
    { eapply emits_print_frame; [apply print_frame_copying|]. repeat constructor; not_success. }
    intros _. apply emits_bind; [apply emits_makedir; not_success|]. intros _.
    apply emits_bind; [|intros; apply emits_ret].
    apply emits_run. intros. by left. }
  intros _. apply emits_bind.
  { unfold _run_latexmk_in_bld_dir, having_cwd.
    apply emits_bind; [apply emits_getcwd; not_success|]. intros cur.
    apply emits_try_finally; [|apply emits_chdir; not_success].
    apply emits_bind; [apply emits_chdir; not_success|]. intros _.
    apply emits_bind.
    { eapply emits_print_frame; [apply print_frame_building|]. repeat constructor; not_success. }
    intros _. apply emits_bind; [|intros; apply emits_ret].
    apply emits_run. intros. by right. }
  intros _. apply emits_bind_raise. intros w. by exists TypeError.
Qed.

(** X24. For every root, document and list of options, the [build]
    subcommand given options starts no program but [rsync] and the
    compiler without any extra option, copies no file and never prints
    [BUILD SUCCESSFUL]. *)
Theorem build_subcommand_drops_options (r d : string) (l : list string) (w : World) :
  let tb := mkTexBuild r in
  let run := run_args spawn patience (mkNamespace r "build" d (Some l)) w in
  let news := drop (length (trace w)) (trace run.2) in
  (∀ argv wd st, ESpawn argv wd st ∈ news →
     argv = rsync_command tb ∨ argv = latexmk_command d [])
  ∧ (∀ s t, ECopyfile s t ∉ news)
  ∧ build_successful ∉ news.
Proof.
  intros tb run news. subst run news. rewrite run_args_build.
  destruct ((build_document spawn (mkTexBuild r) d (VList <$> Some l) None;; mret ()) w)
    as [res w'] eqn:E.
  assert (emits (no_publish tb d []) (build_document spawn tb d (Some (VList l)) None;; mret ()))
    as Hem.
  { apply emits_bind; [apply (build_with_list_name tb d l None)|intros; apply emits_ret]. }
  destruct (Hem _ _ _ E) as (tr & Htr & HP). simpl. rewrite Htr, since_app.
  rewrite Forall_forall in HP. split_and!.
  - intros argv wd st Hin. exact (HP _ Hin).
  - intros s t Hin. exact (HP _ Hin).
  - intros Hin. by apply (HP _ Hin).
Qed.

End options.

Section faults.
Context {E : exn → Prop}.

Lemma raises_ret {A} (a : A) : raises E (mret a).
Proof. by intros w e w'. Qed.

Lemma raises_raise {A} e : E e → raises E (@raise A e).
Proof. by intros He w e' w' [= <- <-]. Qed.

Lemma raises_bind {A B} (m : IO A) (k : A → IO B) :
  raises E m → (∀ a, raises E (k a)) → raises E (m ≫= k).
Proof.
  intros Hm Hk w e w'. io_unfold. destruct (m w) as [[a|e1] w1] eqn:E1.
  - apply Hk.
  - intros [= <- <-]. by eapply Hm.
Qed.

Lemma raises_try_except {A} (E' : exn → Prop) (m : IO A) (handles : exn → bool) (h : exn → IO A) :
  raises E' m →
  (∀ e, E' e → if handles e then raises E (h e) else E e) →
  raises E (try_except m handles h).
Proof.
  intros Hm Hh w e w'. io_unfold. destruct (m w) as [[a|e1] w1] eqn:E1; [done|].
  specialize (Hh e1 (Hm _ _ _ E1)). destruct (handles e1).
  - apply Hh.
  - by intros [= <- <-].
Qed.

Lemma raises_try_finally {A} (m : IO A) (f : IO unit) :
  raises E m → raises E f → raises E (try_finally m f).
Proof.
  intros Hm Hf w e w'. io_unfold. destruct (m w) as [r1 w1] eqn:E1.
  destruct (f w1) as [[[]|e2] w2] eqn:E2.
  - intros [= -> <-]. by eapply Hm.
  - intros [= <- <-]. by eapply Hf.
Qed.

Hypothesis os_errors : ∀ e, is_OSError e = true → E e.

Lemma raises_at_path {A} p (f : loc → IO A) : (∀ q, raises E (f q)) → raises E (os.at_path p f).
Proof.
  intros Hf w e w'. unfold os.at_path. case_bool_decide.
  - intros [= <- <-]. by apply os_errors.
  - apply Hf.
Qed.

Lemma raises_getcwd : raises E os.getcwd.
Proof.
  intros w e w'. unfold os.getcwd. simpl.
  destruct (stat _ _) as [[]|]; intros [= <- <-]; by apply os_errors.
Qed.

Lemma raises_stat_at q : raises E (os.stat_at q).
Proof. intros w e w' [= H <-]. by apply os_errors, (stat_OSError (fs w) q). Qed.

Lemma raises_chdir p : raises E (os.chdir p).
Proof.
  apply raises_at_path. intros q w e w'. unfold os.chdir_at. simpl.
  destruct (stat (fs w) q) as [[]|e1] eqn:Es; intros [= <- <-]; apply os_errors; [done|].
  by eapply stat_OSError.
Qed.

Lemma raises_mkdir_at q : raises E (os.mkdir_at q).
Proof.
  intros w e w'. unfold os.mkdir_at. simpl.
  destruct q as [|c q]; [intros [= <- <-]; by apply os_errors|].
  destruct (search _ _ _) as [e1|] eqn:Es.
  { intros [= <- <-]. by eapply os_errors, search_OSError. }
  destruct (fs w !! (c :: q)); intros [= <- <-]. by apply os_errors.
Qed.

Lemma raises_copyfile_at s d : raises E (shutil.copyfile_at s d).
Proof.
  intros w e w'. unfold shutil.copyfile_at. simpl.
  destruct (stat (fs w) s) as [[c|]|e1] eqn:Es.
  2:{ intros [= <- <-]. by apply os_errors. }
  2:{ intros [= <- <-]. by eapply os_errors, stat_OSError. }
  case_bool_decide; [intros [= <- <-]; by apply os_errors|].
  destruct d as [|x d]; [intros [= <- <-]; by apply os_errors|].
  destruct (search _ _ _) as [e1|] eqn:Ep.
  { intros [= <- <-]. by eapply os_errors, search_OSError. }
  destruct (fs w !! (x :: d)) as [[]|]; intros [= <- <-]. by apply os_errors.
Qed.

Lemma raises_path_isdir p : raises E (os.path_isdir p).
Proof.
  apply (raises_try_except (λ e, is_OSError e = true)).
  2:{ intros e ->. apply raises_ret. }
  intros w e w'. unfold os.stat, os.at_path, os.stat_at. io_unfold.
  case_bool_decide; [by intros [= <- <-]|].
  destruct (stat _ _) as [n|e1] eqn:Es; intros [= <- <-]. by eapply stat_OSError.
Qed.

Lemma raises_makedir p exists_ok : raises E (makedir [p] exists_ok false).
Proof.
  unfold makedir. apply raises_bind; [|intros; apply raises_ret].
  apply (raises_try_except E); [apply raises_at_path, raises_mkdir_at|].
  intros e He. case_bool_decide as Hx; [|done].
  destruct exists_ok; [apply raises_ret|by apply raises_raise].
Qed.

Lemma raises_copy2 src dst : raises E (shutil.copy2 src dst).
Proof.
  unfold shutil.copy2, shutil.copyfile.
  apply raises_bind; [apply raises_path_isdir|]. intros isd.
  apply raises_bind; [|intros; apply raises_ret].
  apply raises_at_path. intros s. apply raises_at_path. intros d. apply raises_copyfile_at.
Qed.

Lemma raises_run spawn argv check :
  (check = true → ∀ st, E (CalledProcessError st argv)) →
  raises E (subprocess.run spawn argv check).
Proof.
  intros Hc w e w'. unfold subprocess.run.
  destruct (spawn _ _ _ _) as [[st t]|]; [|intros [= <- <-]; by apply os_errors].
  simpl. destruct check; simpl; [|done].
  destruct (negb _); [|done]. intros [= <- <-]. by apply Hc.
Qed.

Lemma raises_print_frame txt n :
  (∀ w, print_frame txt frame_markup w = (Ret (), extend (frame txt n) w)) →
  raises E (print_frame txt frame_markup).
Proof. intros Heq w e w'. by rewrite Heq. Qed.

End faults.

Section stage_events.
Variable spawn : program.
Context {P : event → Prop}.
Hypothesis other_events : ∀ e, is_spawn e = false → P e.

#[local] Opaque os.getcwd os.chdir os.chdir_at subprocess.run print_frame print_markup makedir.

Lemma Forall_frame txt n : Forall P (frame txt n).
Proof. unfold frame. repeat constructor; by apply other_events. Qed.

Lemma compile_emits tb doc opts :
  (∀ wd st, P (ESpawn (latexmk_command doc opts) wd st)) →
  emits P (_run_latexmk_in_bld_dir spawn tb doc opts).
Proof.
  intros Hc. unfold _run_latexmk_in_bld_dir, having_cwd.
  apply emits_bind; [apply emits_getcwd; by apply other_events|]. intros cur.
  apply emits_try_finally; [|apply emits_chdir; intros; by apply other_events].
  apply emits_bind; [apply emits_chdir; intros; by apply other_events|]. intros _.
  apply emits_bind.
  { eapply emits_print_frame; [apply print_frame_building|apply Forall_frame]. }
  intros _. apply emits_bind; [|intros; apply emits_ret].
  by apply emits_run.
Qed.

Lemma publish_emits tb doc pdf : emits P (_copy_to_dst tb doc pdf).
Proof.
  unfold _copy_to_dst. apply emits_bind.
  { destruct pdf; [apply emits_ret|apply emits_raise]. }
  intros name. apply emits_bind; [apply emits_makedir; intros; by apply other_events|].
  intros _. apply emits_bind; [|intros; apply emits_ret].
  unfold shutil.copy2, shutil.copyfile.
  apply emits_bind; [apply emits_path_isdir; intros; by apply other_events|]. intros isd.
  apply emits_bind; [|intros; apply emits_ret].
  apply emits_at_path. intros s. apply emits_at_path. intros d.
  apply emits_copyfile_at. by apply other_events.
Qed.

End stage_events.

Section stage_faults.
Variable spawn : program.

#[local] Opaque os.getcwd os.chdir os.chdir_at subprocess.run print_frame print_markup makedir.

Lemma compile_raises tb doc opts :
  raises (λ e, is_OSError e = true ∨ is_CalledProcessError e = true)
    (_run_latexmk_in_bld_dir spawn tb doc opts).
Proof.
  assert (∀ e, is_OSError e = true → is_OSError e = true ∨ is_CalledProcessError e = true)
    as Hos by auto.
  unfold _run_latexmk_in_bld_dir, having_cwd.
  apply raises_bind; [by apply raises_getcwd|]. intros cur.
  apply raises_try_finally; [|by apply raises_chdir].
  apply raises_bind; [by apply raises_chdir|]. intros _.
  apply raises_bind; [eapply raises_print_frame, print_frame_building|]. intros _.
  apply raises_bind; [|intros; apply raises_ret].
  apply raises_run; [done|]. intros _ st. by right.
Qed.

Lemma publish_raises tb doc pdf :
  raises (λ e, is_OSError e = true ∨ (e = TypeError ∧ ∃ l, pdf = VList l))
    (_copy_to_dst tb doc pdf).
Proof.
  assert (∀ e, is_OSError e = true
               → is_OSError e = true ∨ (e = TypeError ∧ ∃ l, pdf = VList l)) as Hos by auto.
  unfold _copy_to_dst. apply raises_bind.
  { destruct pdf; [apply raises_ret|]. apply raises_raise. right. eauto. }
  intros name. apply raises_bind; [by apply raises_makedir|]. intros _.
  apply raises_bind; [by apply raises_copy2|]. intros _. apply raises_ret.
Qed.

Lemma build_document_raises tb doc out opts :
  raises (λ e, is_OSError e = true ∨ (e = TypeError ∧ ∃ l, out = Some (VList l)))
    (build_document spawn tb doc out opts).
Proof.
  unfold build_document.
  apply (raises_try_except
           (λ e, is_CalledProcessError e = true
                 ∨ is_OSError e = true ∨ (e = TypeError ∧ ∃ l, out = Some (VList l)))).
  2:{ intros e He. destruct (is_CalledProcessError e) eqn:Hc.
      - apply raises_bind; [|intros; apply raises_ret]. intros w e' w'.
        by rewrite print_markup_eq.
      - destruct He as [?|He]; [congruence|done]. }
  apply raises_bind.
  { intros w e w' H. apply sync_stage in H as (_ & _ & He & _). right. left. by apply He. }
  intros _. apply raises_bind.
  { intros w e w' H. apply compile_raises in H as [?|?]; auto. }
  intros _. apply raises_bind.
  { intros w e w' H. apply publish_raises in H as [?|[-> [l Hl]]]; [auto|].
    right. right. split; [done|]. exists l. by destruct out as [?|]; simpl in Hl; subst. }
  intros _. apply raises_bind; [|intros; apply raises_ret].
  intros w e w'. by rewrite print_markup_eq.
Qed.

End stage_faults.

Section verdicts.
Variable spawn : program.

#[local] Opaque os.getcwd os.chdir os.chdir_at subprocess.run print_frame print_markup makedir.


End verdicts.

(** ** The loop *)

Section looping.
Variable spawn : program.

#[local] Opaque os.getcwd os.chdir os.chdir_at subprocess.run print_frame print_markup makedir.

Lemma count_runs_app c tr1 tr2 :
  count_runs c (tr1 ++ tr2) = (count_runs c tr1 + count_runs c tr2)%nat.
Proof. unfold count_runs. by rewrite List.filter_app, length_app. Qed.

Lemma count_runs_none c tr :
  Forall (λ e, is_run c e = false) tr → count_runs c tr = 0%nat.
Proof.
  unfold count_runs. induction 1 as [|e tr He _ IH]; [done|]. simpl. by rewrite He.
Qed.

Lemma is_run_other c e : is_spawn e = false → is_run c e = false.
Proof. by destruct e. Qed.

Lemma sync_runs tb w w1 :
  copy_build_files spawn tb w = (Ret (), w1) →
  ∃ tr, trace w1 = trace w ++ tr
    ∧ count_runs (rsync_command tb) tr = 1%nat
    ∧ count_runs (watch_command tb) tr = 0%nat.
Proof.
  unfold copy_build_files. io_unfold. rewrite print_frame_copying.
  destruct (makedir _ _ _ _) as [r1 w2] eqn:Hmk.
  apply makedir_inv in Hmk as (Htr & Hcwd & Hund & Hfs); [|apply tex_bld_nonempty].
  simpl in *.
  destruct r1 as [d|e]; [|done].
  rewrite run_eq. change ("rsync" :: _) with (rsync_command tb).
  destruct (spawn _ _ _ _) as [[st t]|]; [|done]. simpl. intros [= <-]. simpl.
  eexists. rewrite Htr, Hcwd, <- !app_assoc. split; [done|].
  unfold count_runs. simpl. by rewrite bool_decide_eq_true_2.
Qed.

(** A build that returns has run [rsync] once, and the watcher not at all. *)
Lemma build_runs tb doc out opts w b w1 :
  build_document spawn tb doc out opts w = (Ret b, w1) →
  ∃ tr, trace w1 = trace w ++ tr
    ∧ count_runs (rsync_command tb) tr = 1%nat
    ∧ count_runs (watch_command tb) tr = 0%nat.
Proof.
  set (Q := λ e, is_run (rsync_command tb) e = false ∧ is_run (watch_command tb) e = false).
  assert (∀ e, is_spawn e = false → Q e) as HQ.
  { intros e He. split; by apply is_run_other. }
  assert (∀ tr, Forall Q tr →
            count_runs (rsync_command tb) tr = 0%nat
            ∧ count_runs (watch_command tb) tr = 0%nat) as Hnone.
  { intros tr Htr. split; apply count_runs_none; eapply Forall_impl; try exact Htr;
      by intros e []. }
  unfold build_document. io_unfold.
  destruct (copy_build_files spawn tb w) as [[[]|e1] w2] eqn:E1.
  2:{ pose proof (sync_not_called_process _ _ _ _ _ E1) as He. by rewrite He. }
  apply sync_runs in E1 as (tr1 & Htr1 & Hc1 & Hc2).
  destruct (_run_latexmk_in_bld_dir spawn tb doc (default opts []) w2) as [r2 w3] eqn:E2.
  apply (compile_emits spawn HQ) in E2 as (tr2 & Htr2 & HQ2).
  2:{ intros wd st'. by split. }
  destruct (Hnone _ HQ2) as [Hn1 Hn2].
  destruct r2 as [[]|e2].
  2:{ destruct (is_CalledProcessError e2); [|done]. rewrite print_markup_eq.
      intros [= <- <-]. simpl. exists (tr1 ++ tr2 ++ [build_failed]).
      rewrite Htr2, Htr1, <- !app_assoc. split; [done|].
      rewrite !count_runs_app, Hc1, Hc2, Hn1, Hn2. done. }
  destruct (_copy_to_dst tb doc (default out (VStr doc)) w3) as [r3 w4] eqn:E3.
  pose proof (quiet_copy_to_dst _ _ _ _ _ _ E3) as (He3 & _).
  apply (publish_emits HQ) in E3 as (tr3 & Htr3 & HQ3).
  destruct (Hnone _ HQ3) as [Hm1 Hm2].
  destruct r3 as [[]|e3].
  2:{ by rewrite (He3 e3 eq_refl). }
  rewrite print_markup_eq. intros [= <- <-]. simpl.
  exists (tr1 ++ tr2 ++ tr3 ++ [build_successful]).
  rewrite Htr3, Htr2, Htr1, <- !app_assoc. split; [done|].
  rewrite !count_runs_app, Hc1, Hc2, Hn1, Hn2, Hm1, Hm2. done.
Qed.

(** One turn of the loop *)
Lemma wait_runs (interrupted : bool) tb w r w1 :
  wait_for_code_changes spawn interrupted tb w = (r, w1) →
  ∃ tr, trace w1 = trace w ++ tr
    ∧ count_runs (rsync_command tb) tr = 0%nat
    ∧ match r with
      | Ret _ => interrupted = false ∧ count_runs (watch_command tb) tr = 1%nat
      | Raise e => (e = KeyboardInterrupt ↔ interrupted = true)
                   ∧ (interrupted = true → count_runs (watch_command tb) tr = 0%nat)
      end.
Proof.
  unfold wait_for_code_changes. io_unfold. rewrite print_frame_watching.
  destruct interrupted.
  - intros [= <- <-]. eexists. split; [done|]. done.
  - rewrite run_eq. change ("inotifywait" :: _) with (watch_command tb). simpl.
    destruct (spawn _ _ _ _) as [[st t]|]; intros [= <- <-]; simpl.
    + eexists. rewrite <- !app_assoc. split; [done|].
      unfold count_runs. simpl. by rewrite bool_decide_eq_true_2.
    + eexists. rewrite <- !app_assoc. split; [done|]. split; [done|].
      split; [|done]. split; done.
Qed.

Lemma loop_runs (n : nat) tb doc out opts (w w' : World) :
  loop spawn n tb doc out opts w = (Ret (), w') →
  ∃ tr, trace w' = trace w ++ tr ++ [quitting]
    ∧ count_runs (rsync_command tb) tr = S n
    ∧ count_runs (watch_command tb) tr = n.
Proof.
  unfold loop. revert w. induction n as [|n IH]; intros w; simpl; io_unfold.
  - destruct (build_document spawn tb doc out opts w) as [[b|e] w1] eqn:E1.
    2:{ apply build_document_raises in E1. rewrite bool_decide_eq_false_2; [done|].
        intros ->. by destruct E1 as [?|[? _]]. }
    apply build_runs in E1 as (tr1 & Htr1 & Hc1 & Hc2).
    destruct (wait_for_code_changes spawn true tb w1) as [r2 w2] eqn:E2.
    apply wait_runs in E2 as (tr2 & Htr2 & Hd1 & Hd2).
    destruct r2 as [[]|e2]; [by destruct Hd2|]. destruct Hd2 as [Hki Hd2].
    rewrite bool_decide_eq_true_2 by (by apply Hki).
    unfold print. rewrite print_markup_eq. simpl. intros [= <-]. simpl.
    exists (tr1 ++ tr2 ++ [EWrite ("" +:+ LF)]).
    rewrite Htr2, Htr1, <- !app_assoc. split; [done|].
    rewrite !count_runs_app, Hc1, Hc2, Hd1, (Hd2 eq_refl). done.
  - destruct (build_document spawn tb doc out opts w) as [[b|e] w1] eqn:E1.
    2:{ apply build_document_raises in E1. rewrite bool_decide_eq_false_2; [done|].
        intros ->. by destruct E1 as [?|[? _]]. }
    apply build_runs in E1 as (tr1 & Htr1 & Hc1 & Hc2).
    destruct (wait_for_code_changes spawn false tb w1) as [r2 w2] eqn:E2.
    apply wait_runs in E2 as (tr2 & Htr2 & Hd1 & Hd2).
    destruct r2 as [[]|e2].
    2:{ destruct Hd2 as [Hki _]. rewrite bool_decide_eq_false_2; [done|].
        intros ->. by destruct Hki as [Hki _]; specialize (Hki eq_refl). }
    destruct Hd2 as [_ Hd2]. intros Hrest.
    apply IH in Hrest as (tr3 & Htr3 & Hr1 & Hr2).
    exists (tr1 ++ tr2 ++ tr3).
    rewrite Htr3, Htr2, Htr1, <- !app_assoc. split; [done|].
    rewrite !count_runs_app, Hc1, Hc2, Hd1, Hd2, Hr1, Hr2. split; [done|lia].
Qed.

(** X18. When [loop] ends normally, the interrupt having arrived while it
    waited after [n] changes of the sources, [rsync] has been run [n + 1]
    times and the watcher has returned [n] times, whether the builds
    succeeded or failed; the last line printed is the one of quitting. *)
Theorem loop_builds_once_per_change (n : nat) tb doc out opts (w w' : World) :
  loop spawn n tb doc out opts w = (Ret (), w') →
  let news := drop (length (trace w)) (trace w') in
  count_runs (rsync_command tb) news = S n
  ∧ count_runs (watch_command tb) news = n
  ∧ List.last news EGetcwd = quitting.
Proof.
  intros (tr & Htr & Hc1 & Hc2)%loop_runs news. subst news.
  rewrite Htr, since_app, !count_runs_app, Hc1, Hc2. split_and!.
  - unfold count_runs, quitting. simpl. lia.
  - unfold count_runs, quitting. simpl. lia.
  - apply last_last.
Qed.


End looping.

(** ** The stages on their edges *)

Section more_stages.
Variable spawn : program.
Variable patience : nat.

#[local] Opaque os.getcwd os.chdir os.chdir_at subprocess.run print_frame print_markup makedir.

Lemma resolve_tex_bld tb wd : resolve wd (tex_bld tb) = resolve wd (tex_root tb) ++ ["bld"].
Proof. unfold tex_bld. simpl. by rewrite resolve_join2. Qed.

Lemma resolve_tex_dst tb wd : resolve wd (tex_dst tb) = resolve wd (tex_root tb) ++ ["dst"].
Proof. unfold tex_dst. simpl. by rewrite resolve_join2. Qed.

(** X11. [copy_build_files] does not look at the exit status of [rsync]:
    when the project root is a directory it returns normally whatever the
    status is, with the tree [rsync] left; only a missing executable makes
    it raise.  [rsync] sees BuildDir made when it was missing. *)
Theorem sync_ignores_exit_status tb w :
  let b := resolve (cwd w) (tex_bld tb) in
  let t1 := if fs w !! b is None then <[b := Dir]> (fs w) else fs w in
  let out := spawn (rsync_command tb) (cwd w) (undeletable w) t1 in
  is_dir (fs w) (resolve (cwd w) (tex_root tb)) = true →
  (copy_build_files spawn tb w).1 = (if out is Some _ then Ret () else Raise FileNotFoundError)
  ∧ fs (copy_build_files spawn tb w).2 = from_option snd t1 out
  ∧ cwd (copy_build_files spawn tb w).2 = cwd w.
Proof.
  intros b t1 out Hroot. subst out.
  unfold copy_build_files. io_unfold. rewrite print_frame_copying.
  destruct (makedir _ _ _ _) as [r1 w2] eqn:Hmk.
  apply makedir_inv in Hmk as (Htr & Hcwd & Hund & Hfs); [|apply tex_bld_nonempty].
  simpl in *. fold b in Hfs.
  assert (b = resolve (cwd w) (tex_root tb) ++ ["bld"]) as Hb by apply resolve_tex_bld.
  assert (r1 = Ret (tex_bld tb) ∧ fs w2 = t1) as [-> Hfs2].
  { subst t1. destruct Hfs as [(-> & -> & [Hq|[n Hn]])|[(-> & -> & Hn & _)|(e & _ & _ & _ & Hs)]].
    - rewrite Hb in Hq. by destruct (resolve (cwd w) (tex_root tb)).
    - by rewrite Hn.
    - by rewrite Hn.
    - rewrite Hb, parent_snoc in Hs. apply is_dir_search in Hroot. congruence. }
  rewrite run_eq. change ("rsync" :: _) with (rsync_command tb).
  rewrite Hcwd, Hund, Hfs2.
  destruct (spawn _ _ _ _) as [[st t]|]; simpl; [done|]. by rewrite Hfs2.
Qed.

(** X16. When the compiler cannot be started at all, [build_document]
    raises [FileNotFoundError]: a missing executable is not a failed
    build. *)
Theorem missing_compiler_is_raised tb doc out opts w w1 :
  wf_world w →
  copy_build_files spawn tb w = (Ret (), w1) →
  enterable w1 (tex_bld tb) = true →
  spawn (latexmk_command doc (default opts [])) (resolve (cwd w1) (tex_bld tb))
    (undeletable w1) (fs w1) = None →
  ∃ w', build_document spawn tb doc out opts w = (Raise FileNotFoundError, w')
    ∧ fs w' = fs w1 ∧ cwd w' = cwd w.
Proof.
  intros Hwf E1 Hent Hsp.
  pose proof (sync_stage _ _ _ _ _ E1) as (Hcwd1 & _).
  assert (wf_world w1) as Hwf1 by (unfold wf_world; by rewrite Hcwd1).
  destruct (_run_latexmk_in_bld_dir spawn tb doc (default opts []) w1) as [r2 w2] eqn:E2.
  pose proof (compile_stage _ _ _ _ _ _ _ Hwf1 E2) as (_ & [(Hne & _)|(_ & o & Ho & Hfs & _ & Hback)]).
  { congruence. }
  rewrite Hsp in Ho. subst o. simpl in *. rewrite Hfs in Hback.
  apply andb_prop in Hent as [Hd _]. rewrite Hd in Hback. destruct Hback as [Hcwd2 ->].
  exists w2. unfold build_document. io_unfold. rewrite E1, E2. simpl.
  split_and!; [done|done|congruence].
Qed.

End more_stages.

Section publishing.

Lemma path_isdir_total p w :
  ∃ b w', os.path_isdir p w = (Ret b, w') ∧ fs w' = fs w ∧ cwd w' = cwd w.
Proof.
  unfold os.path_isdir, os.stat, os.at_path, os.stat_at. io_unfold.
  case_bool_decide; simpl; [by eexists _, _|].
  destruct (stat (fs w) (resolve (cwd w) p)) as [n|e] eqn:Es; simpl; [by eexists _, _|].
  rewrite (stat_OSError _ _ _ Es). by eexists _, _.
Qed.

Lemma copyfile_at_no_source s d w :
  (∀ c, fs w !! s ≠ Some (File c)) →
  ∃ e, is_OSError e = true
    ∧ shutil.copyfile_at s d w = (Raise e, log (ECopyfile s d) w).
Proof.
  intros Hs. unfold shutil.copyfile_at. simpl.
  destruct (stat (fs w) s) as [[c|]|e] eqn:Es.
  - apply stat_File_inv in Es. by destruct (Hs c).
  - by exists IsADirectoryError.
  - exists e. split; [by eapply stat_OSError|done].
Qed.

Lemma copy2_no_source src dst w :
  (∀ c, fs w !! resolve (cwd w) src ≠ Some (File c)) →
  ∃ e w', shutil.copy2 src dst w = (Raise e, w')
    ∧ is_OSError e = true ∧ fs w' = fs w ∧ cwd w' = cwd w.
Proof.
  intros Hs. unfold shutil.copy2, shutil.copyfile.
  destruct (path_isdir_total dst w) as (isd & w1 & E1 & Hfs1 & Hcwd1).
  unfold mbind at 1, IO_bind at 1, bind at 1. rewrite E1.
  set (dst' := if isd then _ else dst). clearbody dst'.
  unfold os.at_path. io_unfold.
  case_bool_decide; [by exists FileNotFoundError, w1|].
  case_bool_decide; [by exists FileNotFoundError, w1|].
  destruct (copyfile_at_no_source (resolve (cwd w1) src) (resolve (cwd w1) dst') w1)
    as (e & He & ->).
  { intros c. rewrite Hfs1, Hcwd1. apply Hs. }
  by eexists _, _.
Qed.

#[local] Opaque makedir shutil.copy2.

(** X14. When the artifact is missing, [_copy_to_dst] raises an [OSError]
    after it has made DestDir: the directory stays, nothing is rolled
    back. *)
Theorem publish_without_artifact tb doc name w :
  let artifact := resolve (cwd w) (posixpath.join (tex_bld tb) [doc +:+ ".pdf"]) in
  let dst_dir := resolve (cwd w) (tex_dst tb) in
  is_dir (fs w) (resolve (cwd w) (tex_root tb)) = true →
  fs w !! dst_dir = None →
  fs w !! artifact = None →
  ∃ e w', _copy_to_dst tb doc (VStr name) w = (Raise e, w')
    ∧ is_OSError e = true
    ∧ fs w' = <[dst_dir := Dir]> (fs w).
Proof.
  intros artifact dst_dir Hroot Hdst Hart.
  assert (dst_dir = resolve (cwd w) (tex_root tb) ++ ["dst"]) as Hd by apply resolve_tex_dst.
  destruct (makedir_ready (tex_dst tb) w) as (w1 & E1 & Hfs1 & Hcwd1 & _).
  { apply tex_dst_nonempty. }
  { fold dst_dir. by rewrite Hd, parent_snoc. }
  { fold dst_dir. intros c. by rewrite Hdst. }
  { fold dst_dir. rewrite Hd. apply snoc_nonempty. }
  fold dst_dir in Hfs1.
  destruct (copy2_no_source (posixpath.join (tex_bld tb) [doc +:+ ".pdf"])
              (posixpath.join (tex_dst tb) [name +:+ ".pdf"]) w1) as (e & w2 & E2 & He & Hfs2 & _).
  { intros c. rewrite Hcwd1, Hfs1. fold artifact.
    destruct (decide (artifact = dst_dir)) as [->|Hne].
    - by rewrite lookup_insert_eq.
    - rewrite lookup_insert_ne by done. by rewrite Hart. }
  exists e, w2. unfold _copy_to_dst, add_str. io_unfold. rewrite E1, E2.
  split_and!; [done|done|congruence].
Qed.

End publishing.

Section clean_more.

#[local] Opaque print_frame print_markup.

(** X20. When BuildDir is not there, [clean] says so and prints
    [CLEANUP FINISHED]; nothing is removed. *)
Theorem clean_absent tb w :
  let b := resolve (cwd w) (tex_bld tb) in
  fs w !! b = None →
  clean tb w
  = (Ret (),
     extend (frame "CLEANING BLD DIRECTORY" 26
             ++ [EStat b;
                 EWrite ((tex_bld tb +:+ " already removed") +:+ LF);
                 cleanup_finished false]) w).
Proof.
  intros b Hb. unfold clean. io_unfold. rewrite print_frame_cleaning.
  rewrite path_exists_eq by apply tex_bld_nonempty. simpl. fold b.
  destruct (stat (fs w) b) as [n|e] eqn:Es.
  { apply stat_Ret_inv in Es as [Hl _]. congruence. }
  rewrite print_markup_eq. unfold print, extend, log, cleanup_finished. simpl.
  by rewrite <- !app_assoc.
Qed.

End clean_more.

Section dispatch.
Variable spawn : program.
Variable patience : nat.


End dispatch.

(** ** A clean-up that meets no refusal *)

Section rmtree_all.
Implicit Types (t : tree) (b k q : loc).

Lemma below_spec b k : below b k = true ↔ ∃ rel, rel ≠ [] ∧ k = b ++ rel.
Proof.
  unfold below. rewrite andb_true_iff, negb_true_iff, bool_decide_eq_true, bool_decide_eq_false.
  split.
  - intros [[rel ->] Hne]. exists rel. split; [|done]. intros ->. by rewrite app_nil_r in Hne.
  - intros (rel & Hne & ->). split; [by exists rel|].
    intros E. apply Hne. rewrite <- (app_nil_r b) in E at 2. by apply app_inv_head in E.
Qed.

Lemma below_length b k : below b k = true → (length b < length k)%nat.
Proof.
  intros (rel & Hne & ->)%below_spec. rewrite length_app.
  destruct rel; [done|]. simpl. lia.
Qed.

Lemma below_nonempty b k : below b k = true → k ≠ [].
Proof. intros H%below_length ->. simpl in H. lia. Qed.

Lemma below_parent b k : below b k = true → parent k = b ∨ below b (parent k) = true.
Proof.
  intros (rel & Hne & ->)%below_spec.
  destruct rel as [|c rel _] using rev_ind; [done|].
  rewrite app_assoc, parent_snoc. destruct rel as [|x rel].
  - left. by rewrite app_nil_r.
  - right. apply below_spec. by exists (x :: rel).
Qed.

Lemma below_child b k c : (k = b ∨ below b k = true) → c ≠ [] → parent c = k → below b c = true.
Proof.
  intros Hk Hc Hp. rewrite (parent_last c Hc), Hp. apply below_spec.
  destruct Hk as [->|(rel & Hne & ->)%below_spec].
  - by eexists [_].
  - exists (rel ++ [List.last c ""]). split; [by destruct rel|]. by rewrite app_assoc.
Qed.

Lemma child_length c k : c ≠ [] → parent c = k → length c = S (length k).
Proof.
  intros Hc <-. rewrite (parent_last c Hc) at 1. rewrite length_app. simpl. lia.
Qed.

Lemma search_connected t b k :
  is_dir t b = true → connected_below b t →
  k = b ∨ below b k = true → t !! k = Some Dir → search t [] k = None.
Proof.
  intros Hb Hcl [->|(rel & Hne & ->)%below_spec]; [intros _; by apply is_dir_search|].
  clear Hne. induction rel as [|c rel IH] using rev_ind.
  - intros _. rewrite app_nil_r. by apply is_dir_search.
  - intros Hk. rewrite app_assoc. apply search_snoc. simpl. split; [|by rewrite <- app_assoc].
    apply IH. rewrite <- (parent_snoc (b ++ rel) c), <- app_assoc.
    eapply Hcl; [|done]. apply below_spec. exists (rel ++ [c]). split; [by destruct rel|done].
Qed.

Lemma stat_connected t b k n :
  is_dir t b = true → connected_below b t →
  below b k = true → t !! k = Some n → stat t k = Ret n.
Proof.
  intros Hb Hcl Hk Hn. rewrite stat_below_root by by eapply below_nonempty.
  rewrite (search_connected t b); [by rewrite Hn|done|done| |by eapply Hcl].
  destruct (below_parent _ _ Hk) as [->|?]; auto.
Qed.

Lemma has_children_false t k :
  (∀ c n, t !! c = Some n → c ≠ [] → parent c ≠ k) → has_children t k = false.
Proof.
  intros H. unfold has_children. apply bool_decide_eq_false_2. intros Hne. apply Hne.
  unfold children. destruct (filter _ _) as [|[c n] l] eqn:E; [done|].
  assert ((c, n) ∈ filter (λ kn : loc * node, bool_decide (kn.1 ≠ [] ∧ parent kn.1 = k))
                     (map_to_list t)) as Hin by (rewrite E; by left).
  apply list_elem_of_filter in Hin as [[Hc Hp]%bool_decide_unpack Hin%elem_of_map_to_list].
  by destruct (H c n Hin Hc).
Qed.

Lemma unlink_at_ok k c w :
  stat (fs w) k = Ret (File c) → k ∉ undeletable w →
  os.unlink_at k w = (Ret (), set_fs (delete k (fs w)) (log (EUnlink k) w)).
Proof.
  intros Hs Hu. unfold os.unlink_at. simpl. rewrite Hs.
  by rewrite bool_decide_eq_false_2.
Qed.

Lemma rmdir_at_ok k w :
  stat (fs w) k = Ret Dir → k ≠ [] → has_children (fs w) k = false → k ∉ undeletable w →
  os.rmdir_at k w = (Ret (), set_fs (delete k (fs w)) (log (ERmdir k) w)).
Proof.
  intros Hs Hk Hc Hu. unfold os.rmdir_at. simpl. rewrite Hs, Hc.
  by rewrite !bool_decide_eq_false_2.
Qed.

Lemma search_delete t k q :
  search t [] q = None → ¬ k `prefix_of` q → search (delete k t) [] q = None.
Proof.
  rewrite !search_prefixes. intros H Hk p Hp. rewrite lookup_delete_ne; [by apply H|].
  by intros ->.
Qed.

#[local] Instance deeper_trans : Transitive deeper.
Proof. unfold deeper. intros x y z. lia. Qed.

#[local] Instance deeper_total : Total deeper.
Proof. unfold deeper. intros x y. lia. Qed.

(** When the kernel refuses nothing, the traversal removes every entry. *)
Lemma remove_entries_all path b l s w :
  StronglySorted deeper l → NoDup l.*1 →
  (∀ kn, kn ∈ l → below b kn.1 = true ∧ fs w !! kn.1 = Some kn.2) →
  (∀ k n, below b k = true → fs w !! k = Some n → (k, n) ∈ l) →
  is_dir (fs w) b = true → connected_below b (fs w) →
  (∀ k, below b k = true → k ∉ undeletable w) →
  ∃ w' tr, shutil.remove_entries report_error path b l s w = (Ret s, w')
    ∧ trace w' = trace w ++ tr ∧ existsb is_write tr = false
    ∧ cwd w' = cwd w ∧ undeletable w' = undeletable w
    ∧ (∀ k, fs w' !! k = if below b k then None else fs w !! k).
Proof.
  revert w. induction l as [|[k n] l IH]; intros w Hsort Hnd Hin Hall Hb Hcl Hund.
  - exists w, []. rewrite app_nil_r. split_and!; try done.
    intros k. destruct (below b k) eqn:Hk; [|done].
    destruct (fs w !! k) as [n|] eqn:E; [|done]. by apply Hall, elem_of_nil in E.
  - apply StronglySorted_inv in Hsort as [Hsort Hhd].
    apply NoDup_cons in Hnd as [Hk Hnd]. simpl in Hk.
    destruct (Hin (k, n)) as [Hbk Hkn]; [by left|]. simpl in Hbk, Hkn.
    assert (∀ c n', fs w !! c = Some n' → c ≠ [] → parent c ≠ k) as Hnc.
    { intros c n' Hc Hne Hp.
      assert (below b c = true) as Hbc by (eapply below_child; eauto).
      apply Hall in Hc; [|done]. apply elem_of_cons in Hc as [[= -> ->]|Hc].
      - apply child_length in Hp; [lia|done].
      - rewrite Forall_forall in Hhd. apply Hhd in Hc. unfold deeper in Hc. simpl in Hc.
        apply child_length in Hp; [lia|done]. }
    assert (stat (fs w) k = Ret n) as Hstat by by eapply stat_connected.
    set (ev := match n with Dir => ERmdir k | File _ => EUnlink k end).
    set (w1 := set_fs (delete k (fs w)) (log ev w)).
    assert (shutil.remove_entry report_error path b (k, n) s w = (Ret s, w1)) as Hstep.
    { unfold shutil.remove_entry, shutil.guarded. simpl. io_unfold. destruct n as [c|].
      - rewrite (unlink_at_ok k c); [done|done|by apply Hund].
      - rewrite rmdir_at_ok; try done.
        + by eapply below_nonempty.
        + by apply has_children_false.
        + by apply Hund. }
    destruct (IH w1) as (w' & tr & Hrun & Htr & Hw & Hcwd & Hu & Hfs); try done.
    + intros [k' n'] Hin'. destruct (Hin (k', n')) as [? ?]; [by right|].
      split; [done|]. simpl. rewrite lookup_delete_ne; [done|].
      intros ->. apply Hk. apply list_elem_of_fmap. by exists (k', n').
    + intros k' n' Hbk'. simpl. rewrite lookup_delete_Some. intros [Hne Hl].
      apply Hall in Hl; [|done]. apply elem_of_cons in Hl as [[= ? ?]|?]; [done|done].
    + simpl. apply is_dir_search, search_delete; [by apply is_dir_search|].
      intros [x Hx]. apply below_length in Hbk. rewrite Hx, length_app in Hbk. lia.
    + intros k' n' Hbk'. simpl. rewrite lookup_delete_Some. intros [Hne Hl].
      rewrite lookup_delete_ne; [by eapply Hcl|].
      intros E. apply (Hnc k' n'); [done|by eapply below_nonempty|done].
    + exists w', (ev :: tr). simpl. io_unfold. rewrite Hstep, Hrun.
      split_and!; try done.
      * rewrite Htr. simpl. by rewrite <- app_assoc.
      * simpl. rewrite Hw. by destruct n.
      * intros j. rewrite Hfs. simpl. destruct (below b j) eqn:Hj; [done|].
        apply lookup_delete_ne. intros ->. congruence.
Qed.

Lemma descendants_elem t b k n :
  (k, n) ∈ descendants t b ↔ below b k = true ∧ t !! k = Some n.
Proof.
  unfold descendants. rewrite list_elem_of_filter, elem_of_map_to_list. simpl.
  by rewrite Is_true_true.
Qed.

#[local] Opaque print_frame print_markup.

(** X21. When BuildDir is a directory whose tree hangs together and the
    kernel refuses nothing under it, [clean] removes BuildDir with all it
    holds and nothing else, reports no error and ends with
    [CLEANUP FINISHED]. *)
Theorem clean_removes_build_dir tb w :
  let b := resolve (cwd w) (tex_bld tb) in
  let w' := (clean tb w).2 in
  is_dir (fs w) b = true →
  connected_below b (fs w) →
  (∀ k, b `prefix_of` k → k ∉ undeletable w) →
  (clean tb w).1 = Ret ()
  ∧ (∀ k, fs w' !! k = if bool_decide (b `prefix_of` k) then None else fs w !! k)
  ∧ existsb is_report (drop (length (trace w)) (trace w')) = false
  ∧ List.last (trace w') EGetcwd = cleanup_finished false.
Proof.
  intros b w' Hb Hcl Hund. subst w'. unfold clean. io_unfold.
  rewrite print_frame_cleaning, path_exists_eq by apply tex_bld_nonempty. simpl.
  fold b. pose proof Hb as Hb'. unfold is_dir in Hb'.
  destruct (stat (fs w) b) as [[]|] eqn:Hstat; try done. clear Hb'.
  unfold shutil.rmtree. rewrite bool_decide_eq_false_2 by apply tex_bld_nonempty.
  unfold os.stat_at. simpl. fold b. rewrite Hstat. io_unfold.
  set (w1 := log (EStat b) (log (EStat b) (extend (frame "CLEANING BLD DIRECTORY" 26) w))).
  assert (b ≠ []) as Hne.
  { unfold b. rewrite resolve_tex_bld. apply snoc_nonempty. }
  assert (∀ k, below b k = true → b `prefix_of` k) as Hbp.
  { intros k (rel & _ & ->)%below_spec. by exists rel. }
  destruct (remove_entries_all (tex_bld tb) b (merge_sort deeper (descendants (fs w) b))
              false w1) as (w2 & tr & -> & Htr & Hw & Hc & Hu & Hfs).
  { apply StronglySorted_merge_sort; apply _. }
  { rewrite merge_sort_Permutation. unfold descendants.
    eapply NoDup_fmap_fst.
    - intros k x y [_ Hx]%descendants_elem [_ Hy]%descendants_elem. congruence.
    - apply NoDup_filter, NoDup_map_to_list. }
  { intros [k n]. rewrite merge_sort_Permutation. apply descendants_elem. }
  { intros k n ? ?. rewrite merge_sort_Permutation. by apply descendants_elem. }
  { done. }
  { done. }
  { intros k Hk. simpl. by apply Hund, Hbp. }
  simpl in Hfs.
  assert (os.rmdir_at b w2 = (Ret (), set_fs (delete b (fs w2)) (log (ERmdir b) w2))) as Hrm.
  { apply rmdir_at_ok; [|done| |].
    - rewrite stat_below_root by done. apply stat_Ret_inv in Hstat as [Hl Hs].
      rewrite Hfs. replace (below b b) with false.
      2:{ unfold below. by rewrite (bool_decide_eq_true_2 (b = b)), andb_false_r. }
      rewrite Hl. replace (search (fs w2) [] (parent b)) with (@None exn); [done|].
      symmetry. apply search_prefixes. intros p Hp. rewrite Hfs.
      replace (below b p) with false.
      2:{ symmetry. apply not_true_is_false. intros Hlen%below_length.
          destruct Hp as [x Hx]. apply (f_equal length) in Hx.
          rewrite (parent_last b Hne), !length_app in Hlen. simpl in Hlen.
          rewrite Hx, length_app in Hlen. lia. }
      specialize (Hs Hne). by eapply search_prefixes.
    - apply has_children_false. intros c n Hcn Hcne Hp.
      rewrite Hfs in Hcn. rewrite (below_child b b c) in Hcn; auto. done.
    - rewrite Hu. simpl. by apply Hund. }
  unfold shutil.guarded. io_unfold. rewrite Hrm. rewrite print_markup_eq. simpl.
  split; [done|]. split_and!.
  - intros k. destruct (decide (k = b)) as [->|Hk].
    + rewrite lookup_delete_eq. by rewrite bool_decide_eq_true_2.
    + rewrite lookup_delete_ne by done. rewrite Hfs.
      destruct (below b k) eqn:Hbk.
      * by rewrite bool_decide_eq_true_2 by by apply Hbp.
      * rewrite bool_decide_eq_false_2; [done|]. intros [rel ->].
        assert (below b (b ++ rel) = true); [|congruence].
        apply below_spec. exists rel. split; [|done]. intros ->. by rewrite app_nil_r in Hk.
  - rewrite Htr. unfold w1. simpl. rewrite <- !app_assoc, since_app.
    rewrite !existsb_append. rewrite (has_report_iff tr) by (rewrite Hw; done).
    rewrite Hw. reflexivity.
  - apply last_last.
Qed.

End rmtree_all.

(** ** What the sync does *)

Section sync_more.
Implicit Types (t : tree) (q d s k : loc).

#[local] Opaque print_frame makedir subprocess.run.

Lemma rsync_confined args src dst wd und t status t' k :
  List.filter (λ a, negb (rsync.is_option a)) args = [src +:+ "/"; dst] →
  rsync.deleting args = false →
  src ≠ "" →
  ¬ resolve wd dst `prefix_of` k →
  rsync.run args wd und t = Some (status, t') →
  t' !! k = t !! k.
Proof.
  intros Hargs Hdel Hsrc Hk. unfold rsync.run. rewrite Hargs, Hdel.
  rewrite endswith_slash_snoc, resolve_trailing_slash by done.
  set (s := resolve wd src). set (d := resolve wd dst) in *.
  destruct (stat t s) as [[c|]|e]; try (by intros [= _ <-]).
  destruct (negb (rsync.recursive args)); [by intros [= _ <-]|].
  rewrite app_nil_l.
  set (st0 := rsync.make_destination und d t).
  assert (st0.1 !! k = t !! k) as Hst0.
  { subst st0. unfold rsync.make_destination. destruct d as [|x d'] eqn:Ed; [done|].
    destruct (t !! (x :: d')) eqn:El; [done|].
    apply transfer_other. simpl. rewrite drop_all, app_nil_r.
    intros ->. by apply Hk. }
  destruct (stat st0.1 d) as [[]|]; try (by intros [= _ <-]).
  intros [= _ <-]. rewrite foldl_transfer_other; [done|].
  intros kn Hkn ->. apply Hk. by eexists.
Qed.

(** X12. With [rsync] as its manual has it, [copy_build_files] changes
    no entry outside BuildDir: the sources, DestDir and everything else are
    as before. *)
Theorem sync_touches_only_build_dir others tb w k :
  let b := resolve (cwd w) (tex_bld tb) in
  ¬ b `prefix_of` k →
  fs (copy_build_files (machine others) tb w).2 !! k = fs w !! k.
Proof.
  intros b Hk. unfold copy_build_files. io_unfold. rewrite print_frame_copying.
  destruct (makedir _ _ _ _) as [r1 w1] eqn:Hmk.
  apply makedir_inv in Hmk as (_ & Hcwd & _ & Hfs); [|apply tex_bld_nonempty].
  simpl in Hcwd, Hfs. change (resolve (cwd w) (tex_bld tb)) with b in Hfs.
  assert (fs w1 !! k = fs w !! k) as Hk1.
  { destruct Hfs as [(_ & -> & _)|[(_ & -> & _)|(e & _ & _ & -> & _)]]; try done.
    apply lookup_insert_ne. by intros ->. }
  destruct r1 as [p|e]; [|done].
  rewrite run_eq. unfold machine. rewrite Hcwd.
  destruct (rsync.run _ _ _ _) as [[st t']|] eqn:Hrun; [|done]. simpl.
  destruct (rsync.is_option (tex_src tb +:+ "/")) eqn:Hos;
    destruct (rsync.is_option (tex_bld tb)) eqn:Hob.
  1-3: unfold rsync.run in Hrun; simpl in Hrun; rewrite Hos, Hob in Hrun;
       simpl in Hrun; by simplify_eq.
  rewrite <- Hk1. eapply (rsync_confined _ (tex_src tb) (tex_bld tb)); try done.
  - simpl. by rewrite Hos, Hob.
  - unfold rsync.deleting, rsync.long_flag. simpl.
    by rewrite !not_option_neq.
  - apply join2_nonempty. done.
Qed.

End sync_more.

Section mirror.
Implicit Types (t : tree) (q d s k : loc).

#[local] Instance shallower_trans : Transitive shallower.
Proof. unfold shallower. intros x y z. lia. Qed.

#[local] Instance shallower_total : Total shallower.
Proof. unfold shallower. intros x y. lia. Qed.








#[local] Opaque print_frame makedir subprocess.run.


End mirror.

(** ** A regular file in the place of BuildDir *)

Section file_for_bld.

Lemma chdir_at_file q c w :
  stat (fs w) q = Ret (File c) →
  os.chdir_at q w = (Raise NotADirectoryError, log (EChdir q) w).
Proof. intros Hs. unfold os.chdir_at. simpl. by rewrite Hs. Qed.

(** [rsync] into a regular file changes nothing. *)
Lemma rsync_file_destination args src dst wd und t c status t' :
  List.filter (λ a, negb (rsync.is_option a)) args = [src +:+ "/"; dst] →
  stat t (resolve wd dst) = Ret (File c) →
  rsync.run args wd und t = Some (status, t') →
  t' = t.
Proof.
  intros Hargs Hd. unfold rsync.run. rewrite Hargs. rewrite endswith_slash_snoc.
  set (d := resolve wd dst) in *.
  destruct (stat t (resolve wd (src +:+ "/"))) as [[x|]|e]; try (by intros [= _ <-]).
  destruct (negb (rsync.recursive args)); [by intros [= _ <-]|].
  assert (rsync.make_destination und d t = (t, false)) as ->.
  { unfold rsync.make_destination. destruct d; [done|].
    by rewrite (stat_File_inv _ _ _ Hd). }
  simpl. rewrite Hd. by intros [= _ <-].
Qed.

Lemma rsync_few_operands args wd und t status t' :
  length (List.filter (λ a, negb (rsync.is_option a)) args) ≠ 2%nat →
  rsync.run args wd und t = Some (status, t') → t' = t.
Proof.
  unfold rsync.run. destruct (List.filter _ args) as [|a [|b [|c l]]]; try done;
    by intros _ [= _ <-].
Qed.

#[local] Opaque os.getcwd os.chdir print_frame print_markup makedir subprocess.run.

(** X17. When a regular file stands where BuildDir should be,
    [build_document] raises [NotADirectoryError]: [makedir] accepts the
    file, the exit status of [rsync] is not looked at, and [os.chdir]
    fails.  The tree is as before. *)
Theorem build_with_file_for_bld others tb doc out opts w c :
  let b := resolve (cwd w) (tex_bld tb) in
  wf_world w →
  is_dir (fs w) (cwd w) = true →
  stat (fs w) b = Ret (File c) →
  ∃ w', build_document (machine others) tb doc out opts w = (Raise NotADirectoryError, w')
    ∧ fs w' = fs w ∧ cwd w' = cwd w.
Proof.
  intros b Hwf Hcwd Hb.
  assert (∃ w1, copy_build_files (machine others) tb w = (Ret (), w1)
                ∧ fs w1 = fs w ∧ cwd w1 = cwd w) as (w1 & E1 & Hfs1 & Hcwd1).
  { unfold copy_build_files. io_unfold. rewrite print_frame_copying.
    destruct (makedir _ _ _ _) as [r1 w1] eqn:Hmk.
    apply makedir_inv in Hmk as (_ & Hc & Hu & Hfs); [|apply tex_bld_nonempty].
    simpl in Hc, Hu, Hfs. fold b in Hfs.
    pose proof (stat_Ret_inv _ _ _ Hb) as [Hl Hs].
    assert (r1 = Ret (tex_bld tb) ∧ fs w1 = fs w) as [-> Hfs1].
    { destruct Hfs as [(-> & -> & _)|[(_ & _ & Hn & _)|(e & _ & _ & _ & Hse)]];
        [done|congruence|].
      rewrite Hs in Hse; [done|]. unfold b. rewrite resolve_tex_bld. apply snoc_nonempty. }
    rewrite run_eq. unfold machine. rewrite Hc, Hu, Hfs1.
    destruct (rsync.run _ _ _ _) as [[st t']|] eqn:Hrun.
    2:{ unfold rsync.run in Hrun. by repeat case_match. }
    simpl. eexists. split; [done|]. simpl. split; [|done].
    destruct (rsync.is_option (tex_src tb +:+ "/")) eqn:Hos;
      destruct (rsync.is_option (tex_bld tb)) eqn:Hob.
    1-3: eapply rsync_few_operands; [|exact Hrun]; simpl; rewrite Hos, Hob; simpl; lia.
    eapply (rsync_file_destination _ (tex_src tb) (tex_bld tb)); [|exact Hb|exact Hrun].
    simpl. by rewrite Hos, Hob. }
  assert (∃ w2, _run_latexmk_in_bld_dir (machine others) tb doc (default opts []) w1
                = (Raise NotADirectoryError, w2) ∧ fs w2 = fs w ∧ cwd w2 = cwd w)
    as (w2 & E2 & Hfs2 & Hcwd2).
  { unfold _run_latexmk_in_bld_dir, having_cwd. io_unfold.
    rewrite getcwd_eq, Hfs1, Hcwd1, Hcwd. rewrite chdir_eq by apply tex_bld_nonempty.
    simpl. rewrite Hcwd1. fold b. rewrite (chdir_at_file b c) by (simpl; by rewrite Hfs1).
    rewrite chdir_loc_str by done. rewrite chdir_at_ok by (simpl; by rewrite Hfs1).
    eexists. split; [done|]. simpl. by rewrite Hfs1. }
  exists w2. unfold build_document. io_unfold. by rewrite E1, E2.
Qed.

#[local] Opaque report_error.

(** X22. When a regular file stands where BuildDir should be, [clean]
    reports it twice (for [scandir] and for [rmdir]), leaves it where it is
    and ends with [CLEANUP FINISHED (errors encountered)]. *)
Theorem clean_file_for_bld tb w c :
  let b := resolve (cwd w) (tex_bld tb) in
  let w' := (clean tb w).2 in
  let news := drop (length (trace w)) (trace w') in
  stat (fs w) b = Ret (File c) →
  (clean tb w).1 = Ret ()
  ∧ fs w' = fs w
  ∧ List.filter is_report news = [report_line (tex_bld tb); report_line (tex_bld tb)]
  ∧ List.last news EGetcwd = cleanup_finished true.
Proof.
  intros b w' news Hb. subst w' news. unfold clean. io_unfold.
  rewrite print_frame_cleaning, path_exists_eq by apply tex_bld_nonempty. simpl.
  fold b. rewrite Hb.
  unfold shutil.rmtree. rewrite bool_decide_eq_false_2 by apply tex_bld_nonempty.
  unfold os.stat_at. simpl. fold b. rewrite Hb. io_unfold.
  rewrite report_error_eq. unfold shutil.guarded. io_unfold.
  unfold os.rmdir_at. simpl. rewrite Hb. simpl.
  rewrite report_error_eq, print_markup_eq. simpl.
  rewrite <- !app_assoc, since_app.
  split_and!; [done|done| |].
  - simpl. set (x := _ +:+ LF). by destruct x.
  - rewrite !app_assoc. apply last_last.
Qed.

End file_for_bld.

(** ** The further properties on the small project *)

(** The entries of a tree given by its list, one goal for each. *)
Ltac entries H :=
  apply elem_of_map_to_list in H; vm_compute in H;
  repeat (apply elem_of_cons in H as [H|H]);
  [..|by apply elem_of_nil in H].

Lemma makedir_strict_witness :
  (makedir ["/tmp/proj/src"] false false example.w0).1 = Raise FileExistsError
  ∧ fs (makedir ["/tmp/proj/src"] false false example.w0).2 = example.fs0.
Proof.
  assert ((os.stat "/tmp/proj/src" example.w0).1 = Ret Dir) as Hs by (vm_compute; reflexivity).
  rewrite (makedir_strict_over_entry "/tmp/proj/src" Dir example.w0 Hs). done.
Defined.

Lemma makedir_creates_witness :
  (makedir ["/tmp/proj"; "dst"] false false example.w0).1 = Ret "/tmp/proj/dst"
  ∧ is_dir (fs (makedir ["/tmp/proj"; "dst"] false false example.w0).2)
      (example.proj ++ ["dst"]) = true.
Proof.
  destruct (makedir_creates "/tmp/proj" ["dst"] false example.w0) as [Hrun Hdir].
  - discriminate.
  - vm_compute. reflexivity.
  - vm_compute. reflexivity.
  - rewrite Hrun. split; [reflexivity|]. vm_compute. reflexivity.
Defined.

Lemma makedir_missing_parent_witness :
  (makedir ["/tmp/none/x"] true false example.w0).1 = Raise FileNotFoundError.
Proof.
  destruct (makedir_missing_parent "/tmp/none/x" true example.w0) as (e & _ & _ & Hrun).
  - discriminate.
  - discriminate.
  - vm_compute. reflexivity.
  - vm_compute. reflexivity.
Defined.

Lemma makedir_recursive_witness :
  (makedir ["/tmp/a/b"] false true example.w0).1 = Ret "/tmp/a/b"
  ∧ fs (makedir ["/tmp/a/b"] false true example.w0).2 !! ["tmp"; "a"] = Some Dir
  ∧ fs (makedir ["/tmp/a/b"] false true example.w0).2 !! ["tmp"; "a"; "b"] = Some Dir.
Proof.
  destruct (makedir_recursive_creates "/tmp/a/b" false example.w0)
    as (w' & Hrun & Hfs & _).
  - discriminate.
  - apply (bool_decide_unpack _). vm_compute. exact I.
  - vm_compute. reflexivity.
  - intros k x [rest E]. vm_compute in E.
    destruct k as [|k1 [|k2 [|k3 [|k4 k]]]]; simplify_eq; vm_compute; discriminate.
  - right. vm_compute. reflexivity.
  - rewrite Hrun. simpl. rewrite !Hfs. split_and!; reflexivity.
Defined.

Lemma makedir_recursive_over_file_witness :
  (makedir ["/tmp/proj/src/main.tex"] true true example.w0).1 = Raise FileExistsError.
Proof.
  destruct (makedir_recursive_over_file "/tmp/proj/src/main.tex" "TEX" true example.w0)
    as (w' & Hrun & _).
  - vm_compute. reflexivity.
  - by rewrite Hrun.
Defined.

Lemma init_dirs_witness :
  (init_dirs (mkTexBuild "/tmp/new") example.w0).1 = Ret ()
  ∧ fs (init_dirs (mkTexBuild "/tmp/new") example.w0).2 !! ["tmp"; "new"; "src"] = Some Dir
  ∧ fs (init_dirs (mkTexBuild "/tmp/new") example.w0).2 !! ["tmp"; "new"; "bld"] = None.
Proof.
  destruct (init_dirs_makes_root_and_src (mkTexBuild "/tmp/new") example.w0)
    as (w' & Hrun & Hfs & _).
  - discriminate.
  - apply (bool_decide_unpack _). vm_compute. exact I.
  - vm_compute. reflexivity.
  - intros k x [rest E]. vm_compute in E.
    destruct k as [|k1 [|k2 [|k3 [|k4 k]]]]; simplify_eq; vm_compute; discriminate.
  - rewrite Hrun. simpl. rewrite !Hfs. split_and!; reflexivity.
Defined.

Lemma having_cwd_inside_witness :
  having_cwd "/tmp" os.getcwd example.w0
  = (Ret "/tmp",
     mkWorld example.fs0 ["work"] ∅ [EGetcwd; EChdir ["tmp"]; EGetcwd; EChdir ["work"]]).
Proof.
  rewrite (having_cwd_runs_body_inside "/tmp" os.getcwd example.w0 (Ret "/tmp")
             (mkWorld example.fs0 ["tmp"] ∅ [EGetcwd; EChdir ["tmp"]; EGetcwd])).
  - reflexivity.
  - reflexivity.
  - discriminate.
  - vm_compute. reflexivity.
  - vm_compute. reflexivity.
  - vm_compute. reflexivity.
Defined.

Lemma having_cwd_skips_witness :
  (having_cwd "/nowhere" (print "never" "") example.w0).1 = Raise FileNotFoundError
  ∧ trace (having_cwd "/nowhere" (print "never" "") example.w0).2
    = [EGetcwd; EChdir ["nowhere"]; EChdir ["work"]].
Proof.
  destruct (having_cwd_skips_body "/nowhere" (print "never" "") example.w0)
    as (e & _ & Hrun).
  - reflexivity.
  - discriminate.
  - vm_compute. reflexivity.
  - vm_compute. reflexivity.
  - split; [vm_compute; reflexivity|]. rewrite Hrun. reflexivity.
Defined.

Lemma print_frame_witness :
  trace (print_frame "BUILDING DOCUMENT" frame_markup example.w0).2
  = frame "BUILDING DOCUMENT" 21.
Proof.
  rewrite (print_frame_one_line "BUILDING DOCUMENT" frame_markup example.w0).
  - reflexivity.
  - discriminate.
  - reflexivity.
Defined.

Lemma sync_exit_status_witness :
  (copy_build_files example.fails example.tb example.w0).1 = Ret ().
Proof.
  destruct (sync_ignores_exit_status example.fails example.tb example.w0) as (Hr & _).
  - vm_compute. reflexivity.
  - exact Hr.
Defined.

Lemma sync_touches_witness :
  fs (copy_build_files (machine example.compiles) example.tb example.w0).2
    !! (example.proj ++ ["src"; "main.tex"]) = Some (File "TEX").
Proof.
  rewrite (sync_touches_only_build_dir example.compiles example.tb example.w0
             (example.proj ++ ["src"; "main.tex"])).
  - vm_compute. reflexivity.
  - intros [x E]. vm_compute in E. discriminate.
Defined.

Lemma connected_fs0 q : connected_below q example.fs0.
Proof.
  intros k n _ Hk. entries Hk; simplify_eq; vm_compute; reflexivity.
Qed.


Lemma publish_without_artifact_witness :
  (_copy_to_dst example.tb "main" (VStr "main") example.w0).1 = Raise FileNotFoundError
  ∧ fs (_copy_to_dst example.tb "main" (VStr "main") example.w0).2
      !! (example.proj ++ ["dst"]) = Some Dir.
Proof.
  destruct (publish_without_artifact example.tb "main" "main" example.w0)
    as (e & w' & Hrun & _ & Hfs).
  - vm_compute. reflexivity.
  - vm_compute. reflexivity.
  - vm_compute. reflexivity.
  - split; [vm_compute; reflexivity|]. rewrite Hrun. simpl. rewrite Hfs.
    vm_compute. reflexivity.
Defined.

Lemma missing_compiler_witness :
  (build_document scenes.bare example.tb "main" None None example.w0).1
  = Raise FileNotFoundError.
Proof.
  destruct (missing_compiler_is_raised scenes.bare example.tb "main" None None example.w0
              (copy_build_files scenes.bare example.tb example.w0).2)
    as (w' & Hrun & _).
  - reflexivity.
  - vm_compute. reflexivity.
  - vm_compute. reflexivity.
  - vm_compute. reflexivity.
  - by rewrite Hrun.
Defined.

Lemma loop_witness :
  count_runs (rsync_command example.tb)
    (trace (loop (machine example.fails) 1 example.tb "main" None None example.w0).2)
  = 2%nat.
Proof.
  destruct (loop_builds_once_per_change (machine example.fails) 1 example.tb "main"
              None None example.w0
              (loop (machine example.fails) 1 example.tb "main" None None example.w0).2)
    as (Hc & _).
  - vm_compute. reflexivity.
  - exact Hc.
Defined.


Lemma clean_absent_witness :
  (clean (mkTexBuild "/tmp") example.w0).1 = Ret ()
  ∧ fs (clean (mkTexBuild "/tmp") example.w0).2 = example.fs0.
Proof.
  rewrite (clean_absent (mkTexBuild "/tmp") example.w0).
  - split; reflexivity.
  - vm_compute. reflexivity.
Defined.

Lemma clean_removes_witness :
  (clean example.tb example.w0).1 = Ret ()
  ∧ fs (clean example.tb example.w0).2 !! (example.proj ++ ["bld"]) = None
  ∧ fs (clean example.tb example.w0).2 !! (example.proj ++ ["bld"; "extra.aux"]) = None
  ∧ fs (clean example.tb example.w0).2 !! (example.proj ++ ["src"; "main.tex"])
    = Some (File "TEX").
Proof.
  destruct (clean_removes_build_dir example.tb example.w0) as (Hr & Hfs & _).
  - vm_compute. reflexivity.
  - apply connected_fs0.
  - intros k _. apply not_elem_of_empty.
  - split; [exact Hr|]. rewrite !Hfs. split_and!; vm_compute; reflexivity.
Defined.

Lemma build_with_file_witness :
  (build_document (machine example.compiles) example.tb "main" None None scenes.w_file).1
  = Raise NotADirectoryError.
Proof.
  destruct (build_with_file_for_bld example.compiles example.tb "main" None None
              scenes.w_file "X") as (w' & Hrun & _).
  - reflexivity.
  - vm_compute. reflexivity.
  - vm_compute. reflexivity.
  - by rewrite Hrun.
Defined.

Lemma clean_file_witness :
  (clean example.tb scenes.w_file).1 = Ret ()
  ∧ fs (clean example.tb scenes.w_file).2 !! (example.proj ++ ["bld"]) = Some (File "X").
Proof.
  destruct (clean_file_for_bld example.tb scenes.w_file "X") as (Hr & Hfs & _).
  - vm_compute. reflexivity.
  - split; [exact Hr|]. rewrite Hfs. vm_compute. reflexivity.
Defined.
